(** * neuropredict: the repeated-holdout cross-validation workflow

    A shallow embedding of [neuropredict/base.py] (class [BaseWorkflow]) and
    the properties of its specification.

    The workflow object is a Python object: its attribute dictionary is a
    finite map from attribute names to Python values, and every method is a
    computation in a state-and-exception monad over the attribute dictionary,
    the file system, the state of the [random] module and a log of the calls
    made to collaborators (dataset collection, pipeline factory, optimiser).
    Floating-point values are IEEE 754 binary64, computed with the
    specification of Corelib ([SpecFloat]). Console output is not modelled. *)

From Stdlib Require Import ZArith String Ascii List Lia.
From Stdlib Require Import Floats.SpecFloat.
From stdpp Require Import base option list gmap strings fin_maps sets.

Local Open Scope string_scope.
Local Open Scope Z_scope.

(** ** Python values *)

Module Py.

(** *** binary64 *)

Definition float64 : Type := spec_float.

Definition prec : Z := 53.
Definition emax : Z := 1024.

Definition fmul : float64 -> float64 -> float64 := SFmul prec emax.
Definition fdiv : float64 -> float64 -> float64 := SFdiv prec emax.
Definition fle : float64 -> float64 -> bool := SFleb.
Definition flt : float64 -> float64 -> bool := SFltb.

(** [float(n)] for a Python [int]: the nearest binary64, ties to even. *)
Definition float_of_int (n : Z) : float64 := binary_normalize prec emax n 0 false.

Definition nan : float64 := S754_nan.
Definition inf : float64 := S754_infinity false.
Definition fzero : float64 := S754_zero false.
Definition fone : float64 := float_of_int 1.

(** The literal [a/b] of the source text, e.g. [0.01] is [decimal 1 100]:
    the division of two exactly represented integers is correctly rounded,
    which is how a decimal literal is read. *)
Definition decimal (a b : Z) : float64 := fdiv (float_of_int a) (float_of_int b).

(** The integer part of [±m·2^e], rounded toward zero and toward minus
    infinity. *)
Definition mantissa_shift (m : positive) (e : Z) : Z * Z :=
  (* quotient and remainder of m·2^e by 1 *)
  if 0 <=? e then (Z.shiftl (Zpos m) e, 0)
  else (Z.shiftr (Zpos m) (- e), Z.land (Zpos m) (Z.ones (- e))).

Definition trunc_Z (x : float64) : option Z :=
  match x with
  | S754_zero _ => Some 0
  | S754_finite s m e =>
      let q := fst (mantissa_shift m e) in Some (if s then - q else q)
  | S754_infinity _ | S754_nan => None
  end.

Definition floor_Z (x : float64) : option Z :=
  match x with
  | S754_zero _ => Some 0
  | S754_finite s m e =>
      let '(q, r) := mantissa_shift m e in
      Some (if s then (if r =? 0 then - q else - q - 1) else q)
  | S754_infinity _ | S754_nan => None
  end.

(** *** numpy scalars *)

(** [np.floor]: the largest integral binary64 not above the argument; zeros,
    infinities and NaN are returned unchanged. *)
Definition np_floor (x : float64) : float64 :=
  match x with
  | S754_finite s m e =>
      if 0 <=? e then x
      else match floor_Z x with
           | Some q => binary_normalize prec emax q 0 s
           | None => x
           end
  | _ => x
  end.

Definition INT64_MIN : Z := - 2 ^ 63.
Definition INT64_MAX : Z := 2 ^ 63 - 1.

(** [np.int64(x)] for a binary64 [x]: the C conversion, which truncates.
    NaN, the infinities and values outside the range of int64 give the
    "integer indefinite" value of the x86-64 conversion instruction. *)
Definition np_int64 (x : float64) : Z :=
  match trunc_Z x with
  | Some q => if (INT64_MIN <=? q) && (q <=? INT64_MAX) then q else INT64_MIN
  | None => INT64_MIN
  end.

(** *** Exceptions *)

Inductive exn : Type :=
| ValueError (msg : string)
| OverflowError (msg : string)
| TypeError (msg : string)
| AttributeError (name : string)
| KeyError (key : string)
| IndexError (msg : string)
| NotImplementedError (msg : string)
| IOError (msg : string)
| CollaboratorError (who : string).

Inductive result (A : Type) : Type :=
| Ok (a : A)
| Raise (e : exn).
Arguments Ok {A} a.
Arguments Raise {A} e.

Definition is_ok {A} (r : result A) : bool :=
  match r with Ok _ => true | Raise _ => false end.

(** *** Plain data *)

(** The values that configuration attributes and result records hold.
    [DArray] is a one-dimensional [ndarray] of binary64. *)
#[warnings="-register-all"]
Inductive pydata : Type :=
| DNone
| DBool (b : bool)
| DInt (z : Z)
| DFloat (f : float64)
| DStr (s : string)
| DList (l : list pydata)
| DArray (a : list float64).

(** [int(x)]. The conversion of a [str] parses a numeral and is left to
    [int_of_str]. *)
Definition int_ (int_of_str : string -> result Z) (x : pydata) : result Z :=
  match x with
  | DInt z => Ok z
  | DBool b => Ok (if b then 1 else 0)
  | DFloat f =>
      match f with
      | S754_nan => Raise (ValueError "cannot convert float NaN to integer")
      | S754_infinity _ =>
          Raise (OverflowError "cannot convert float infinity to integer")
      | _ => match trunc_Z f with
             | Some q => Ok q
             | None => Raise (ValueError "cannot convert float NaN to integer")
             end
      end
  | DStr s => int_of_str s
  | DNone | DList _ | DArray _ =>
      Raise (TypeError "int() argument must be a string or a number")
  end.

(** [np.isfinite(n)] for a Python [int]: an int that fits neither int64 nor
    uint64 becomes an object array, for which the ufunc is not defined. *)
Definition np_isfinite_int (n : Z) : result bool :=
  if (INT64_MIN <=? n) && (n <? 2 ^ 64) then Ok true
  else Raise (TypeError "ufunc 'isfinite' not supported for the input types").

(** [x <= c] and [x >= c] for a float constant [c]; an [int] is compared by
    value, which for the constants 0.0 and 1.0 used here is exact. *)
Definition le_const (x : pydata) (c : Z) : result bool :=
  match x with
  | DInt z => Ok (z <=? c)
  | DBool b => Ok ((if b then 1 else 0) <=? c)
  | DFloat f => Ok (fle f (float_of_int c))
  | _ => Raise (TypeError "'<=' not supported between these instances")
  end.

Definition ge_const (x : pydata) (c : Z) : result bool :=
  match x with
  | DInt z => Ok (c <=? z)
  | DBool b => Ok (c <=? (if b then 1 else 0))
  | DFloat f => Ok (fle (float_of_int c) f)
  | _ => Raise (TypeError "'>=' not supported between these instances")
  end.

(** [n * x] for an [int] [n]. *)
Definition int_mul (n : Z) (x : pydata) : result pydata :=
  match x with
  | DInt z => Ok (DInt (n * z))
  | DBool b => Ok (DInt (n * (if b then 1 else 0)))
  | DFloat f => Ok (DFloat (fmul (float_of_int n) f))
  | _ => Raise (TypeError "unsupported operand type(s) for *")
  end.

(** [np.int64(np.floor(x))]; an integer argument is floored as a binary64. *)
Definition np_floor_int64 (x : pydata) : result Z :=
  match x with
  | DFloat f => Ok (np_int64 (np_floor f))
  | DInt z => Ok (np_int64 (np_floor (float_of_int z)))
  | DBool b => Ok (if b then 1 else 0)
  | _ => Raise (TypeError "ufunc 'floor' not supported for the input types")
  end.

(** [str.lower], on the ASCII letters. *)
Definition lower_ascii (c : ascii) : ascii :=
  let n := N_of_ascii c in
  if ((65 <=? n) && (n <=? 90))%N then ascii_of_N (n + 32) else c.

Fixpoint lower (s : string) : string :=
  match s with
  | EmptyString => EmptyString
  | String c r => String (lower_ascii c) (lower r)
  end.

Definition str_lower (x : pydata) : result string :=
  match x with
  | DStr s => Ok (lower s)
  | _ => Raise (AttributeError "lower")
  end.

Definition in_list (s : string) (l : list string) : bool :=
  bool_decide (s ∈ l).

(** [os.path.join(a, b)] of [posixpath], for the values that [pydata] has:
    a string is joined, every other one of them raises [TypeError]. A value
    of [os.PathLike], which [os.path.join] accepts as it does a string, is
    none of [pydata], and is not modelled. *)
Definition startswith_sep (s : string) : bool :=
  match s with String "/" _ => true | _ => false end.

Fixpoint endswith_sep (s : string) : bool :=
  match s with
  | EmptyString => false
  | String c EmptyString => bool_decide (c = "/"%char)
  | String _ r => endswith_sep r
  end.

Definition pjoin (a : pydata) (b : string) : result string :=
  match a with
  | DStr a =>
      if startswith_sep b then Ok b
      else if bool_decide (a = "") || endswith_sep a then Ok (a ++ b)%string
      else Ok (a ++ "/" ++ b)%string
  | _ => Raise (TypeError "expected str, bytes or os.PathLike object")
  end.

(** [l[:k]]: a negative bound counts from the end. *)
Definition slice_to {A} (l : list A) (k : Z) : list A :=
  if k <? 0 then take (Z.to_nat (Z.of_nat (length l) + k)) l
  else take (Z.to_nat k) l.

(** [max(a, b)] and [min(a, b)] of two integers. *)
Definition max_ (a b : Z) : Z := if a <? b then b else a.
Definition min_ (a b : Z) : Z := if b <? a then b else a.

End Py.

Import Py.

(** ** The objects the workflow works with *)

(** A two-dimensional [ndarray]: one row per sample. *)
Record ndarray : Type := {
  nrows : nat;
  ncols : nat;
  entries : list float64
}.

Definition bytes : Type := list Byte.byte.

(** [np.column_stack] of one-dimensional arrays. *)
Definition np_column_stack (cols : list (list float64)) : result ndarray :=
  match cols with
  | [] => Raise (ValueError "need at least one array to concatenate")
  | c :: _ =>
      let n := length c in
      if forallb (fun c' => Nat.eqb (length c') n) cols then
        Ok {| nrows := n; ncols := length cols;
              entries := concat (map (fun i => map (fun c' => nth i c' nan) cols)
                                     (seq 0 n)) |}
      else Raise (ValueError "all the input array dimensions must match exactly")
  end.

(** A stage of a pipeline, an estimator or a transformer: whether it has a
    method [get_support], with the indices that [get_support(indices=True)]
    returns, and its data attributes. *)
Inductive attrval : Type :=
| AScalar (v : float64)
| AVector (v : list float64)
| AMatrix (rows : list (list float64)).

Record stage : Type := {
  get_support : option (list nat);
  stage_attrs : gmap string attrval
}.

(** An element of [pipeline.steps]. A [Pipeline] of sklearn keeps its steps
    as the pairs [(name, estimator)]; such a pair is a tuple, which has no
    method [get_support] and no data attribute, whatever the estimator in it
    has. An object that keeps the stages themselves in [steps] has them as
    elements. *)
Inductive step : Type :=
| Named (name : string) (estimator : stage)
| Bare (object : stage).

Record Pipeline : Type := { steps : list step }.

(** The estimator or transformer of a step. *)
Definition stage_of (s : step) : stage :=
  match s with Named _ o => o | Bare o => o end.

(** [hasattr(s, 'get_support')] with the value of
    [s.get_support(indices=True)], and [hasattr(s, name)] with the value of
    [getattr(s, name)], of an element [s] of [pipeline.steps]. *)
Definition step_get_support (s : step) : option (list nat) :=
  match s with
  | Bare o => get_support o
  | Named _ _ => None
  end.

Definition step_attr (s : step) (name : string) : option attrval :=
  match s with
  | Bare o => stage_attrs o !! name
  | Named _ _ => None
  end.

(** A label of a sample: a class or a value to regress. *)
Inductive target : Type :=
| TClass (c : string)
| TValue (v : float64).

Definition subset : Type := ndarray * list target.

(** The dataset collection ([datasets]); the class is pyradigm's. *)
Record Datasets : Type := {
  samplet_ids : list string;
  modality_ids : list string;
  target_sizes : list (string * Z);
  get_subsets : list string -> list string ->
                result (list (string * (subset * subset)));
  get_attr : string -> string -> result bool;
  get_common_attr : pydata -> list string ->
                    result (list (list pydata) * list string)
}.

(** Modelled from the spec: the result accumulator ([neuropredict.results],
    classes [ClassifyCVResults] and [RegressCVResults]), which is
    "initialized with expected dimensions: metric name, repetition count,
    list of modality identifiers" and holds records "keyed by (repetition
    index, modality ID)". *)
Record CVResults : Type := {
  classification : bool;
  metric : pydata;
  num_rep : pydata;
  res_modality_ids : list string;
  records : list (pydata * string * string * pydata)
}.

Definition ClassifyCVResults (scoring num_rep_cv : pydata) (ids : list string) :=
  {| classification := true; metric := scoring; num_rep := num_rep_cv;
     res_modality_ids := ids; records := [] |}.

Definition RegressCVResults (scoring num_rep_cv : pydata) (ids : list string) :=
  {| classification := false; metric := scoring; num_rep := num_rep_cv;
     res_modality_ids := ids; records := [] |}.

(** The value of an attribute of the workflow object. *)
Inductive pyval : Type :=
| PyData (d : pydata)
| PyDatasets (d : Datasets)
| PyResults (r : CVResults).

Coercion PyData : pydata >-> pyval.

Abbreviation attributes := (gmap string pyval).

(** A fitted transformer is its [transform]. *)
Definition transformer : Type := ndarray -> result ndarray.
Definition deconfounder : Type := ndarray -> ndarray -> result ndarray.

(** The constants of [config_neuropredict] that the class reads. *)
Record Config : Type := {
  workflow_types : list string;
  GRIDSEARCH_LEVELS : list string;
  results_file_name : string;
  results_to_save : list string;
  missing_data_flag_name : string;
  default_preprocessing_method : string;
  importance_attr : gmap string string
}.

(** What the class imports and calls: the functions of
    [neuropredict.algorithms] and [neuropredict.utils], the grid search of
    scikit-learn, [pickle], and the methods of the result accumulator. *)
Record Library : Type := {
  int_of_str : string -> result Z;
  check_num_procs : pyval -> result Z;
  chance_accuracy : list Z -> string -> result float64;
  impute_missing_data :
    ndarray -> list target -> pyval -> ndarray -> result (ndarray * ndarray);
  (* [get_preprocessor(name)] and [preproc.fit(train_data)] *)
  preprocessor_fit : string -> ndarray -> result transformer;
  encode : list (list pydata) -> list string -> result (list (list float64));
  (* [get_deconfounder(name, level)] and [deconf.fit(train_data, train_covar)] *)
  deconfounder_fit : pyval -> pyval -> ndarray -> ndarray -> result deconfounder;
  compute_reduced_dimensionality : pyval -> Z -> nat -> result Z;
  make_pipeline : pyval -> pyval -> Z -> Z -> pyval -> result (Pipeline * pydata);
  (* [GridSearchCV(pipeline, param_grid, cv=ShuffleSplit(...)).fit(...)],
     giving [best_estimator_] and [best_params_] *)
  grid_search_fit :
    Pipeline -> pydata -> ndarray -> list target -> pyval -> result (Pipeline * pydata);
  add_attr : CVResults -> pydata -> string -> string -> pydata -> result CVResults;
  (* [results.dump(out_dir)]: the file written and its contents *)
  results_dump : CVResults -> pyval -> result (string * bytes);
  pickle_dump : gmap string pyval -> option bytes;
  pickle_load : bytes -> option (gmap string pyval)
}.

(** The abstract methods, which a subclass defines. [summarize] and
    [visualize] read the attributes of the workflow; what they print, draw
    or write of their own is outside the files of the model, which are those
    that the methods of [BaseWorkflow] themselves read and write. *)
Record Subclass : Type := {
  _eval_predictions :
    attributes -> Pipeline -> ndarray -> list target -> pydata -> string ->
    result CVResults;
  summarize : attributes -> result string;
  visualize : attributes -> result unit
}.

(** ** The state of a run *)

(** The calls that leave the workflow object. *)
Inductive event : Type :=
| ReadSampletIds
| ReadTargetSizes
| GetSubsets (train_set test_set : list string)
| Impute (ds_id : string)
| Preprocess
| GetCommonAttr (covariates : pydata) (ids : list string)
| Deconfound (train_data train_covar : ndarray)
| Optimize (train_data : ndarray)
| Evaluate (run_id : pydata) (ds_id : string)
| Checkpoint (path : string)
| PickleLoad (path : string)
| PickleDump (path : string)
| Summarize (report : string)
| Visualize.

Record world : Type := {
  self : attributes;                 (* [self.__dict__] *)
  files : gmap string bytes;         (* the regular files, by path *)
  writable : string -> bool;         (* whether a path can be opened for writing *)
  random_state : nat -> nat;         (* the draws the generator will make *)
  log : list event
}.

Definition with_self (a : attributes) (w : world) : world :=
  {| self := a; files := files w; writable := writable w;
     random_state := random_state w; log := log w |}.
Definition with_files (f : gmap string bytes) (w : world) : world :=
  {| self := self w; files := f; writable := writable w;
     random_state := random_state w; log := log w |}.
Definition with_random_state (r : nat -> nat) (w : world) : world :=
  {| self := self w; files := files w; writable := writable w;
     random_state := r; log := log w |}.
Definition with_log (l : list event) (w : world) : world :=
  {| self := self w; files := files w; writable := writable w;
     random_state := random_state w; log := l |}.

(** ** The monad of methods *)

Definition M (A : Type) : Type := world -> result A * world.

#[global] Instance M_ret : MRet M := fun A a w => (Ok a, w).
#[global] Instance M_bind : MBind M := fun A B f c w =>
  match c w with
  | (Ok a, w') => f a w'
  | (Raise e, w') => (Raise e, w')
  end.

Definition raise {A} (e : exn) : M A := fun w => (Raise e, w).
Definition lift {A} (r : result A) : M A := fun w => (r, w).
Definition emit (ev : event) : M unit :=
  fun w => (Ok tt, with_log (log w ++ [ev]) w).
Definition call {A} (ev : event) (r : result A) : M A := emit ev ;; lift r.

(** [self.name], [self.name = v] and [getattr(self, name, None)]. *)
Definition getattr (name : string) : M pyval := fun w =>
  match self w !! name with
  | Some v => (Ok v, w)
  | None => (Raise (AttributeError name), w)
  end.
Definition setattr (name : string) (v : pyval) : M unit :=
  fun w => (Ok tt, with_self (<[name := v]> (self w)) w).
Definition getattr_default (a : attributes) (name : string) : pyval :=
  default (PyData DNone) (a !! name).

Definition get_self : M attributes := fun w => (Ok (self w), w).

(** A plain-data attribute; a collaborator object in its place has none of
    the methods and operators of plain data. *)
Definition as_data (v : pyval) : M pydata :=
  match v with
  | PyData d => mret d
  | _ => raise (TypeError "unsupported operand")
  end.
Definition getdata (name : string) : M pydata := getattr name ≫= as_data.

(** [for x in l: body(x)] *)
Fixpoint for_ {A} (l : list A) (body : A -> M unit) : M unit :=
  match l with
  | [] => mret tt
  | x :: r => body x ;; for_ r body
  end.

(** [open(path, 'wb')] creates or truncates the file; [open(path, 'rb')]
    and [file.read()] give its contents. *)
Definition open_wb (path : string) : M unit := fun w =>
  if writable w path then (Ok tt, with_files (<[path := []]> (files w)) w)
  else (Raise (IOError "Permission denied"), w).

Definition write (path : string) (content : bytes) : M unit := fun w =>
  (Ok tt, with_files (<[path := content]> (files w)) w).

Definition read_rb (path : string) : M bytes := fun w =>
  match files w !! path with
  | Some content => (Ok content, w)
  | None => (Raise (IOError "No such file or directory"), w)
  end.

Definition pickling {A} (o : option A) : M A :=
  match o with
  | Some a => mret a
  | None => raise (ValueError "pickle")
  end.

(** [try: body except: handler] *)
Definition try_except {A} (body : M A) (handler : M A) : M A := fun w =>
  match body w with
  | (Ok a, w') => (Ok a, w')
  | (Raise _, w') => handler w'
  end.

(** ** [random.shuffle] *)

(** [x[i], x[j] = x[j], x[i]] *)
Definition swap {A} (l : list A) (i j : nat) : list A :=
  match l !! i, l !! j with
  | Some a, Some b => <[j := a]> (<[i := b]> l)
  | _, _ => l
  end.

(** [for i in reversed(range(1, len(x))): j = randbelow(i + 1); swap].
    The generator is the sequence of its future raw draws; [randbelow(n)]
    reduces the next draw below [n], so that [j] ranges over [0 .. i], the
    position [i] itself included. *)
Fixpoint shuffle_from {A} (i : nat) (draws : nat -> nat) (l : list A)
  : list A * (nat -> nat) :=
  match i with
  | O => (l, draws)
  | S i' =>
      let j := (draws O `mod` S i)%nat in
      shuffle_from i' (fun k => draws (S k)) (swap l i j)
  end.

Definition shuffle {A} (l : list A) (draws : nat -> nat) : list A * (nat -> nat) :=
  shuffle_from (length l - 1) draws l.

Definition random_shuffle (l : list string) : M (list string) := fun w =>
  let '(l', r) := shuffle l (random_state w) in
  (Ok l', with_random_state r w).

(** ** Feature importance *)

(** The right-hand side of [a[index] = value], broadcast to the [k] selected
    positions. *)
Definition broadcast (v : attrval) (k : nat) : result (list float64) :=
  let vector l :=
    if Nat.eqb (length l) k then Ok l
    else match l with
         | [x] => Ok (replicate k x)
         | _ => Raise (ValueError "shape mismatch: value array could not be broadcast to indexing result")
         end in
  match v with
  | AScalar x => Ok (replicate k x)
  | AVector l => vector l
  | AMatrix [l] => vector l
  | AMatrix _ =>
      Raise (ValueError "shape mismatch: value array could not be broadcast to indexing result")
  end.

(** [a[index] = values]: positions are written in order. *)
Definition assign_at (a : list float64) (index : list nat) (values : list float64)
  : result (list float64) :=
  if forallb (fun i => Nat.ltb i (length a)) index then
    Ok (foldl (fun acc iv => <[fst iv := snd iv]> acc) a (zip index values))
  else Raise (IndexError "index is out of bounds").

Section Workflow.

Context (cfg : Config) (lib : Library) (sub : Subclass).

(** [cfg.importance_attr[est_name]] *)
Definition importance_attr_of (est_name : pyval) : result string :=
  match est_name with
  | PyData (DStr s) =>
      match importance_attr cfg !! s with
      | Some a => Ok a
      | None => Raise (KeyError s)
      end
  | _ => Raise (KeyError "est_name")
  end.

(** [BaseWorkflow._get_feature_importance] (a static method). [None] is the
    absent importance. *)
Definition _get_feature_importance (est_name : pyval) (pipeline : Pipeline)
    (num_features : nat) (fill_value : float64) : result (option (list float64)) :=
  match steps pipeline !! 1%nat, last (steps pipeline) with
  | Some dim_red, Some est =>
      match step_get_support dim_red with
      | Some index_selected_features =>
          match importance_attr_of est_name with
          | Ok name =>
              match step_attr est name with
              | Some importance =>
                  let feat_importance := replicate num_features fill_value in
                  match broadcast importance (length index_selected_features) with
                  | Ok values =>
                      match assign_at feat_importance index_selected_features values with
                      | Ok a => Ok (Some a)
                      | Raise e => Raise e
                      end
                  | Raise e => Raise e
                  end
              | None => Ok None
              end
          | Raise e => Raise e
          end
      | None => Ok None
      end
  | _, _ => Raise (IndexError "list index out of range")
  end.

(** The arguments of the constructor. *)
Record Args : Type := {
  arg_datasets : pyval;
  arg_pred_model : pyval;
  arg_impute_strategy : pyval;
  arg_covariates : pyval;
  arg_deconfounder : pyval;
  arg_dim_red_method : pyval;
  arg_reduced_dim : pyval;
  arg_train_perc : pyval;
  arg_num_rep_cv : pyval;
  arg_scoring : pyval;
  arg_grid_search_level : pyval;
  arg_out_dir : pyval;
  arg_num_procs : pyval;
  arg_user_options : pyval;
  arg_checkpointing : pyval;
  arg_workflow_type : pyval
}.

Definition as_datasets (v : pyval) (attr : string) : M Datasets :=
  match v with
  | PyDatasets d => mret d
  | _ => raise (AttributeError attr)
  end.

Definition as_results (v : pyval) (attr : string) : M CVResults :=
  match v with
  | PyResults r => mret r
  | _ => raise (AttributeError attr)
  end.

Definition as_int (v : pyval) : M Z :=
  match v with
  | PyData (DInt z) => mret z
  | PyData (DBool b) => mret (if b then 1 else 0)
  | _ => raise (TypeError "object cannot be interpreted as an integer")
  end.

Definition as_str (v : pyval) : M string :=
  match v with
  | PyData (DStr s) => mret s
  | _ => raise (TypeError "expected str")
  end.

(** The sample identifiers are strings. *)
Definition as_id_list (v : pyval) : M (list string) :=
  match v with
  | PyData (DList l) =>
      match mapM (fun x => match x with DStr s => Some s | _ => None end) l with
      | Some ids => mret ids
      | None => raise (TypeError "sample identifiers are str")
      end
  | _ => raise (TypeError "object is not a list")
  end.

Definition id_list (ids : list string) : pyval := PyData (DList (DStr <$> ids)).

(** [if x:] *)
Definition truthy (v : pyval) : M bool :=
  match v with
  | PyData DNone => mret false
  | PyData (DBool b) => mret b
  | PyData (DInt z) => mret (negb (z =? 0))
  | PyData (DFloat f) => mret (negb (SFeqb f fzero))
  | PyData (DStr s) => mret (negb (bool_decide (s = "")))
  | PyData (DList l) => mret (negb (bool_decide (l = [])))
  | PyData (DArray [x]) => mret (negb (SFeqb x fzero))
  | PyData (DArray []) => mret false
  | PyData (DArray _) =>
      raise (ValueError "The truth value of an array with more than one element is ambiguous")
  | PyDatasets _ | PyResults _ => mret true
  end.

Definition is_str (v : pyval) (s : string) : bool :=
  match v with
  | PyData (DStr s') => bool_decide (s' = s)
  | _ => false
  end.

(** [BaseWorkflow.__init__] *)
Definition __init__ (args : Args) : M unit :=
  setattr "datasets" (arg_datasets args) ;;
  setattr "pred_model" (arg_pred_model args) ;;
  setattr "impute_strategy" (arg_impute_strategy args) ;;
  setattr "covariates" (arg_covariates args) ;;
  setattr "deconfounder" (arg_deconfounder args) ;;
  setattr "dim_red_method" (arg_dim_red_method args) ;;
  setattr "reduced_dim" (arg_reduced_dim args) ;;
  setattr "train_perc" (arg_train_perc args) ;;
  setattr "num_rep_cv" (arg_num_rep_cv args) ;;
  setattr "_scoring" (arg_scoring args) ;;
  setattr "grid_search_level" (arg_grid_search_level args) ;;
  setattr "out_dir" (arg_out_dir args) ;;
  setattr "num_procs" (arg_num_procs args) ;;
  setattr "user_options" (arg_user_options args) ;;
  setattr "_checkpointing" (arg_checkpointing args) ;;
  workflow_type ← (as_data (arg_workflow_type args) ≫= fun x => lift (str_lower x)) ;
  if negb (in_list workflow_type (workflow_types cfg)) then
    raise (ValueError "Invalid workflow. Must be one of {}")
  else
    setattr "_workflow_type" (DStr workflow_type) ;;
    scoring ← getdata "_scoring" ;
    num_rep_cv ← getdata "num_rep_cv" ;
    datasets ← (getattr "datasets" ≫= fun v => as_datasets v "modality_ids") ;
    wt ← getattr "_workflow_type" ;
    if is_str wt "classify" then
      setattr "results"
        (PyResults (ClassifyCVResults scoring num_rep_cv (modality_ids datasets)))
    else
      setattr "results"
        (PyResults (RegressCVResults scoring num_rep_cv (modality_ids datasets))).

(** [BaseWorkflow._summarize_expt] *)
Definition _summarize_expt : M unit :=
  wt ← getattr "_workflow_type" ;
  if is_str wt "classify" then
    datasets ← (getattr "datasets" ≫= fun v => as_datasets v "target_sizes") ;
    emit ReadTargetSizes ;;
    let sizes := snd <$> target_sizes datasets in
    setattr "_target_sizes" (DList (DInt <$> sizes)) ;;
    chance ← lift (chance_accuracy lib sizes "balanced") ;
    setattr "_chance_accuracy" (DFloat chance)
  else mret tt.

(** [BaseWorkflow._prepare] *)
Definition _prepare : M unit :=
  num_rep_cv ← (getdata "num_rep_cv" ≫= fun x => lift (int_ (int_of_str lib) x)) ;
  setattr "num_rep_cv" (DInt num_rep_cv) ;;
  finite ← lift (np_isfinite_int num_rep_cv) ;
  (if negb finite then
     raise (ValueError "Infinite number of repetitions is not recommended!")
   else mret tt) ;;
  (if num_rep_cv <=? 1 then
     raise (ValueError "More than 1 repetition is necessary!")
   else mret tt) ;;
  too_low ← (getdata "train_perc" ≫= fun x => lift (le_const x 0)) ;
  invalid ← (if (too_low : bool) return M bool then mret true
             else (getdata "train_perc" ≫= fun x => lift (ge_const x 1))) ;
  (if (invalid : bool) then raise (ValueError "Train perc > 0.0 and < 1.0") else mret tt) ;;
  num_procs ← (getattr "num_procs" ≫= fun v => lift (check_num_procs lib v)) ;
  setattr "num_procs" (DInt num_procs) ;;
  level ← (getdata "grid_search_level" ≫= fun x => lift (str_lower x)) ;
  (if negb (in_list level (GRIDSEARCH_LEVELS cfg)) then
     raise (ValueError "Unrecognized level of grid search. Valid choices: {}")
   else mret tt) ;;
  datasets ← (getattr "datasets" ≫= fun v => as_datasets v "samplet_ids") ;
  emit ReadSampletIds ;;
  setattr "_id_list" (id_list (samplet_ids datasets)) ;;
  ids ← (getattr "_id_list" ≫= as_id_list) ;
  let num_samples := Z.of_nat (length ids) in
  setattr "_num_samples" (DInt num_samples) ;;
  train_perc ← getdata "train_perc" ;
  size ← (lift (int_mul num_samples train_perc) ≫= fun x => lift (np_floor_int64 x)) ;
  setattr "_train_set_size" (DInt size) ;;
  setattr "_train_set_size" (DInt (max_ 1 (min_ num_samples size))) ;;
  out_dir ← getdata "out_dir" ;
  path ← lift (pjoin out_dir (results_file_name cfg)) ;
  setattr "_out_results_path" (DStr path) ;;
  _summarize_expt.

(** [BaseWorkflow._preprocess_data], with the default [preproc_name] *)
Definition _preprocess_data (train_data test_data : ndarray)
  : M (ndarray * ndarray) :=
  preproc ← call Preprocess
              (preprocessor_fit lib (default_preprocessing_method cfg) train_data) ;
  train_data' ← lift (preproc train_data) ;
  test_data' ← lift (preproc test_data) ;
  mret (train_data', test_data').

(** [BaseWorkflow._get_covariate_data] *)
Definition _get_covariate_data (train_set test_set : list string)
  : M (ndarray * ndarray) :=
  datasets ← (getattr "datasets" ≫= fun v => as_datasets v "get_common_attr") ;
  covariates ← getdata "covariates" ;
  train ← call (GetCommonAttr covariates train_set)
            (get_common_attr datasets covariates train_set) ;
  covariates ← getdata "covariates" ;
  test ← call (GetCommonAttr covariates test_set)
           (get_common_attr datasets covariates test_set) ;
  train_covar ← lift (encode lib (fst train) (snd train)) ;
  test_covar ← lift (encode lib (fst test) (snd test)) ;
  train_covar ← lift (np_column_stack train_covar) ;
  test_covar ← lift (np_column_stack test_covar) ;
  mret (train_covar, test_covar).

(** [BaseWorkflow._deconfound_data] *)
Definition _deconfound_data (train_data train_covar test_data test_covar : ndarray)
  : M (ndarray * ndarray) :=
  method ← getattr "deconfounder" ;
  level ← getattr "grid_search_level" ;
  deconf ← call (Deconfound train_data train_covar)
             (deconfounder_fit lib method level train_data train_covar) ;
  train_data' ← lift (deconf train_data train_covar) ;
  test_data' ← lift (deconf test_data test_covar) ;
  mret (train_data', test_data').

(** [BaseWorkflow._optimize_pipeline] *)
Definition _optimize_pipeline (pipeline : Pipeline) (train_data : ndarray)
    (train_targets : list target) (param_grid : pydata)
    (train_perc_inner_cv : pyval) : M (Pipeline * pydata) :=
  call (Optimize train_data)
    (grid_search_fit lib pipeline param_grid train_data train_targets
       train_perc_inner_cv).

(** [BaseWorkflow._optimize_pipeline_on_train_set] *)
Definition _optimize_pipeline_on_train_set (train_data : ndarray)
    (train_targets : list target)
  : M (Pipeline * pydata * option (list float64)) :=
  reduced_dim ← getattr "reduced_dim" ;
  train_set_size ← (getattr "_train_set_size" ≫= as_int) ;
  reduced_dim ← lift (compute_reduced_dimensionality lib reduced_dim
                        train_set_size (ncols train_data)) ;
  pred_model ← getattr "pred_model" ;
  dim_red_method ← getattr "dim_red_method" ;
  train_set_size ← (getattr "_train_set_size" ≫= as_int) ;
  level ← getattr "grid_search_level" ;
  made ← lift (make_pipeline lib pred_model dim_red_method reduced_dim
                 train_set_size level) ;
  train_perc ← getattr "train_perc" ;
  best ← _optimize_pipeline (fst made) train_data train_targets (snd made)
           train_perc ;
  pred_model ← getattr "pred_model" ;
  feat_importance ← lift (_get_feature_importance pred_model (fst best)
                            (ncols train_data) nan) ;
  mret (fst best, snd best, feat_importance).

(** The body of the loop of [_single_run_cv], for one modality. *)
Definition _single_run_cv_modality (run_id : pydata)
    (train_set test_set : list string)
    (item : string * (subset * subset)) : M unit :=
  let '(ds_id, ((train_data, train_targets), (test_data, test_targets))) := item in
  datasets ← (getattr "datasets" ≫= fun v => as_datasets v "get_attr") ;
  missing ← lift (get_attr datasets ds_id (missing_data_flag_name cfg)) ;
  data ← (if (missing : bool) return M (ndarray * ndarray) then
            strategy ← getattr "impute_strategy" ;
            call (Impute ds_id)
              (impute_missing_data lib train_data train_targets strategy test_data)
          else mret (train_data, test_data)) ;
  data ← _preprocess_data (fst data) (snd data) ;
  covar ← _get_covariate_data train_set test_set ;
  data ← _deconfound_data (fst data) (fst covar) (snd data) (snd covar) ;
  best ← _optimize_pipeline_on_train_set (fst data) train_targets ;
  let '(best_pipeline, best_params, feat_importance) := best in
  results ← (getattr "results" ≫= fun v => as_results v "add_attr") ;
  results ← lift (add_attr lib results run_id ds_id "feat_importance"
                    (from_option DArray DNone feat_importance)) ;
  setattr "results" (PyResults results) ;;
  me ← get_self ;
  results ← call (Evaluate run_id ds_id)
              (_eval_predictions sub me best_pipeline (snd data) test_targets
                 run_id ds_id) ;
  setattr "results" (PyResults results).

(** [BaseWorkflow._single_run_cv] *)
Definition _single_run_cv (run_id : pydata) : M unit :=
  ids ← (getattr "_id_list" ≫= as_id_list) ;
  ids ← random_shuffle ids ;
  setattr "_id_list" (id_list ids) ;;
  ids ← (getattr "_id_list" ≫= as_id_list) ;
  train_set_size ← (getattr "_train_set_size" ≫= as_int) ;
  let train_set := slice_to ids train_set_size in
  ids ← (getattr "_id_list" ≫= as_id_list) ;
  let test_set :=
    elements ((list_to_set ids : gset string) ∖ list_to_set train_set) in
  datasets ← (getattr "datasets" ≫= fun v => as_datasets v "get_subsets") ;
  subsets ← call (GetSubsets train_set test_set)
              (get_subsets datasets train_set test_set) ;
  for_ subsets (_single_run_cv_modality run_id train_set test_set) ;;
  checkpointing ← (getattr "_checkpointing" ≫= truthy) ;
  if (checkpointing : bool) then
    results ← (getattr "results" ≫= fun v => as_results v "dump") ;
    out_dir ← getattr "out_dir" ;
    dumped ← lift (results_dump lib results out_dir) ;
    emit (Checkpoint (fst dumped)) ;;
    open_wb (fst dumped) ;;
    write (fst dumped) (snd dumped)
  else mret tt.

(** [x > 1] *)
Definition gt_one (x : pyval) : M bool :=
  match x with
  | PyData (DInt z) => mret (1 <? z)
  | PyData (DBool b) => mret false
  | PyData (DFloat f) => mret (flt fone f)
  | _ => raise (TypeError "'>' not supported between these instances")
  end.

(** [BaseWorkflow._run_cv] *)
Definition _run_cv : M unit :=
  parallel ← (getattr "num_procs" ≫= gt_one) ;
  if (parallel : bool) then
    raise (NotImplementedError
             "parallel runs not implemented yet!Use num_procs=1 for now")
  else
    num_rep_cv ← (getattr "num_rep_cv" ≫= as_int) ;
    for_ (seq 0 (Z.to_nat num_rep_cv))
      (fun rep => _single_run_cv (DInt (Z.of_nat rep))).

(** [{var: getattr(self, var, None) for var in cfg.results_to_save}] *)
Definition out_dict (me : attributes) : gmap string pyval :=
  list_to_map ((fun var => (var, getattr_default me var)) <$> results_to_save cfg).

Definition newline : string := String (ascii_of_nat 10) "".

(** [BaseWorkflow.save] *)
Definition save : M pyval :=
  me ← get_self ;
  try_except
    (path ← (getattr "_out_results_path" ≫= as_str) ;
     open_wb path ;;
     emit (PickleDump path) ;;
     content ← pickling (pickle_dump lib (out_dict me)) ;
     write path content)
    (getattr "_out_results_path" ;;
     raise (IOError ("Error saving the results to disk!" ++ newline
                       ++ "Out path:{}"))) ;;
  getattr "_out_results_path".

(** [BaseWorkflow.load] *)
Definition load : M unit :=
  loaded_results ←
    try_except
      (path ← (getattr "_out_results_path" ≫= as_str) ;
       content ← read_rb path ;
       emit (PickleLoad path) ;;
       pickling (pickle_load lib content))
      (getattr "_out_results_path" ;;
       raise (IOError "Error load the results from path: {}")) ;
  for_ (results_to_save cfg)
    (fun var =>
       match (loaded_results : gmap string pyval) !! var with
       | Some v => setattr var v
       | None => raise (KeyError var)
       end).

(** [pexists(path) and getsize(path) > 0] *)
Definition nonempty_file (path : pyval) : M bool := fun w =>
  match path with
  | PyData (DStr path) =>
      match files w !! path with
      | Some content => (Ok (negb (bool_decide (content = []))), w)
      | None => (Ok false, w)
      end
  | _ => (Raise (TypeError "stat: path should be string, bytes, os.PathLike or integer"), w)
  end.

(** [BaseWorkflow.run] *)
Definition run : M pyval :=
  _prepare ;;
  found ← (getattr "_out_results_path" ≫= nonempty_file) ;
  (if (found : bool) then load
   else _run_cv ;; save ;; mret tt) ;;
  report ← (get_self ≫= fun me => lift (summarize sub me)) ;
  emit (Summarize report) ;;
  (get_self ≫= fun me => call Visualize (visualize sub me)) ;;
  getattr "_out_results_path".

End Workflow.


(** * The inputs of the command line: [organize_inputs] *)

(** What [check_paths] returns: a list, or an object of another type, of
    which [organize_inputs] takes the item 0 and the conversion into a
    list. *)
Inductive paths : Type :=
| PathList (l : list pydata)
| PathObject (item0 : result pydata) (as_list : result (list pydata)).

(** The helpers of [neuropredict.utils] and of [os.path] that
    [organize_inputs] calls; [pexists] is the file system as the call finds
    it. *)
Record Helpers : Type := {
  not_unspecified : pyval -> result bool;
  check_paths : pyval -> string -> result paths;
  abspath : string -> string;
  pexists : string -> bool
}.

(** The tuple that [organize_inputs] returns. *)
Record Organized : Type := {
  user_feature_paths : list pydata;
  user_feature_type : option string;
  fs_subject_dir : option string;
  meta_data_supplied : pydata;
  meta_data_format : option string
}.

#[local] Instance result_ret : MRet result := fun A a => Ok a.
#[local] Instance result_bind : MBind result := fun A B k r =>
  match r with
  | Ok a => k a
  | Raise e => Raise e
  end.

Definition mutually_excl_formats : list string :=
  ["user_feature_paths"; "data_matrix_paths"; "pyradigm_paths"; "arff_paths"].

(** [os.fspath] of the argument of [abspath]. *)
Definition fspath (v : pyval) : result string :=
  match v with
  | PyData (DStr s) => Ok s
  | _ => Raise (TypeError "expected str, bytes or os.PathLike object")
  end.

(** [x[0]] and [list(x)] of what [check_paths] returned. *)
Definition item0_of (p : paths) : result pydata :=
  match p with
  | PathList (x :: _) => Ok x
  | PathList [] => Raise (IndexError "list index out of range")
  | PathObject item0 _ => item0
  end.

Definition list_of (p : option paths) : result (list pydata) :=
  match p with
  | Some (PathList l) => Ok l
  | Some (PathObject _ as_list) => as_list
  | None => Raise (TypeError "'NoneType' object is not iterable")
  end.

Section Inputs.

Context (env : Helpers).

(** [hasattr(user_args, name) and not_unspecified(user_args.name)], with
    the value of the attribute when it holds. *)
Definition specified (user_args : attributes) (name : string)
  : result (option pyval) :=
  match user_args !! name with
  | Some v => b ← not_unspecified env v ; mret (if (b : bool) then Some v else None)
  | None => mret None
  end.

(** The loop that counts the formats that are specified. *)
Fixpoint count_specified (user_args : attributes) (formats : list string)
    (not_none_count : Z) : result Z :=
  match formats with
  | [] => mret not_none_count
  | fmt :: rest =>
      v ← specified user_args fmt ;
      count_specified user_args rest
        (match v with Some _ => not_none_count + 1 | None => not_none_count end)
  end.

(** The chain of [if] and [elif] over the four formats: the paths, the
    type of the features, the metadata and its format, and the flag
    [atleast_one_feature_specified]. *)
Definition choose_format (user_args : attributes)
    (atleast_one_feature_specified : bool)
  : result (option paths * option string * pydata * option string * bool) :=
  v ← specified user_args "user_feature_paths" ;
  match v with
  | Some x =>
      p ← check_paths env x "user defined (dir_of_dirs)" ;
      mret (Some p, Some "dir_of_dirs", DBool false, None, true)
  | None =>
    v ← specified user_args "data_matrix_paths" ;
    match v with
    | Some x =>
        p ← check_paths env x "data matrix" ;
        mret (Some p, Some "data_matrix", DBool false, None, true)
    | None =>
      v ← specified user_args "pyradigm_paths" ;
      match v with
      | Some x =>
          p ← check_paths env x "pyradigm" ;
          first ← item0_of p ;
          mret (Some p, Some "pyradigm", first, Some "pyradigm", true)
      | None =>
        v ← specified user_args "arff_paths" ;
        match v with
        | Some x =>
            p ← check_paths env x "ARFF" ;
            first ← item0_of p ;
            mret (Some p, Some "arff", first, Some "arff", true)
        | None =>
            mret (None, None, DBool false, None, atleast_one_feature_specified)
        end
      end
    end
  end.

(** [organize_inputs] *)
Definition organize_inputs (user_args : attributes) : result Organized :=
  fs ← specified user_args "fs_subject_dir" ;
  fs_dir ← match fs with
           | Some v =>
               dir ← fspath v ;
               if negb (pexists env (abspath env dir)) then
                 Raise (IOError "Given Freesurfer directory doesn't exist.")
               else mret (Some (abspath env dir), true)
           | None => mret (None, false)
           end ;
  not_none_count ← count_specified user_args mutually_excl_formats 0 ;
  if 1 <? not_none_count then
    Raise (ValueError ("Only one of the following formats can be specified:"
                         ++ newline ++ "{}"))
  else
    chosen ← choose_format user_args (snd fs_dir) ;
    let '(feature_paths, feature_type, meta_data, meta_format,
          atleast_one_feature_specified) := chosen in
    feature_paths ← list_of feature_paths ;
    if negb atleast_one_feature_specified then
      Raise (ValueError "Atleast one method specifying features must be specified. It can be a path(s) to pyradigm dataset, matrix file, user-defined folder or a Freesurfer subject directory.")
    else
      mret {| user_feature_paths := feature_paths;
              user_feature_type := feature_type;
              fs_subject_dir := fst fs_dir;
              meta_data_supplied := meta_data;
              meta_data_format := meta_format |}.

End Inputs.
(** * The vocabulary of the properties *)

(** [wp c w Q]: running [c] from [w] ends, with a value or an exception, in
    a world where [Q] holds. Methods are total functions, so this is a total
    correctness statement. *)
Definition wp {A} (c : M A) (w : world) (Q : result A -> world -> Prop) : Prop :=
  Q (c w).1 (c w).2.

(** The world outside the workflow object is the same in [w] and [w']. *)
Definition same_outside (w w' : world) : Prop :=
  files w' = files w /\ writable w' = writable w /\
  random_state w' = random_state w /\ log w' = log w.

Definition is_finite (f : float64) : bool :=
  match f with
  | S754_nan | S754_infinity _ => false
  | _ => true
  end.

(** A finite binary64 with a fractional part: a non-integer number. *)
Definition fractional (f : float64) : bool :=
  match f with
  | S754_finite _ m e => negb (snd (mantissa_shift m e) =? 0)
  | _ => false
  end.

(** The integer part of a finite binary64, toward zero. *)
Definition truncation (f : float64) : Z := default 0 (trunc_Z f).

(** The exceptions that the conversion [int(num_rep_cv)] raises. *)
Definition conversion_error (e : exn) : Prop :=
  e = ValueError "cannot convert float NaN to integer" \/
  e = OverflowError "cannot convert float infinity to integer".

(** The repetitions recorded in a log: one call of [get_subsets] each. *)
Definition is_split (ev : event) : bool :=
  match ev with GetSubsets _ _ => true | _ => false end.

Definition repetitions (l : list event) : nat := length (filter is_split l).

(** The calls of the cross-validation proper: anything but reading the
    sample identifiers and class sizes, the pickle, and the report. *)
Definition is_cv (ev : event) : bool :=
  match ev with
  | ReadSampletIds | ReadTargetSizes | PickleLoad _ | PickleDump _
  | Summarize _ | Visualize => false
  | _ => true
  end.

Section Vocabulary.

Context (cfg : Config) (lib : Library).

(** What [_prepare] checks, on the attributes it finds: the repetition
    count converts to an integer [n > 1], the comparisons of the train
    fraction [tp] with 0.0 and 1.0 are both false, [check_num_procs] returns
    [procs], the lowered grid-search level is a listed one, and [datasets] is
    a dataset collection [d]. *)
Record validated (a : attributes) (n : Z) (tp : pydata) (procs : Z)
    (d : Datasets) : Prop := {
  v_rep : exists r, a !! "num_rep_cv" = Some (PyData r) /\
                    int_ (int_of_str lib) r = Ok n;
  v_rep_finite : np_isfinite_int n = Ok true;
  v_rep_gt : 1 < n;
  v_tp : a !! "train_perc" = Some (PyData tp);
  v_tp_lo : le_const tp 0 = Ok false;
  v_tp_hi : ge_const tp 1 = Ok false;
  v_procs : exists v, a !! "num_procs" = Some v /\ check_num_procs lib v = Ok procs;
  v_level : exists s, a !! "grid_search_level" = Some (PyData (DStr s)) /\
                      in_list (lower s) (GRIDSEARCH_LEVELS cfg) = true;
  v_data : a !! "datasets" = Some (PyDatasets d)
}.

(** The attributes that [_prepare] has set when it reaches
    [_summarize_expt]. *)
Definition prepared (a : attributes) (n procs : Z) (d : Datasets) (size : Z)
    (path : string) : attributes :=
  let num_samples := Z.of_nat (length (samplet_ids d)) in
  <["_out_results_path" := PyData (DStr path)]>
    (<["_train_set_size" := PyData (DInt (max_ 1 (min_ num_samples size)))]>
       (<["_train_set_size" := PyData (DInt size)]>
          (<["_num_samples" := PyData (DInt num_samples)]>
             (<["_id_list" := id_list (samplet_ids d)]>
                (<["num_procs" := PyData (DInt procs)]>
                   (<["num_rep_cv" := PyData (DInt n)]> a)))))).

(** The attributes that [_summarize_expt] adds. *)
Definition summarized (a : attributes) (d : Datasets) (chance : float64)
  : attributes :=
  <["_chance_accuracy" := PyData (DFloat chance)]>
    (<["_target_sizes" := PyData (DList (DInt <$> (snd <$> target_sizes d)))]> a).

End Vocabulary.

(** What the two elements of [pipeline.steps] that
    [_get_feature_importance] looks at expose: the indices of the selected
    features, of the element at position 1, and the importance attribute of
    the last element, named by [cfg.importance_attr] for the estimator. *)
Definition selected_features (pipeline : Pipeline) : option (list nat) :=
  steps pipeline !! 1%nat ≫= step_get_support.

Definition importance_of (cfg : Config) (est_name : pyval) (pipeline : Pipeline)
  : option attrval :=
  match last (steps pipeline), importance_attr_of cfg est_name with
  | Some est, Ok name => step_attr est name
  | _, _ => None
  end.

(** What the estimators in those two steps expose, whether [steps] holds
    them as they are or in a pair with their name. *)
Definition selector_support (pipeline : Pipeline) : option (list nat) :=
  steps pipeline !! 1%nat ≫= (fun s => get_support (stage_of s)).

Definition estimator_importance (cfg : Config) (est_name : pyval)
    (pipeline : Pipeline) : option attrval :=
  match last (steps pipeline), importance_attr_of cfg est_name with
  | Some est, Ok name => stage_attrs (stage_of est) !! name
  | _, _ => None
  end.

(** A pipeline of sklearn: every element of [steps] is a pair of a name and
    an estimator. *)
Definition is_named (s : step) : bool :=
  match s with Named _ _ => true | Bare _ => false end.

Definition sklearn_pipeline (pipeline : Pipeline) : Prop :=
  Forall (fun s => is_named s = true) (steps pipeline).

(** The attributes after [load] has set those of [names] from the loaded
    dictionary. *)
Definition loaded_into (loaded : gmap string pyval) (names : list string)
    (a : attributes) : attributes :=
  foldl (fun acc var => match loaded !! var with
                        | Some v => <[var := v]> acc
                        | None => acc
                        end) a names.

(** [clamp(v, lo, hi)]: [v] brought into the interval from [lo] to [hi]. *)
Definition clamp (v lo hi : Z) : Z :=
  if v <? lo then lo else if hi <? v then hi else v.

(** [floor(x)] of a binary64 as numpy computes it into an int64. *)
Definition floor64 (x : float64) : Z := np_int64 (np_floor x).

(** The train and test sets partition the sample universe. *)
Definition partitions (universe train_set test_set : list string) : Prop :=
  (forall x, x ∈ train_set -> x ∉ test_set) /\
  (forall x, x ∈ universe <-> x ∈ train_set \/ x ∈ test_set).

Definition split_ok (universe : list string) (ev : event) : Prop :=
  match ev with
  | GetSubsets train_set test_set => partitions universe train_set test_set
  | _ => True
  end.

(** The log grows by calls that are not of the cross-validation proper. *)
Definition no_cv (w w' : world) : Prop :=
  exists evs, log w' = (log w ++ evs)%list /\
              Forall (fun ev => is_cv ev = false) evs.

(** The reports that a log holds. *)
Definition reports (l : list event) : list string :=
  omap (fun ev => match ev with Summarize s => Some s | _ => None end) l.

(** What the processing of one modality may change: the attribute
    [results], and the log, by calls other than [get_subsets]. *)
Definition modality_step (w w' : world) : Prop :=
  (forall name, name <> "results" -> self w' !! name = self w !! name) /\
  files w' = files w /\ writable w' = writable w /\
  random_state w' = random_state w /\
  exists evs, log w' = (log w ++ evs)%list /\
              Forall (fun ev => is_split ev = false) evs.

(** What [n] repetitions may change: the attributes [results] and
    [_id_list], the latter by a permutation; the generator; the files, by
    checkpoints; and the log, by [n] calls of [get_subsets] at most, each on
    a partition of the sample identifiers, and by exactly [n] of them when
    the repetitions return. *)
Definition cv_steps (n : nat) (w w' : world) (r : result unit) : Prop :=
  (forall name, name <> "results" -> name <> "_id_list" ->
                self w' !! name = self w !! name) /\
  writable w' = writable w /\
  (forall ids, self w !! "_id_list" = Some (id_list ids) ->
               exists ids', self w' !! "_id_list" = Some (id_list ids') /\
                            ids' ≡ₚ ids) /\
  exists evs, log w' = (log w ++ evs)%list /\
              (forall ids, self w !! "_id_list" = Some (id_list ids) ->
                           Forall (split_ok ids) evs) /\
              (repetitions evs <= n)%nat /\
              (r = Ok tt -> repetitions evs = n).

Definition repetition_step : world -> world -> result unit -> Prop := cv_steps 1.

(** A method that replays: it reads the attributes, and the files when
    [R] is equality, and writes the attributes and the log only. From two
    worlds with the same attributes, and files related by [R], it gives the
    same result, the same attributes and the same new entries of the log. *)
Definition replays {A} (R : relation (gmap string bytes)) (c : M A) : Prop :=
  forall w w', self w = self w' -> R (files w) (files w') ->
    (c w').1 = (c w).1 /\ self (c w').2 = self (c w).2 /\
    files (c w).2 = files w /\ files (c w').2 = files w' /\
    exists evs, log (c w).2 = (log w ++ evs)%list /\
                log (c w').2 = (log w' ++ evs)%list.

(** Whatever the files. *)
Definition any_files : relation (gmap string bytes) := fun _ _ => True.

Section Paths.

Context (cfg : Config) (lib : Library) (sub : Subclass).

(** The end of [run]: [self.summarize()], [self.visualize()] and the
    returned path. *)
Definition report_results : M pyval :=
  report ← (get_self ≫= fun me => lift (summarize sub me)) ;
  emit (Summarize report) ;;
  (get_self ≫= fun me => call Visualize (visualize sub me)) ;;
  getattr "_out_results_path".

(** The two paths of [run] after [_prepare]. *)
Definition reload_and_report : M pyval :=
  load cfg lib ;; report_results.

Definition compute_and_report : M pyval :=
  (_run_cv cfg lib sub ;; save cfg lib ;; mret tt) ;; report_results.

(** There is a non-empty file at [path]. *)
Definition stored (fs : gmap string bytes) (path : string) : bool :=
  match fs !! path with
  | Some content => negb (bool_decide (content = []))
  | None => false
  end.

End Paths.

(** ** A concrete experiment

    Ten samples, one modality with one feature, two balanced classes. The
    collaborators are simple stand-ins: the preprocessor is the identity, the
    deconfounder appends the covariate columns to the features, the fitted
    pipeline is one of sklearn, of three named steps, of which the second
    selects feature 0 and the third has an importance for it. *)
Module Scenario.

Definition cfg : Config := {|
  workflow_types := ["classify"; "regress"];
  GRIDSEARCH_LEVELS := ["none"; "light"; "exhaustive"];
  results_file_name := "results_neuropredict.pkl";
  results_to_save := ["_workflow_type"; "_id_list"; "_train_set_size";
                      "num_rep_cv"; "results"; "_positive_class"];
  missing_data_flag_name := "missing_data";
  default_preprocessing_method := "robustscaler";
  importance_attr := {[ "randomforestclassifier" := "feature_importances_" ]}
|}.

Definition ones (n : nat) : ndarray :=
  {| nrows := n; ncols := 1; entries := replicate n fone |}.

Definition data : Datasets := {|
  samplet_ids := ["s0"; "s1"; "s2"; "s3"; "s4"; "s5"; "s6"; "s7"; "s8"; "s9"];
  modality_ids := ["m0"];
  target_sizes := [("a", 5); ("b", 5)];
  get_subsets := fun train_set test_set =>
    Ok [("m0", ((ones (length train_set), []), (ones (length test_set), [])))];
  get_attr := fun _ _ => Ok false;
  get_common_attr := fun _ ids => Ok ([replicate (length ids) (DInt 1)], ["int"])
|}.

Definition scaler : stage := {| get_support := None; stage_attrs := ∅ |}.

Definition selector : stage :=
  {| get_support := Some [0%nat]; stage_attrs := ∅ |}.

Definition forest : stage :=
  {| get_support := None;
     stage_attrs := {[ "feature_importances_" := AVector [fone] ]} |}.

Definition fitted : Pipeline := {|
  steps := [ Named "robustscaler" scaler;
             Named "variancethreshold" selector;
             Named "randomforestclassifier" forest ]
|}.

Definition record (r : CVResults) (run_id : pydata) (ds_id name : string)
    (v : pydata) : CVResults :=
  {| classification := classification r; metric := metric r;
     num_rep := num_rep r; res_modality_ids := res_modality_ids r;
     records := records r ++ [(run_id, ds_id, name, v)] |}.

(** The pickle of the scenario writes one byte; [reload] is what
    [pickle.load] gives back for it. *)
Definition lib_with (reload : option (gmap string pyval)) : Library := {|
  int_of_str := fun _ => Raise (ValueError "invalid literal for int()");
  check_num_procs := fun v => match v with PyData (DInt z) => Ok z | _ => Ok 1 end;
  chance_accuracy := fun _ _ => Ok (decimal 1 2);
  impute_missing_data := fun a _ _ b => Ok (a, b);
  preprocessor_fit := fun _ _ => Ok (fun x => Ok x);
  encode := fun cols _ => Ok (map (map (fun _ => fone)) cols);
  deconfounder_fit := fun _ _ _ _ =>
    Ok (fun x c => Ok {| nrows := nrows x; ncols := ncols x + ncols c;
                         entries := entries x ++ entries c |});
  compute_reduced_dimensionality := fun _ _ n => Ok (Z.of_nat n);
  make_pipeline := fun _ _ _ _ _ => Ok ({| steps := [] |}, DNone);
  grid_search_fit := fun _ _ _ _ _ => Ok (fitted, DNone);
  add_attr := fun r run_id ds_id name v => Ok (record r run_id ds_id name v);
  results_dump := fun _ _ => Ok ("checkpoint.pkl", [Byte.x01]);
  pickle_dump := fun _ => Some [Byte.x01];
  pickle_load := fun _ => reload
|}.

Definition lib : Library := lib_with None.

Definition sub : Subclass := {|
  _eval_predictions := fun me _ _ _ run_id ds_id =>
    match me !! "results" with
    | Some (PyResults r) => Ok (record r run_id ds_id "predictions" DNone)
    | _ => Raise (AttributeError "results")
    end;
  summarize := fun me =>
    match me !! "results" with
    | Some (PyResults r) =>
        Ok (if Nat.eqb (length (records r)) 4 then "two repetitions"
            else "incomplete")
    | _ => Raise (AttributeError "results")
    end;
  visualize := fun _ => Ok tt
|}.

Definition args (train_perc num_rep_cv : pydata) (num_procs : Z)
    (level workflow : string) : Args := {|
  arg_datasets := PyDatasets data;
  arg_pred_model := PyData (DStr "randomforestclassifier");
  arg_impute_strategy := PyData (DStr "raise");
  arg_covariates := PyData DNone;
  arg_deconfounder := PyData (DStr "residualize");
  arg_dim_red_method := PyData (DStr "variancethreshold");
  arg_reduced_dim := PyData (DStr "tenth");
  arg_train_perc := PyData train_perc;
  arg_num_rep_cv := PyData num_rep_cv;
  arg_scoring := PyData (DStr "accuracy");
  arg_grid_search_level := PyData (DStr level);
  arg_out_dir := PyData (DStr "/out");
  arg_num_procs := PyData (DInt num_procs);
  arg_user_options := PyData DNone;
  arg_checkpointing := PyData (DBool false);
  arg_workflow_type := PyData (DStr workflow)
|}.

(** Train fraction 0.01, repetition count 2.9, one process. *)
Definition default_args : Args :=
  args (DFloat (decimal 1 100)) (DFloat (decimal 29 10)) 1 "Light" "Classify".

Definition fresh (fs : gmap string bytes) : world :=
  {| self := ∅; files := fs; writable := fun _ => true;
     random_state := fun k => (7 * k + 3)%nat; log := [] |}.

(** The object that the constructor builds. *)
Definition constructed (a : Args) (fs : gmap string bytes) : world :=
  (__init__ cfg a (fresh fs)).2.

(** The default arguments, on an empty disk: constructed, prepared, and
    after the repetitions. *)
Definition default : world := constructed default_args ∅.

Definition default_prepared : world := (_prepare cfg lib default).2.

Definition default_computed : world := (_run_cv cfg lib sub default_prepared).2.

(** The repetition count is infinite. *)
Definition infinite_repetitions : world :=
  constructed (args (DFloat (decimal 1 100)) (DFloat inf) 1 "light" "classify") ∅.

(** Two processes. *)
Definition parallel : world :=
  constructed (args (DFloat (decimal 1 2)) (DInt 5) 2 "light" "classify") ∅.

Definition parallel_prepared : world := (_prepare cfg lib parallel).2.

(** The train fraction is NaN. *)
Definition nan_fraction : world :=
  constructed (args (DFloat nan) (DInt 2) 1 "light" "classify") ∅.

(** The attributes that the default experiment saves, and a library whose
    [pickle.load] gives them back. *)
Definition default_saved : gmap string pyval :=
  out_dict cfg (self default_computed).

Definition reloading : Library := lib_with (Some default_saved).

Definition results_path : string := "/out/results_neuropredict.pkl".

(** A first run of the default experiment, and a second object, constructed
    with the same arguments on the files that the first run left. *)
Definition first_run : result pyval * world := run cfg reloading sub default.

Definition second : world := with_files (files first_run.2) default.

End Scenario.

(** * More vocabulary *)

(** The attributes after the constructor has stored its arguments. *)
Definition configured (args : Args) (a : attributes) : attributes :=
  <["_checkpointing" := arg_checkpointing args]>
    (<["user_options" := arg_user_options args]>
       (<["num_procs" := arg_num_procs args]>
          (<["out_dir" := arg_out_dir args]>
             (<["grid_search_level" := arg_grid_search_level args]>
                (<["_scoring" := arg_scoring args]>
                   (<["num_rep_cv" := arg_num_rep_cv args]>
                      (<["train_perc" := arg_train_perc args]>
                         (<["reduced_dim" := arg_reduced_dim args]>
                            (<["dim_red_method" := arg_dim_red_method args]>
                               (<["deconfounder" := arg_deconfounder args]>
                                  (<["covariates" := arg_covariates args]>
                                     (<["impute_strategy" := arg_impute_strategy args]>
                                        (<["pred_model" := arg_pred_model args]>
                                           (<["datasets" := arg_datasets args]> a)))))))))))))).

(** ** The train-set size, in the words of the specification *)

(** The floor of the dyadic rational [n * 2^e], an integer. *)
Definition floor_of_dyadic (n e : Z) : Z :=
  if 0 <=? e then n * 2 ^ e else n / 2 ^ (- e).

(** The value of a finite binary64, [(-1)^s * m * 2^e], has the signed
    mantissa [-m] or [m]. *)
Definition signed_mantissa (s : bool) (m : positive) : Z :=
  if s then Zneg m else Zpos m.

(** [floor(x)] of a binary64 [x], as an int64: the greatest integer that is
    at most the value of [x], when [x] is finite and that integer is one of
    int64; the least int64, which is what the conversion gives on x86-64,
    when it is not. *)
Definition floor_int64 (x : float64) : Z :=
  match x with
  | S754_zero _ => 0
  | S754_finite s m e =>
      let q := floor_of_dyadic (signed_mantissa s m) e in
      if (- 2 ^ 63 <=? q) && (q <? 2 ^ 63) then q else - 2 ^ 63
  | _ => - 2 ^ 63
  end.

(** [train_perc * N] in binary64 arithmetic, IEEE 754 with 53 bits of
    precision: [N] is rounded to a binary64, and the product of the two is
    rounded to the nearest binary64, ties to even. *)
Definition binary64_product (N : Z) (train_perc : float64) : float64 :=
  SFmul 53 1024 (binary_normalize 53 1024 N 0 false) train_perc.

(** The mantissa of a finite binary64 has at most 53 bits. *)
Definition within_precision (x : float64) : Prop :=
  match x with
  | S754_finite _ m _ => Zpos m < 2 ^ 53
  | _ => True
  end.

(** The train set of a split has [k] identifiers. *)
Definition train_sized (k : Z) (ev : event) : Prop :=
  match ev with
  | GetSubsets train_set _ => Z.of_nat (length train_set) = k
  | _ => True
  end.

(** The split that a repetition draws from the identifiers [ids], with the
    generator [draws] and the train-set size [k]: the identifiers are
    shuffled, the first [k] are the train set, the others the test set. *)
Definition drawn_split (ids : list string) (draws : nat -> nat) (k : Z) : event :=
  let shuffled := (shuffle ids draws).1 in
  let train_set := slice_to shuffled k in
  GetSubsets train_set
    (elements ((list_to_set shuffled : gset string) ∖ list_to_set train_set)).

(** ** The formats of [organize_inputs] *)

(** The type of features and the [path_type] that go with each format, and
    the formats whose first path is also the metadata. *)
Definition feature_type_of (fmt : string) : string :=
  if bool_decide (fmt = "user_feature_paths") then "dir_of_dirs"
  else if bool_decide (fmt = "data_matrix_paths") then "data_matrix"
  else if bool_decide (fmt = "pyradigm_paths") then "pyradigm"
  else "arff".

Definition path_type_of (fmt : string) : string :=
  if bool_decide (fmt = "user_feature_paths") then "user defined (dir_of_dirs)"
  else if bool_decide (fmt = "data_matrix_paths") then "data matrix"
  else if bool_decide (fmt = "pyradigm_paths") then "pyradigm"
  else "ARFF".

Definition carries_metadata (fmt : string) : bool :=
  bool_decide (fmt = "pyradigm_paths") || bool_decide (fmt = "arff_paths").

(** The Freesurfer directory is not specified, or it is a string that names
    an existing path. *)
Definition freesurfer_ok (env : Helpers) (user_args : attributes)
    (dir : option string) : Prop :=
  match dir with
  | None => specified env user_args "fs_subject_dir" = Ok None
  | Some d =>
      exists s, specified env user_args "fs_subject_dir"
                = Ok (Some (PyData (DStr s))) /\
                d = abspath env s /\ pexists env d = true
  end.

(** The format [fmt] is an attribute of [user_args] that is specified. *)
Definition is_specified (env : Helpers) (user_args : attributes) (fmt : string)
  : bool :=
  match specified env user_args fmt with
  | Ok (Some _) => true
  | _ => false
  end.

(** ** More concrete cases *)

Module Cases.

Import Scenario.

(** A workflow type that is not listed. *)
Definition clustering_args : Args :=
  args (DFloat (decimal 1 2)) (DInt 5) 1 "light" "Cluster".

(** An object that keeps the stages of the concrete experiment themselves
    in [steps], which a pipeline of sklearn does not. *)
Definition stages : Pipeline :=
  {| steps := [Bare scaler; Bare selector; Bare forest] |}.

(** A train fraction of 0.29, and three repetitions. *)
Definition twenty_nine_percent : world :=
  constructed (args (DFloat (decimal 29 100)) (DInt 3) 1 "light" "classify") ∅.

(** One repetition. *)
Definition one_repetition : world :=
  constructed (args (DFloat (decimal 1 2)) (DInt 1) 1 "light" "classify") ∅.

(** The output directory left at [None]. *)
Definition no_out_dir_args : Args := {|
  arg_datasets := PyDatasets data;
  arg_pred_model := PyData (DStr "randomforestclassifier");
  arg_impute_strategy := PyData (DStr "raise");
  arg_covariates := PyData DNone;
  arg_deconfounder := PyData (DStr "residualize");
  arg_dim_red_method := PyData (DStr "variancethreshold");
  arg_reduced_dim := PyData (DStr "tenth");
  arg_train_perc := PyData (DFloat (decimal 1 2));
  arg_num_rep_cv := PyData (DInt 2);
  arg_scoring := PyData (DStr "accuracy");
  arg_grid_search_level := PyData (DStr "light");
  arg_out_dir := PyData DNone;
  arg_num_procs := PyData (DInt 1);
  arg_user_options := PyData DNone;
  arg_checkpointing := PyData (DBool false);
  arg_workflow_type := PyData (DStr "classify")
|}.

Definition no_out_dir : world := constructed no_out_dir_args ∅.

(** The one modality of the datasets, for a train set of one sample. *)
Definition modality : string * (subset * subset) :=
  ("m0", ((ones 1, []), (ones 9, []))).

(** The prepared object, where no path is open for writing. *)
Definition locked : world :=
  {| self := self default_prepared; files := ∅; writable := fun _ => false;
     random_state := random_state default_prepared; log := [] |}.

(** A results file of one byte; the pickle of [lib] does not load it, and
    the pickle of [partial] loads a dictionary that has the workflow type
    only. *)
Definition with_results_file : world :=
  constructed default_args {[ results_path := [Byte.x01] ]}.

Definition partial : Library :=
  lib_with (Some {[ "_workflow_type" := PyData (DStr "classify") ]}).

Definition prepared_with_results_file : world :=
  (_prepare cfg lib with_results_file).2.

(** The helpers of [organize_inputs]: an argument is unspecified when it is
    [None] or the string "SUPPRESS"; [check_paths] returns the list it is
    given; paths are absolute already; the only directory is "/subjects". *)
Definition helpers : Helpers := {|
  not_unspecified := fun v =>
    match v with
    | PyData DNone => Ok false
    | PyData (DStr s) => Ok (negb (bool_decide (s = "SUPPRESS")))
    | _ => Ok true
    end;
  check_paths := fun v _ =>
    match v with
    | PyData (DList l) => Ok (PathList l)
    | _ => Raise (TypeError "object is not iterable")
    end;
  abspath := fun s => s;
  pexists := fun s => bool_decide (s = "/subjects")
|}.

(** The arguments of the command line: a pyradigm dataset; a pyradigm
    dataset and a data matrix; a Freesurfer directory only; a Freesurfer
    directory that does not exist. *)
Definition pyradigm_only : attributes :=
  {[ "pyradigm_paths" := PyData (DList [DStr "/data/a.pkl"; DStr "/data/b.pkl"]);
     "data_matrix_paths" := PyData DNone;
     "fs_subject_dir" := PyData (DStr "/subjects") ]}.

Definition two_formats : attributes :=
  {[ "pyradigm_paths" := PyData (DList [DStr "/data/a.pkl"]);
     "data_matrix_paths" := PyData (DList [DStr "/data/m.csv"]) ]}.

Definition freesurfer_only : attributes :=
  {[ "fs_subject_dir" := PyData (DStr "/subjects");
     "pyradigm_paths" := PyData DNone ]}.

Definition freesurfer_elsewhere : attributes :=
  {[ "fs_subject_dir" := PyData (DStr "/nowhere");
     "pyradigm_paths" := PyData (DList [DStr "/data/a.pkl"]) ]}.

End Cases.
(** * Reasoning about methods *)

Lemma wp_run {A} (c : M A) w Q r w' : c w = (r, w') -> wp c w Q -> Q r w'.
Proof. unfold wp. by intros ->. Qed.

Lemma wp_bind {A B} (c : M A) (k : A -> M B) w Q :
  wp c w (fun r w' => match r with
                      | Ok a => wp (k a) w' Q
                      | Raise e => Q (Raise e) w'
                      end) ->
  wp (c ≫= k) w Q.
Proof.
  unfold wp, mbind, M_bind. by destruct (c w) as [[a|e] w'].
Qed.

Lemma wp_mono {A} (c : M A) w (Q Q' : result A -> world -> Prop) :
  (forall r w', Q r w' -> Q' r w') -> wp c w Q -> wp c w Q'.
Proof. unfold wp. auto. Qed.

Lemma wp_ret {A} (a : A) w (Q : result A -> world -> Prop) :
  Q (Ok a) w -> wp (mret a) w Q.
Proof. done. Qed.

Lemma wp_raise {A} e w (Q : result A -> world -> Prop) :
  Q (Raise e) w -> wp (raise e) w Q.
Proof. done. Qed.

Lemma wp_lift {A} (r : result A) w (Q : result A -> world -> Prop) :
  Q r w -> wp (lift r) w Q.
Proof. done. Qed.

Lemma wp_emit ev w (Q : result unit -> world -> Prop) :
  Q (Ok tt) (with_log (log w ++ [ev]) w) -> wp (emit ev) w Q.
Proof. done. Qed.

Lemma wp_call {A} ev (r : result A) w (Q : result A -> world -> Prop) :
  Q r (with_log (log w ++ [ev]) w) -> wp (call ev r) w Q.
Proof. done. Qed.

Lemma wp_getattr name w (Q : result pyval -> world -> Prop) :
  match self w !! name with
  | Some v => Q (Ok v) w
  | None => Q (Raise (AttributeError name)) w
  end ->
  wp (getattr name) w Q.
Proof. unfold wp, getattr. by destruct (self w !! name). Qed.

Lemma wp_setattr name v w (Q : result unit -> world -> Prop) :
  Q (Ok tt) (with_self (<[name := v]> (self w)) w) -> wp (setattr name v) w Q.
Proof. done. Qed.

Lemma wp_get_self w (Q : result attributes -> world -> Prop) :
  Q (Ok (self w)) w -> wp get_self w Q.
Proof. done. Qed.

Lemma wp_getdata name w (Q : result pydata -> world -> Prop) :
  match self w !! name with
  | Some (PyData d) => Q (Ok d) w
  | Some _ => Q (Raise (TypeError "unsupported operand")) w
  | None => Q (Raise (AttributeError name)) w
  end ->
  wp (getdata name) w Q.
Proof.
  unfold wp, getdata, getattr, mbind, M_bind.
  by destruct (self w !! name) as [[]|].
Qed.

(** A loop keeps what each of its iterations keeps. *)
Lemma wp_for {A} (I : world -> Prop) (l : list A) (body : A -> M unit) w :
  (forall x w', x ∈ l -> I w' -> wp (body x) w' (fun _ => I)) ->
  I w -> wp (for_ l body) w (fun _ => I).
Proof.
  revert w. induction l as [|x l IH]; intros w Hbody HI; [done|].
  simpl. apply wp_bind.
  eapply wp_mono; [|apply (Hbody x w); [left|done]].
  intros [[]|e] w' HI'; [|done].
  apply IH; [|done]. intros y w'' Hy. apply Hbody. by right.
Qed.

Lemma wp_random_shuffle l w (Q : result (list string) -> world -> Prop) :
  Q (Ok (shuffle l (random_state w)).1)
    (with_random_state (shuffle l (random_state w)).2 w) ->
  wp (random_shuffle l) w Q.
Proof.
  unfold wp, random_shuffle. by destruct (shuffle l (random_state w)).
Qed.

Lemma wp_open_wb path w (Q : result unit -> world -> Prop) :
  (if writable w path then Q (Ok tt) (with_files (<[path := []]> (files w)) w)
   else Q (Raise (IOError "Permission denied")) w) ->
  wp (open_wb path) w Q.
Proof. unfold wp, open_wb. by destruct (writable w path). Qed.

Lemma wp_write path content w (Q : result unit -> world -> Prop) :
  Q (Ok tt) (with_files (<[path := content]> (files w)) w) ->
  wp (write path content) w Q.
Proof. done. Qed.

Lemma wp_read_rb path w (Q : result bytes -> world -> Prop) :
  match files w !! path with
  | Some content => Q (Ok content) w
  | None => Q (Raise (IOError "No such file or directory")) w
  end ->
  wp (read_rb path) w Q.
Proof. unfold wp, read_rb. by destruct (files w !! path). Qed.

Lemma wp_try_except {A} (body handler : M A) w (Q : result A -> world -> Prop) :
  wp body w (fun r w' => match r with
                         | Ok a => Q (Ok a) w'
                         | Raise _ => wp handler w' Q
                         end) ->
  wp (try_except body handler) w Q.
Proof. unfold wp, try_except. by destruct (body w) as [[a|e] w']. Qed.

Lemma wp_nonempty_file path w (Q : result bool -> world -> Prop) :
  match path with
  | PyData (DStr p) =>
      match files w !! p with
      | Some content => Q (Ok (negb (bool_decide (content = [])))) w
      | None => Q (Ok false) w
      end
  | _ => Q (Raise (TypeError
                     "stat: path should be string, bytes, os.PathLike or integer")) w
  end ->
  wp (nonempty_file path) w Q.
Proof.
  unfold wp, nonempty_file.
  destruct path as [[]| |]; try done. by destruct (files w !! s).
Qed.

(** [wp_apply H]: use the specification [H] of the computation at hand. *)
Ltac wp_apply H := eapply wp_mono; [|apply H].

Ltac wp_step :=
  lazymatch goal with
  | |- wp (mbind _ _) _ _ => apply wp_bind
  | |- wp (mret _) _ _ => apply wp_ret
  | |- wp (raise _) _ _ => apply wp_raise
  | |- wp (lift _) _ _ => apply wp_lift
  | |- wp (emit _) _ _ => apply wp_emit
  | |- wp (call _ _) _ _ => apply wp_call
  | |- wp (getattr _) _ _ => apply wp_getattr
  | |- wp (getdata _) _ _ => apply wp_getdata
  | |- wp (setattr _ _) _ _ => apply wp_setattr
  | |- wp get_self _ _ => apply wp_get_self
  | |- wp (random_shuffle _) _ _ => apply wp_random_shuffle
  | |- wp (open_wb _) _ _ => apply wp_open_wb
  | |- wp (write _ _) _ _ => apply wp_write
  | |- wp (read_rb _) _ _ => apply wp_read_rb
  | |- wp (try_except _ _) _ _ => apply wp_try_except
  | |- wp (nonempty_file _) _ _ => apply wp_nonempty_file
  end.


Lemma mapM_id_list (ids : list string) :
  mapM (fun x => match x with DStr s => Some s | _ => None end) (DStr <$> ids)
  = Some ids.
Proof. by apply mapM_fmap_Some. Qed.

Lemma wp_as_id_list ids w (Q : result (list string) -> world -> Prop) :
  Q (Ok ids) w -> wp (as_id_list (id_list ids)) w Q.
Proof. unfold wp, as_id_list, id_list. by rewrite mapM_id_list. Qed.

(** Symbolic execution of a method: the projections of an updated world,
    the lookups in an updated attribute dictionary, and a case analysis on
    every value that the method inspects. *)
Ltac wp_simpl :=
  cbn [self files writable random_state log with_self with_log with_files
       with_random_state fst snd negb].

Ltac str_ne := let H := fresh in intros H; discriminate H.

Ltac wp_lookup :=
  repeat match goal with
  | |- context [ <[?i := ?x]> ?m !! ?i ] => rewrite (lookup_insert_eq m i x)
  | |- context [ <[?i := ?x]> ?m !! ?j ] =>
      rewrite (lookup_insert_ne m i j x) by str_ne
  end.

(** A scrutinee that computes to a constructor is reduced, not analysed. *)
Ltac wp_reduce :=
  lazymatch goal with
  | |- match ?x with _ => _ end =>
      lazymatch x with
      | lookup _ _ => fail
      | _ =>
          let x' := eval hnf in x in
          lazymatch x' with
          | Ok _ => change x with x'
          | Raise _ => change x with x'
          end
      end
  end.

Ltac wp_known :=
  match goal with
  | H : ?x = _ |- match ?x with _ => _ end => rewrite H
  | H : ?x = _ |- wp (match ?x with _ => _ end) _ _ => rewrite H
  | H : ?x = _ |- wp (if ?x then _ else _) _ _ => rewrite H
  | |- wp (as_id_list (id_list _)) _ _ => apply wp_as_id_list
  end.

Ltac wp_unfold :=
  lazymatch goal with
  | |- wp (as_datasets _ _) _ _ => unfold as_datasets at 1
  | |- wp (as_results _ _) _ _ => unfold as_results at 1
  | |- wp (as_int _) _ _ => unfold as_int at 1
  | |- wp (as_str _) _ _ => unfold as_str at 1
  | |- wp (as_data _) _ _ => unfold as_data at 1
  | |- wp (as_id_list _) _ _ => unfold as_id_list at 1
  | |- wp (truthy _) _ _ => unfold truthy at 1
  | |- wp (gt_one _) _ _ => unfold gt_one at 1
  | |- wp (pickling _) _ _ => unfold pickling at 1
  | |- wp (_summarize_expt _) _ _ => unfold _summarize_expt at 1
  | |- wp (_preprocess_data _ _ _ _) _ _ => unfold _preprocess_data at 1
  | |- wp (_get_covariate_data _ _ _) _ _ => unfold _get_covariate_data at 1
  | |- wp (_deconfound_data _ _ _ _ _) _ _ => unfold _deconfound_data at 1
  | |- wp (_optimize_pipeline _ _ _ _ _ _) _ _ => unfold _optimize_pipeline at 1
  | |- wp (_optimize_pipeline_on_train_set _ _ _ _) _ _ =>
      unfold _optimize_pipeline_on_train_set at 1
  end.

Ltac wp_case :=
  lazymatch goal with
  | |- match ?x with _ => _ end => destruct x eqn:?
  | |- wp (match ?x with _ => _ end) _ _ => destruct x eqn:?
  | |- wp (if ?x then _ else _) _ _ => destruct x eqn:?
  end.

Ltac wp_go :=
  repeat (first [progress wp_simpl | wp_step | progress wp_lookup | wp_known
                | wp_reduce | wp_unfold | wp_case]).
(** * The properties of the specification *)

Section Properties.

Context (cfg : Config) (lib : Library) (sub : Subclass).

(** ** [_prepare] *)

(** What [_prepare] does: it leaves the world outside the object alone but
    for the log; when it returns, the configuration has passed every check
    and the derived attributes are set; when it raises, either nothing has
    been read from the datasets, or every check had passed. *)
Lemma prepare_spec w :
  wp (_prepare cfg lib) w (fun r w' =>
    files w' = files w /\ writable w' = writable w /\
    random_state w' = random_state w /\
    match r with
    | Ok _ =>
        exists n tp procs d size path a',
          validated cfg lib (self w) n tp procs d /\
          (match int_mul (Z.of_nat (length (samplet_ids d))) tp with
           | Ok x => np_floor_int64 x | Raise e => Raise e end) = Ok size /\
          (exists od, self w !! "out_dir" = Some (PyData od) /\
                      pjoin od (results_file_name cfg) = Ok path) /\
          self w' = a' /\
          ((a' = prepared (self w) n procs d size path /\
            log w' = (log w ++ [ReadSampletIds])%list) \/
           (exists chance,
              a' = summarized (prepared (self w) n procs d size path) d chance /\
              log w' = (log w ++ [ReadSampletIds; ReadTargetSizes])%list))
    | Raise e =>
        log w' = log w \/ exists n tp procs d, validated cfg lib (self w) n tp procs d
    end).
Proof.
  unfold _prepare.
  wp_go.
  all: try (repeat split; try done; left; done).
  all: simplify_eq.
  all: repeat match goal with
       | H : negb _ = false |- _ => apply negb_false_iff in H
       | H : np_isfinite_int _ = Ok ?b |- _ =>
           is_var b; let H' := fresh in
           assert (b = true) as H' by (unfold np_isfinite_int in H; by destruct (_ && _); simplify_eq); subst b
       | H : negb true = true |- _ => discriminate H
       end.
  all: match goal with
       | Hr : self ?w0 !! "num_rep_cv" = Some (PyData ?r),
         Hi : int_ _ ?r = Ok ?n,
         Ht : self ?w0 !! "train_perc" = Some (PyData ?tp),
         Hp : check_num_procs lib _ = Ok ?procs,
         Hl : str_lower ?lv = Ok _,
         Hd : self ?w0 !! "datasets" = Some (PyDatasets ?d) |- _ =>
           assert (validated cfg lib (self w0) n tp procs d) as Hv by
             (destruct lv; try discriminate; simpl in *; simplify_eq;
              constructor; eauto; lia)
       end.
  all: repeat split; try done.
  all: try (right; by eauto).
  all: eexists _, _, _, _, _, _, _; split; [exact Hv|].
  all: match goal with H : int_mul _ _ = Ok _ |- _ => rewrite H end.
  all: split; [done|]; split; [by eauto|]; split; [done|].
  - right. eexists. split; [done|]. by rewrite <- app_assoc.
  - by left.
Qed.

Lemma run_prepare_raise w e w' :
  _prepare cfg lib w = (Raise e, w') -> run cfg lib sub w = (Raise e, w').
Proof. intros H. unfold run, mbind at 1, M_bind at 1. by rewrite H. Qed.

(** C9: a repetition count that is NaN or an infinity makes [_prepare], and
    so [run], raise; the exception comes from the conversion [int(...)],
    and the world is left as it was: no attribute is set, nothing is read
    from the datasets, no split is drawn. *)
Theorem non_finite_repetitions_rejected (w : world) (f : float64) :
  self w !! "num_rep_cv" = Some (PyData (DFloat f)) ->
  is_finite f = false ->
  exists e, conversion_error e /\
            _prepare cfg lib w = (Raise e, w) /\
            run cfg lib sub w = (Raise e, w).
Proof.
  intros Hattr Hf.
  assert (exists e, conversion_error e /\ _prepare cfg lib w = (Raise e, w))
    as (e & He & Hp).
  { unfold _prepare, getdata, getattr, mbind, M_bind. rewrite Hattr. simpl.
    destruct f; try discriminate; simpl; eexists; (split; [|reflexivity]);
      [right|left]; reflexivity. }
  exists e. repeat split; [done..|]. by apply run_prepare_raise.
Qed.


Lemma prepare_ok w w' :
  _prepare cfg lib w = (Ok tt, w') ->
  exists n tp procs d size path,
    validated cfg lib (self w) n tp procs d /\
    (match int_mul (Z.of_nat (length (samplet_ids d))) tp with
     | Ok x => np_floor_int64 x | Raise e => Raise e end) = Ok size /\
    (exists od, self w !! "out_dir" = Some (PyData od) /\
                pjoin od (results_file_name cfg) = Ok path) /\
    files w' = files w /\ writable w' = writable w /\
    random_state w' = random_state w /\
    ((self w' = prepared (self w) n procs d size path /\
      log w' = (log w ++ [ReadSampletIds])%list) \/
     (exists chance,
        self w' = summarized (prepared (self w) n procs d size path) d chance /\
        log w' = (log w ++ [ReadSampletIds; ReadTargetSizes])%list)).
Proof.
  intros H. pose proof (wp_run _ _ _ _ _ H (prepare_spec w)) as Hs.
  simpl in Hs.
  destruct Hs as (Hf & Hw & Hr & n & tp & procs & d & size & path & a' & Hv &
                  Hsz & Hp & <- & Ha).
  exists n, tp, procs, d, size, path.
  exact (conj Hv (conj Hsz (conj Hp (conj Hf (conj Hw (conj Hr Ha)))))).
Qed.

(** After [_prepare], the attributes that the run reads. *)
Lemma prepared_lookup w w' n procs d size path :
  (self w' = prepared (self w) n procs d size path \/
   exists chance, self w' = summarized (prepared (self w) n procs d size path) d chance) ->
  self w' !! "num_rep_cv" = Some (PyData (DInt n)) /\
  self w' !! "num_procs" = Some (PyData (DInt procs)) /\
  self w' !! "_id_list" = Some (id_list (samplet_ids d)) /\
  self w' !! "_train_set_size" =
    Some (PyData (DInt (max_ 1 (min_ (Z.of_nat (length (samplet_ids d))) size)))) /\
  self w' !! "_out_results_path" = Some (PyData (DStr path)) /\
  self w' !! "datasets" = self w !! "datasets" /\
  self w' !! "train_perc" = self w !! "train_perc".
Proof.
  intros [Ha|[chance Ha]]; rewrite Ha; unfold summarized, prepared;
    repeat split; by wp_lookup.
Qed.

Lemma floor64_of_zero_product tp :
  floor64 (fmul (float_of_int 0) tp) < 1.
Proof. by destruct tp. Qed.

Lemma max_min_clamp (N size : Z) :
  (1 <= N \/ size < 1) -> max_ 1 (min_ N size) = clamp size 1 N.
Proof.
  unfold max_, min_, clamp. intros H.
  destruct (Z.ltb_spec size N);
  repeat match goal with
         | |- context [?a <? ?b] => destruct (Z.ltb_spec a b)
         end; lia.
Qed.

Lemma max_min_bounds (N size : Z) :
  1 <= max_ 1 (min_ N size) /\ (1 <= N -> max_ 1 (min_ N size) <= N).
Proof.
  unfold max_, min_.
  destruct (Z.ltb_spec size N);
  repeat match goal with
         | |- context [?a <? ?b] => destruct (Z.ltb_spec a b)
         end; lia.
Qed.

(** When [_prepare] returns, the attribute [_train_set_size] is the floor
    that numpy computes into an int64 of the binary64 product, brought
    between 1 and the number [N] of sample identifiers. *)
Lemma prepared_train_set_size (w w' : world) (d : Datasets) (tp : float64) :
  self w !! "datasets" = Some (PyDatasets d) ->
  self w !! "train_perc" = Some (PyData (DFloat tp)) ->
  _prepare cfg lib w = (Ok tt, w') ->
  let N := Z.of_nat (length (samplet_ids d)) in
  let size := clamp (floor64 (fmul (float_of_int N) tp)) 1 N in
  self w' !! "_train_set_size" = Some (PyData (DInt size)) /\
  1 <= size /\ (1 <= N -> size <= N).
Proof.
  intros Hd Htp Hp N size.
  apply prepare_ok in Hp
    as (n & tp' & procs & d' & sz & path & Hv & Hsz & _ & _ & _ & _ & Ha).
  destruct Hv as [_ _ _ Htp' _ _ _ _ Hd']. simplify_eq. simpl in Hsz. simplify_eq.
  assert (max_ 1 (min_ N (floor64 (fmul (float_of_int N) tp))) = size) as Hsize.
  { apply max_min_clamp.
    destruct (decide (1 <= N)) as [|HN]; [by left|right].
    assert (N = 0) as -> by lia. apply floor64_of_zero_product. }
  split; [|rewrite <- Hsize; apply max_min_bounds].
  assert (self w' = prepared (self w) n procs d
                      (np_int64 (np_floor (fmul (float_of_int N) tp))) path \/
          exists chance, self w' = summarized (prepared (self w) n procs d
                      (np_int64 (np_floor (fmul (float_of_int N) tp))) path) d chance)
    as Ha' by (destruct Ha as [[? _]|(c & ? & _)]; eauto).
  apply prepared_lookup in Ha' as (_ & _ & _ & -> & _).
  by rewrite <- Hsize.
Qed.


Lemma validated_contradiction a n tp procs d :
  validated cfg lib a n tp procs d ->
  (exists k, a !! "num_rep_cv" = Some (PyData (DInt k)) /\ k <= 1) \/
  (exists x, a !! "train_perc" = Some (PyData x) /\
             (le_const x 0 = Ok true \/ ge_const x 1 = Ok true)) \/
  (exists s, a !! "grid_search_level" = Some (PyData (DStr s)) /\
             lower s ∉ GRIDSEARCH_LEVELS cfg) ->
  False.
Proof.
  intros [(r & Hr & Hi) Hfin Hgt Htp Hlo Hhi Hprocs (s' & Hs' & Hin') Hdata]
         [(k & Hk & Hle)|[(x & Hx & Hc)|(s & Hs & Hin)]].
  - simplify_eq. simpl in Hi. simplify_eq. lia.
  - simplify_eq. destruct Hc; congruence.
  - simplify_eq. unfold in_list in Hin'. by apply bool_decide_eq_true in Hin'.
Qed.

(** Both comparisons of the train fraction are false for NaN. *)
Lemma nan_passes_comparisons :
  le_const (DFloat nan) 0 = Ok false /\ ge_const (DFloat nan) 1 = Ok false.
Proof. done. Qed.

(** An invalid repetition count, train fraction or grid-search level makes
    [_prepare] raise before anything outside the object is touched. *)
Lemma invalid_configuration_rejected (w : world) :
  (exists k, self w !! "num_rep_cv" = Some (PyData (DInt k)) /\ k <= 1) \/
  (exists x, self w !! "train_perc" = Some (PyData x) /\
             (le_const x 0 = Ok true \/ ge_const x 1 = Ok true)) \/
  (exists s, self w !! "grid_search_level" = Some (PyData (DStr s)) /\
             lower s ∉ GRIDSEARCH_LEVELS cfg) ->
  exists e w', _prepare cfg lib w = (Raise e, w') /\ same_outside w w' /\
               run cfg lib sub w = (Raise e, w').
Proof.
  intros Hbad.
  destruct (_prepare cfg lib w) as [[[]|e] w'] eqn:Hp.
  - apply prepare_ok in Hp as (n & tp & procs & d & _ & _ & Hv & _).
    destruct (validated_contradiction _ _ _ _ _ Hv Hbad).
  - exists e, w'. split; [done|]. split; [|by apply run_prepare_raise].
    pose proof (wp_run _ _ _ _ _ Hp (prepare_spec w))
      as (Hf & Hw & Hr & [Hl|(n & tp & procs & d & Hv)]); [done|].
    destruct (validated_contradiction _ _ _ _ _ Hv Hbad).
Qed.

(** An unrecognised workflow type makes the constructor raise; nothing
    outside the object is touched and no result accumulator is built. *)
Lemma invalid_workflow_rejected (args : Args) (w : world) (s : string) :
  arg_workflow_type args = PyData (DStr s) ->
  lower s ∉ workflow_types cfg ->
  exists w', __init__ cfg args w =
               (Raise (ValueError "Invalid workflow. Must be one of {}"), w') /\
             same_outside w w'.
Proof.
  intros Hs Hin.
  assert (negb (in_list (lower s) (workflow_types cfg)) = true) as Hb.
  { unfold in_list. by rewrite bool_decide_eq_false_2. }
  assert (wp (__init__ cfg args) w (fun r w' =>
            r = Raise (ValueError "Invalid workflow. Must be one of {}") /\
            same_outside w w')) as H.
  { unfold __init__. wp_go. done. }
  unfold wp in H. destruct (__init__ cfg args w) as [r w']. simpl in H.
  destruct H as [-> H]. by exists w'.
Qed.

(** [_run_cv] with more than one process, and with one. *)
Lemma run_cv_parallel (w : world) (procs : Z) :
  self w !! "num_procs" = Some (PyData (DInt procs)) -> 1 < procs ->
  _run_cv cfg lib sub w =
    (Raise (NotImplementedError
              "parallel runs not implemented yet!Use num_procs=1 for now"), w).
Proof.
  intros Hp Hgt. unfold _run_cv, getattr, gt_one, mbind, M_bind.
  rewrite Hp. simpl. by rewrite (proj2 (Z.ltb_lt 1 procs) Hgt).
Qed.

Lemma run_cv_sequential (w : world) (procs n : Z) :
  self w !! "num_procs" = Some (PyData (DInt procs)) -> procs <= 1 ->
  self w !! "num_rep_cv" = Some (PyData (DInt n)) ->
  _run_cv cfg lib sub w =
    for_ (seq 0 (Z.to_nat n))
      (fun rep => _single_run_cv cfg lib sub (DInt (Z.of_nat rep))) w.
Proof.
  intros Hp Hle Hn. unfold _run_cv, getattr, gt_one, as_int, mbind, M_bind.
  rewrite Hp. simpl. rewrite (proj2 (Z.ltb_ge 1 procs) Hle).
  by rewrite Hn.
Qed.


(** *** Truncation of the repetition count *)

Lemma digits2_pos_gt (m : positive) : Zpos m < 2 ^ Zpos (digits2_pos m).
Proof.
  induction m as [m IH|m IH|]; simpl; [| |done];
    rewrite Pos2Z.inj_succ, Z.pow_succ_r by lia; lia.
Qed.

Lemma valid_mantissa_bound s m e :
  valid_binary prec emax (S754_finite s m e) = true -> Zpos m < 2 ^ 53.
Proof.
  unfold valid_binary, bounded, canonical_mantissa, fexp, emin, prec, emax.
  intros [He _]%andb_prop. apply Z.eqb_eq in He.
  pose proof (digits2_pos_gt m) as Hm.
  assert (Zpos (digits2_pos m) <= 53) by lia.
  eapply Z.lt_le_trans; [done|]. by apply Z.pow_le_mono_r.
Qed.

(** *** The floor of a binary64 *)

Lemma shr_1_m mrs : 0 <= shr_m mrs -> shr_m (shr_1 mrs) = shr_m mrs / 2.
Proof.
  destruct mrs as [m r s]. simpl.
  destruct m as [|[p|p|]|p]; simpl; intros H; try lia; try done.
  - rewrite Pos2Z.inj_xI. apply (Z.div_unique _ _ _ 1); lia.
  - rewrite Pos2Z.inj_xO. apply (Z.div_unique _ _ _ 0); lia.
Qed.

Lemma iter_shr_1_m p mrs :
  0 <= shr_m mrs -> shr_m (SpecFloat.iter_pos shr_1 p mrs) = shr_m mrs / 2 ^ Zpos p.
Proof.
  revert mrs. induction p as [p IH|p IH|]; intros mrs Hm; simpl SpecFloat.iter_pos.
  - assert (0 <= shr_m (shr_1 mrs)) as H1.
    { rewrite shr_1_m by done. apply Z.div_pos; lia. }
    assert (0 <= shr_m (SpecFloat.iter_pos shr_1 p (shr_1 mrs))) as H2.
    { rewrite IH by done. apply Z.div_pos; lia. }
    rewrite IH, IH, shr_1_m by done.
    rewrite !Z.div_div by lia. f_equal.
    rewrite Pos2Z.inj_xI, Z.pow_add_r, Z.pow_mul_r by lia.
    change (2 ^ 2) with 4. change (2 ^ 1) with 2.
    set (x := 2 ^ Z.pos p). replace (4 ^ Z.pos p) with (x * x); [lia|].
    unfold x. rewrite <- Z.pow_add_r by lia.
    replace (Z.pos p + Z.pos p) with (2 * Z.pos p) by lia.
    by rewrite Z.pow_mul_r by lia.
  - assert (0 <= shr_m (SpecFloat.iter_pos shr_1 p mrs)) as H2.
    { rewrite IH by done. apply Z.div_pos; lia. }
    rewrite IH, IH by done.
    rewrite !Z.div_div by lia. f_equal.
    rewrite Pos2Z.inj_xO. rewrite <- Z.pow_add_r by lia. f_equal. lia.
  - rewrite shr_1_m by done. done.
Qed.

Lemma Zdigits2_gt (m : Z) : 0 <= m -> m < 2 ^ Zdigits2 m.
Proof.
  destruct m as [|p|p]; intros H; [done| |lia]. apply digits2_pos_gt.
Qed.

Lemma Zdigits2_nonneg (m : Z) : 0 <= Zdigits2 m.
Proof. destruct m; simpl; lia. Qed.

Lemma shr_record_of_loc_m m l : shr_m (shr_record_of_loc m l) = m.
Proof. by destruct l as [|[]]. Qed.

(** After the shift that brings a mantissa to its exponent, it has at most
    53 bits. *)
Lemma shr_fexp_bound m e l :
  0 <= m -> 0 <= shr_m (shr_fexp prec emax m e l).1 < 2 ^ 53.
Proof.
  intros Hm. unfold shr_fexp, shr.
  pose proof (Zdigits2_gt m Hm) as Hd. pose proof (Zdigits2_nonneg m) as Hd0.
  assert (Zdigits2 m + e - 53 <= fexp prec emax (Zdigits2 m + e)) as Hf.
  { unfold fexp, prec. lia. }
  destruct (fexp prec emax (Zdigits2 m + e) - e) as [|p|p] eqn:Hn; simpl.
  - rewrite shr_record_of_loc_m. split; [done|].
    eapply Z.lt_le_trans; [exact Hd|]. apply Z.pow_le_mono_r; lia.
  - rewrite iter_shr_1_m, shr_record_of_loc_m by (by rewrite shr_record_of_loc_m).
    split; [apply Z.div_pos; lia|].
    apply Z.div_lt_upper_bound; [lia|].
    rewrite <- Z.pow_add_r by lia.
    eapply Z.lt_le_trans; [exact Hd|]. apply Z.pow_le_mono_r; lia.
  - rewrite shr_record_of_loc_m. split; [done|].
    eapply Z.lt_le_trans; [exact Hd|]. apply Z.pow_le_mono_r; lia.
Qed.

Lemma round_nearest_even_nonneg m l : 0 <= m -> 0 <= round_nearest_even m l.
Proof.
  intros Hm. destruct l as [|[]]; simpl; try lia. destruct (Z.even m); lia.
Qed.

(** The rounding of a non-negative mantissa gives a binary64 of at most 53
    bits. *)
Lemma binary_round_aux_precision s m e l :
  0 <= m -> within_precision (binary_round_aux prec emax s m e l).
Proof.
  intros Hm. unfold binary_round_aux.
  pose proof (shr_fexp_bound m e l Hm) as H1.
  destruct (shr_fexp prec emax m e l) as [mrs' e'] eqn:E1. simpl in H1.
  pose proof (shr_fexp_bound (round_nearest_even (shr_m mrs') (loc_of_shr_record mrs'))
                e' loc_Exact) as H2.
  destruct (shr_fexp prec emax _ e' loc_Exact) as [mrs'' e''] eqn:E2. simpl in H2.
  specialize (H2 (round_nearest_even_nonneg _ _ (proj1 H1))).
  destruct (shr_m mrs'') as [|q|q]; [done| |done].
  destruct (e'' <=? emax - prec); [exact (proj2 H2)|done].
Qed.

(** A product of binary64 has a mantissa of at most 53 bits. *)
Lemma fmul_precision (x y : float64) : within_precision (fmul x y).
Proof.
  destruct x, y; try done. apply binary_round_aux_precision. lia.
Qed.

Lemma digits2_pos_le (m : positive) : 2 ^ (Zpos (digits2_pos m) - 1) <= Zpos m.
Proof.
  induction m as [m IH|m IH|]; simpl; [| |done];
    rewrite Pos2Z.inj_succ;
    replace (Z.succ (Z.pos (digits2_pos m)) - 1)
      with (Z.succ (Z.pos (digits2_pos m) - 1)) by lia;
    rewrite Z.pow_succ_r by lia; lia.
Qed.

Lemma digits2_pos_bound (m : positive) (k : Z) :
  0 <= k -> Zpos m < 2 ^ k -> Zpos (digits2_pos m) <= k.
Proof.
  intros Hk Hm. pose proof (digits2_pos_le m) as Hd.
  destruct (Z.le_gt_cases (Zpos (digits2_pos m)) k) as [|Hgt]; [done|].
  assert (2 ^ k <= 2 ^ (Zpos (digits2_pos m) - 1))
    by (apply Z.pow_le_mono_r; lia). lia.
Qed.

(** A mantissa that is at its exponent is rounded to itself. *)
Lemma binary_round_aux_exact s m e :
  fexp prec emax (Zpos (digits2_pos m) + e) <= e -> e <= emax - prec ->
  binary_round_aux prec emax s (Zpos m) e loc_Exact = S754_finite s m e.
Proof.
  intros Hf He. unfold binary_round_aux.
  assert (shr_fexp prec emax (Zpos m) e loc_Exact
          = ({| shr_m := Zpos m; shr_r := false; shr_s := false |}, e)) as ->.
  { unfold shr_fexp, shr. simpl Zdigits2.
    destruct (fexp prec emax (Zpos (digits2_pos m) + e) - e) eqn:Hn; try done. lia. }
  simpl shr_m. simpl loc_of_shr_record. simpl round_nearest_even.
  assert (shr_fexp prec emax (Zpos m) e loc_Exact
          = ({| shr_m := Zpos m; shr_r := false; shr_s := false |}, e)) as ->.
  { unfold shr_fexp, shr. simpl Zdigits2.
    destruct (fexp prec emax (Zpos (digits2_pos m) + e) - e) eqn:Hn; try done. lia. }
  simpl shr_m. by rewrite (proj2 (Z.leb_le _ _) He).
Qed.

Lemma iter_xO_shiftl (m k : positive) :
  Zpos (Pos.iter xO m k) = Zpos m * 2 ^ Zpos k.
Proof.
  rewrite <- Z.shiftl_mul_pow2 by lia. simpl.
  apply (Pos.iter_swap_gen _ _ Zpos xO (Z.mul 2)). intros a. done.
Qed.

(** An integer of at most 53 bits is a binary64: its conversion truncates
    back to it. *)
Lemma binary_normalize_exact (z : Z) (s : bool) :
  - 2 ^ 53 < z < 2 ^ 53 -> trunc_Z (binary_normalize prec emax z 0 s) = Some z.
Proof.
  intros Hz.
  assert (forall sx (m : positive), Zpos m < 2 ^ 53 ->
            trunc_Z (binary_round prec emax sx m 0)
            = Some (if sx then - Zpos m else Zpos m)) as Hround.
  { intros sx m Hm. unfold binary_round, shl_align.
    pose proof (digits2_pos_bound m 53 ltac:(lia) Hm) as Hd.
    assert (fexp prec emax (Zpos (digits2_pos m) + 0) = Zpos (digits2_pos m) - 53) as ->.
    { unfold fexp, emin, prec, emax. lia. }
    destruct (Zpos (digits2_pos m) - 53 - 0) as [|k|k] eqn:Hk; [| lia |].
    - rewrite binary_round_aux_exact.
      + simpl. by destruct sx.
      + unfold fexp, emin, prec, emax. lia.
      + unfold prec, emax. lia.
    - assert (Zpos (Pos.iter xO m k) < 2 ^ 53) as Hm'.
      { rewrite iter_xO_shiftl.
        pose proof (digits2_pos_gt m) as Hgt.
        replace 53 with (Zpos (digits2_pos m) + Zpos k) by lia.
        rewrite Z.pow_add_r by lia.
        apply Z.mul_lt_mono_pos_r; [lia|done]. }
      pose proof (digits2_pos_bound _ 53 ltac:(lia) Hm') as Hd'.
      rewrite binary_round_aux_exact.
      + unfold trunc_Z, mantissa_shift.
        destruct (Z.leb_spec 0 (Zpos (digits2_pos m) - 53)); [lia|]. simpl fst.
        replace (- (Zpos (digits2_pos m) - 53)) with (Zpos k) by lia.
        rewrite Z.shiftr_div_pow2 by lia.
        rewrite iter_xO_shiftl, Z.div_mul by lia. done.
      + unfold fexp, emin, prec, emax. lia.
      + unfold prec, emax. lia. }
  destruct z as [|m|m]; simpl; [done| |].
  - apply Hround. lia.
  - rewrite Hround by lia. done.
Qed.

(** The floor that numpy computes into an int64 is the floor of the value. *)
Lemma floor64_floor_int64 (x : float64) :
  within_precision x -> floor64 x = floor_int64 x.
Proof.
  destruct x as [s| |  |s m e]; try done.
  intros Hm. simpl in Hm.
  unfold floor64, floor_int64, floor_of_dyadic, signed_mantissa, np_floor.
  destruct (Z.leb_spec 0 e) as [He|He].
  - unfold np_int64, trunc_Z, mantissa_shift.
    rewrite (proj2 (Z.leb_le 0 e) He). simpl fst.
    rewrite Z.shiftl_mul_pow2 by done.
    assert ((if s then - (Z.pos m * 2 ^ e) else Z.pos m * 2 ^ e)
            = (if s then Z.neg m else Z.pos m) * 2 ^ e) as -> by (destruct s; lia).
    unfold INT64_MIN, INT64_MAX.
    set (q := (if s then Z.neg m else Z.pos m) * 2 ^ e).
    destruct (Z.leb_spec (- 2 ^ 63) q), (Z.leb_spec q (2 ^ 63 - 1)),
      (Z.ltb_spec q (2 ^ 63)); simpl; try done; lia.
  - unfold floor_Z, mantissa_shift.
    destruct (Z.leb_spec 0 e) as [|_]; [lia|].
    rewrite Z.shiftr_div_pow2, Z.land_ones by lia.
    set (d := 2 ^ (- e)).
    assert (2 <= d) as Hd.
    { unfold d. change 2 with (2 ^ 1) at 1. apply Z.pow_le_mono_r; lia. }
    pose proof (Z.div_mod (Z.pos m) d ltac:(lia)) as Hdm.
    pose proof (Z.mod_pos_bound (Z.pos m) d ltac:(lia)) as Hmod.
    assert (0 <= Z.pos m / d) as Hq0 by (apply Z.div_pos; lia).
    assert (Z.pos m / d < 2 ^ 52) as Hq.
    { apply Z.div_lt_upper_bound; [lia|]. change (2 ^ 53) with (2 * 2 ^ 52) in Hm. nia. }
    set (q := (if s then if Z.pos m `mod` d =? 0 then - (Z.pos m `div` d)
                         else - (Z.pos m `div` d) - 1
               else Z.pos m `div` d)).
    assert (q = (if s then Z.neg m else Z.pos m) / d) as Hfloor.
    { unfold q. destruct s; [|done].
      destruct (Z.eqb_spec (Z.pos m `mod` d) 0) as [H0|H0].
      - apply (Z.div_unique _ _ _ 0); lia.
      - apply (Z.div_unique _ _ _ (d - Z.pos m `mod` d)); lia. }
    assert (- 2 ^ 53 < q < 2 ^ 53) as Hrange.
    { unfold q. destruct s; [destruct (_ =? _)|]; lia. }
    unfold np_int64. rewrite binary_normalize_exact by done.
    rewrite <- Hfloor. unfold INT64_MIN, INT64_MAX.
    destruct (Z.leb_spec (- 2 ^ 63) q), (Z.leb_spec q (2 ^ 63 - 1)),
      (Z.ltb_spec q (2 ^ 63)); simpl; try done; lia.
Qed.

Lemma float_product_floor (N : Z) (tp : float64) :
  floor64 (fmul (float_of_int N) tp) = floor_int64 (binary64_product N tp).
Proof. apply floor64_floor_int64, fmul_precision. Qed.

(** *** The repetition count *)

(** A binary64 with a fractional part is below 2^53 in magnitude. *)
Lemma truncation_range f :
  valid_binary prec emax f = true -> fractional f = true ->
  - 2 ^ 53 < truncation f < 2 ^ 53.
Proof.
  destruct f as [| | |s m e]; try done.
  intros Hv Hi. apply valid_mantissa_bound in Hv.
  unfold truncation, fractional, trunc_Z, mantissa_shift in *.
  destruct (Z.leb_spec 0 e); simpl in *; [done|].
  assert (0 <= Z.shiftr (Z.pos m) (- e) <= Z.pos m).
  { rewrite Z.shiftr_div_pow2 by lia. split.
    - apply Z.div_pos; lia.
    - apply Z.div_le_upper_bound; [lia|].
      assert (1 <= 2 ^ (- e)) by (apply (Z.pow_le_mono_r 2 0); lia). nia. }
  destruct s; lia.
Qed.

Lemma fractional_finite f : fractional f = true -> is_finite f = true.
Proof. by destruct f. Qed.

Lemma int_of_finite f :
  is_finite f = true -> int_ (int_of_str lib) (DFloat f) = Ok (truncation f).
Proof. by destruct f. Qed.

(** ** One repetition *)

Lemma modality_step_refl w : modality_step w w.
Proof.
  repeat split; try done. exists []. split; [by rewrite app_nil_r|constructor].
Qed.

Lemma modality_step_trans w1 w2 w3 :
  modality_step w1 w2 -> modality_step w2 w3 -> modality_step w1 w3.
Proof.
  intros (Ha & Hf & Hw & Hr & evs & Hl & He) (Ha' & Hf' & Hw' & Hr' & evs' & Hl' & He').
  repeat split; try congruence.
  - intros name Hne. rewrite Ha', Ha; done.
  - exists (evs ++ evs')%list. split.
    + by rewrite Hl', Hl, app_assoc.
    + by apply Forall_app.
Qed.

(** A world that differs from [w] in [results] and by logged calls. *)
Ltac solve_modality_step :=
  unfold modality_step; wp_simpl;
  split; [intros ? ?; by rewrite ?lookup_insert_ne by done|];
  split; [done|]; split; [done|]; split; [done|];
  eexists; split; [rewrite <- ?app_assoc; reflexivity | repeat constructor].

Lemma modality_spec run_id train_set test_set item w :
  wp (_single_run_cv_modality cfg lib sub run_id train_set test_set item) w
     (fun _ w' => modality_step w w').
Proof.
  destruct item as [ds_id [[train_data train_targets] [test_data test_targets]]].
  unfold _single_run_cv_modality.
  wp_go.
  all: try solve_modality_step.
  all: try apply modality_step_refl.
Qed.

(** The covariates and the deconfounder are not optional: a modality that is
    processed to its end has asked the datasets for the covariates, whatever
    they are, of the train and of the test samples, and has fitted the
    deconfounder. *)
Lemma modality_deconfounds run_id train_set test_set item w :
  wp (_single_run_cv_modality cfg lib sub run_id train_set test_set item) w
     (fun r w' =>
        r = Ok tt ->
        exists covariates train_data train_covar evs,
          self w !! "covariates" = Some (PyData covariates) /\
          log w' = (log w ++ evs)%list /\
          GetCommonAttr covariates train_set ∈ evs /\
          GetCommonAttr covariates test_set ∈ evs /\
          Deconfound train_data train_covar ∈ evs).
Proof.
  destruct item as [ds_id [[train_data train_targets] [test_data test_targets]]].
  unfold _single_run_cv_modality.
  wp_go.
  all: intros Hok; try discriminate Hok.
  all: simplify_eq.
  all: eexists _, _, _, _; split; [done|].
  all: split; [rewrite <- ?app_assoc; reflexivity|].
  all: cbn [app]; rewrite !elem_of_cons; auto 20.
Qed.

(** *** The split *)

Lemma swap_perm {A} (l : list A) (i j : nat) : swap l i j ≡ₚ l.
Proof.
  unfold swap.
  destruct (l !! i) as [a|] eqn:Hi; [|done].
  destruct (l !! j) as [b|] eqn:Hj; [|done].
  apply Permutation_inj. split; [by rewrite !length_insert|].
  exists (fun k => if decide (k = i) then j else if decide (k = j) then i else k).
  split.
  - intros x y. repeat case_decide; lia.
  - intros k.
    pose proof (lookup_lt_Some _ _ _ Hi). pose proof (lookup_lt_Some _ _ _ Hj).
    rewrite !list_lookup_insert, !length_insert.
    repeat case_decide; destruct_and?; subst; try done; try lia; congruence.
Qed.

Lemma shuffle_from_perm {A} (i : nat) (draws : nat -> nat) (l : list A) :
  (shuffle_from i draws l).1 ≡ₚ l.
Proof.
  revert draws l. induction i as [|i IH]; intros draws l; [done|].
  simpl. rewrite IH. apply swap_perm.
Qed.

Lemma shuffle_perm {A} (l : list A) (draws : nat -> nat) :
  (shuffle l draws).1 ≡ₚ l.
Proof. apply shuffle_from_perm. Qed.

Lemma slice_to_subseteq {A} (l : list A) (k : Z) : slice_to l k ⊆ l.
Proof. unfold slice_to. destruct (k <? 0); apply subseteq_take. Qed.

(** The split that [_single_run_cv] draws from a permutation of the
    identifiers. *)
Lemma split_partitions (universe ids : list string) (k : Z) :
  ids ≡ₚ universe ->
  partitions universe (slice_to ids k)
    (elements ((list_to_set ids : gset string) ∖ list_to_set (slice_to ids k))).
Proof.
  intros Hperm. pose proof (slice_to_subseteq ids k) as Hsub. split.
  - intros x Hx.
    rewrite elem_of_elements, elem_of_difference, !elem_of_list_to_set.
    by intros [_ Hn].
  - intros x.
    rewrite elem_of_elements, elem_of_difference, !elem_of_list_to_set, <- Hperm.
    split.
    + intros Hx. destruct (decide (x ∈ slice_to ids k)); [by left|by right].
    + intros [Hx|[Hx _]]; [by apply Hsub|done].
Qed.

Lemma as_id_list_inv (l : list pydata) (ids : list string) :
  mapM (fun x => match x with DStr s => Some s | _ => None end) l = Some ids ->
  PyData (DList l) = id_list ids.
Proof.
  intros H%mapM_Some_1. unfold id_list. do 2 f_equal.
  induction H as [|x s l ids Hx _ IH]; [done|].
  simpl. rewrite IH. by destruct x; simplify_eq.
Qed.

Lemma id_list_inj (ids ids' : list string) : id_list ids = id_list ids' -> ids = ids'.
Proof.
  unfold id_list. intros H. simplify_eq.
  revert ids' H. induction ids as [|x ids IH]; intros [|y ids'] H; simplify_eq/=;
    [done|]. f_equal. by apply IH.
Qed.

Lemma repetitions_app l1 l2 :
  repetitions (l1 ++ l2) = (repetitions l1 + repetitions l2)%nat.
Proof. unfold repetitions. by rewrite filter_app, length_app. Qed.

Lemma repetitions_no_split evs :
  Forall (fun ev => is_split ev = false) evs -> repetitions evs = 0%nat.
Proof.
  unfold repetitions. induction 1 as [|ev evs Hev _ IH]; [done|].
  rewrite filter_cons. by rewrite Hev.
Qed.

Lemma repetitions_split train_set test_set :
  repetitions [GetSubsets train_set test_set] = 1%nat.
Proof. done. Qed.

Lemma split_ok_no_split universe evs :
  Forall (fun ev => is_split ev = false) evs -> Forall (split_ok universe) evs.
Proof. intros H. eapply Forall_impl; [done|]. by intros []. Qed.


Lemma repetition_step_unchanged w e : repetition_step w w (Raise e).
Proof.
  repeat split; try done.
  - intros ids Hids. by exists ids.
  - exists []. rewrite app_nil_r. repeat split; try done. cbn. lia.
Qed.

Lemma repetition_step_before_split w w' l0 e :
  self w !! "_id_list" = Some (id_list l0) ->
  self w' = <["_id_list" := id_list (shuffle l0 (random_state w)).1]> (self w) ->
  writable w' = writable w -> log w' = log w ->
  repetition_step w w' (Raise e).
Proof.
  intros Hids Hself Hw Hl. repeat split; try done.
  - intros name _ Hne. by rewrite Hself, lookup_insert_ne.
  - intros ids Hids'.
    assert (ids = l0) as -> by (apply id_list_inj; congruence).
    eexists. rewrite Hself, lookup_insert_eq. split; [done|]. apply shuffle_perm.
  - exists []. rewrite app_nil_r. repeat split; try done. cbn. lia.
Qed.

Lemma repetition_step_after_split w l0 k w1 w' w'' r :
  self w !! "_id_list" = Some (id_list l0) ->
  w1 = (let X := (shuffle l0 (random_state w)).1 in
        with_log
          (log w ++ [GetSubsets (slice_to X k)
                       (elements ((list_to_set X : gset string)
                                    ∖ list_to_set (slice_to X k)))])
          (with_self (<["_id_list" := id_list X]> (self w))
             (with_random_state (shuffle l0 (random_state w)).2 w))) ->
  modality_step w1 w' ->
  self w'' = self w' -> writable w'' = writable w' ->
  (exists evs, log w'' = (log w' ++ evs)%list /\
               Forall (fun ev => is_split ev = false) evs) ->
  repetition_step w w'' r.
Proof.
  intros Hids -> (Ha & _ & Hw & _ & evs & Hl & He) Hself Hw' (evs' & Hl' & He').
  simpl in *. repeat split.
  - intros name Hres Hne. by rewrite Hself, Ha, lookup_insert_ne.
  - congruence.
  - intros ids Hids'.
    assert (ids = l0) as -> by (apply id_list_inj; congruence).
    eexists. rewrite Hself, Ha, lookup_insert_eq by done.
    split; [done|]. apply shuffle_perm.
  - eexists. split; [by rewrite Hl', Hl, <- !app_assoc|].
    assert (Forall (fun ev => is_split ev = false) (evs ++ evs')) as Hno
      by by apply Forall_app.
    split; [|rewrite repetitions_app, (repetitions_no_split _ Hno),
                     repetitions_split; split; [lia|intros _; lia]].
    intros ids Hids'.
    assert (ids = l0) as -> by (apply id_list_inj; congruence).
    apply Forall_app. split; [|by apply split_ok_no_split].
    constructor; [|constructor].
    apply split_partitions, shuffle_perm.
Qed.

Lemma single_run_cv_spec run_id w :
  wp (_single_run_cv cfg lib sub run_id) w (fun r w' => repetition_step w w' r).
Proof.
  unfold _single_run_cv.
  wp_go.
  all: try apply repetition_step_unchanged.
  all: try match goal with
       | H : mapM _ ?l = Some ?ids,
         H' : self _ !! "_id_list" = Some (PyData (DList ?l)) |- _ =>
           rewrite (as_id_list_inv _ _ H) in H'
       end.
  all: try (eapply repetition_step_before_split; [eassumption|done..]).
  all: try (eapply repetition_step_after_split;
            [eassumption|reflexivity|apply modality_step_refl|done|done|];
            exists []; by rewrite app_nil_r).
  all: lazymatch goal with
       | |- wp (for_ _ _) ?w1 _ =>
           eapply wp_mono;
           [|apply (wp_for (modality_step w1));
             [intros; eapply wp_mono; [|apply modality_spec];
              intros; by eapply modality_step_trans
             |apply modality_step_refl]]
       end.
  all: intros [[]|e] w' Hstep.
  all: wp_go.
  all: try (eapply repetition_step_after_split;
            [eassumption|reflexivity|exact Hstep|done|done|]).
  all: try (exists []; by rewrite app_nil_r).
  all: try (eexists; split; [reflexivity|by repeat constructor]).
Qed.


(** ** All repetitions *)

Lemma partitions_perm (u u' train_set test_set : list string) :
  u ≡ₚ u' -> partitions u train_set test_set -> partitions u' train_set test_set.
Proof.
  intros Hp [Hd Hc]. split; [done|]. intros x. by rewrite <- Hp.
Qed.

Lemma split_ok_perm (u u' : list string) evs :
  u ≡ₚ u' -> Forall (split_ok u) evs -> Forall (split_ok u') evs.
Proof.
  intros Hp H. eapply Forall_impl; [exact H|]. intros [] H'; try done.
  by eapply partitions_perm.
Qed.

Lemma cv_steps_none n w e : cv_steps n w w (Raise e).
Proof.
  repeat split; try done.
  - intros ids Hids. by exists ids.
  - exists []. rewrite app_nil_r. repeat split; try done. cbn. lia.
Qed.

Lemma cv_steps_zero w : cv_steps 0 w w (Ok tt).
Proof.
  repeat split; try done.
  - intros ids Hids. by exists ids.
  - exists []. rewrite app_nil_r. repeat split; try done.
Qed.

Lemma cv_steps_raise a b w w' e :
  cv_steps a w w' (Raise e) -> cv_steps (a + b) w w' (Raise e).
Proof.
  intros (Ha & Hw & Hi & evs & Hl & Hs & Hle & _).
  repeat split; try done.
  exists evs. repeat split; try done. lia.
Qed.

Lemma cv_steps_trans a b w1 w2 w3 r :
  cv_steps a w1 w2 (Ok tt) -> cv_steps b w2 w3 r -> cv_steps (a + b) w1 w3 r.
Proof.
  intros (Ha & Hw & Hi & evs & Hl & Hs & Hle & Heq)
         (Ha' & Hw' & Hi' & evs' & Hl' & Hs' & Hle' & Heq').
  repeat split.
  - intros name H1 H2. rewrite Ha', Ha; done.
  - congruence.
  - intros ids Hids. destruct (Hi ids Hids) as (ids' & Hids' & Hp).
    destruct (Hi' ids' Hids') as (ids'' & Hids'' & Hp').
    exists ids''. split; [done|]. by rewrite Hp'.
  - exists (evs ++ evs')%list. split; [by rewrite Hl', Hl, app_assoc|].
    rewrite repetitions_app, (Heq eq_refl). split; [|split; [lia|]].
    + intros ids Hids. destruct (Hi ids Hids) as (ids' & Hids' & Hp).
      apply Forall_app. split; [by apply Hs|].
      eapply split_ok_perm; [exact Hp|]. by apply Hs'.
    + intros Hr. by rewrite (Heq' Hr).
Qed.

Lemma for_single_run_cv_spec (l : list nat) w :
  wp (for_ l (fun rep => _single_run_cv cfg lib sub (DInt (Z.of_nat rep)))) w
     (fun r w' => cv_steps (length l) w w' r).
Proof.
  revert w. induction l as [|rep l IH]; intros w; [apply cv_steps_zero|].
  simpl for_. apply wp_bind.
  eapply wp_mono; [|apply single_run_cv_spec].
  intros [[]|e] w' Hstep.
  - eapply wp_mono; [|apply IH].
    intros r w'' Hsteps. by apply (cv_steps_trans 1 (length l) w w' w'').
  - by apply (cv_steps_raise 1 (length l)).
Qed.

Lemma run_cv_spec w :
  wp (_run_cv cfg lib sub) w (fun r w' =>
    forall n, self w !! "num_rep_cv" = Some (PyData (DInt n)) ->
              cv_steps (Z.to_nat n) w w' r).
Proof.
  unfold _run_cv. wp_go.
  all: try (intros; apply cv_steps_none).
  all: eapply wp_mono; [|apply for_single_run_cv_spec].
  all: intros r w' Hsteps n Hn; simplify_eq.
  all: by rewrite length_seq in Hsteps.
Qed.


(** ** Feature importance *)

Lemma assign_pairs_length (a : list float64) (pairs : list (nat * float64)) :
  length (foldl (fun acc iv => <[iv.1 := iv.2]> acc) a pairs) = length a.
Proof.
  revert a. induction pairs as [|[i x] pairs IH]; intros a; [done|].
  simpl. by rewrite IH, length_insert.
Qed.

Lemma assign_pairs_other (a : list float64) (pairs : list (nat * float64)) (i : nat) :
  i ∉ pairs.*1 ->
  foldl (fun acc iv => <[iv.1 := iv.2]> acc) a pairs !! i = a !! i.
Proof.
  revert a. induction pairs as [|[j x] pairs IH]; intros a Hi; [done|].
  simpl in *. apply not_elem_of_cons in Hi as [Hne Hi].
  rewrite IH by done. by apply list_lookup_insert_ne.
Qed.

Lemma assign_at_spec a index values v :
  assign_at a index values = Ok v ->
  length v = length a /\ forall i, i ∉ index -> v !! i = a !! i.
Proof.
  unfold assign_at. destruct (forallb _ _); [|done]. intros [= <-].
  split; [apply assign_pairs_length|].
  intros i Hi. apply assign_pairs_other. intros Hin. apply Hi.
  apply list_elem_of_fmap in Hin as ([j x] & -> & Hin).
  by apply elem_of_zip_l in Hin.
Qed.

Lemma assign_at_ok a index values :
  Forall (fun i => (i < length a)%nat) index -> is_ok (assign_at a index values) = true.
Proof.
  intros H. unfold assign_at.
  assert (forallb (fun i => Nat.ltb i (length a)) index = true) as ->; [|done].
  apply forallb_forall. intros i Hi%list_elem_of_In.
  apply Nat.ltb_lt. by eapply (proj1 (Forall_forall _ _)) in H.
Qed.

(** What [_get_feature_importance] returns, by what the elements of
    [pipeline.steps] expose that it looks at, the one at position 1 and the
    last: a vector only if the first exposes the indices of the selected
    features and the second the importance attribute of the estimator; the
    vector has one entry per original feature, and the fill value (NaN by
    default) at every index that is not selected. On a pipeline of two
    elements at least, for an estimator that [cfg.importance_attr] lists,
    and an importance that fits the selected features, it returns a vector
    if both are exposed and the absent marker [None] otherwise. *)
Theorem feature_importance_extraction (est_name : pyval) (pipeline : Pipeline)
    (num_features : nat) (fill_value : float64) :
  let extracted :=
    _get_feature_importance cfg est_name pipeline num_features fill_value in
  (* a vector only if both are exposed; its length and its sentinels *)
  (forall v, extracted = Ok (Some v) ->
     exists index importance,
       selected_features pipeline = Some index /\
       importance_of cfg est_name pipeline = Some importance /\
       length v = num_features /\
       forall i, (i < num_features)%nat -> i ∉ index -> v !! i = Some fill_value) /\
  (* the absent marker only if one of them is not exposed *)
  (extracted = Ok None ->
     selected_features pipeline = None \/
     importance_of cfg est_name pipeline = None) /\
  (* on a pipeline with its stages, for a listed estimator, whose
     importance fits the selected features: a vector if both are exposed,
     the absent marker otherwise *)
  ((2 <= length (steps pipeline))%nat ->
   is_ok (importance_attr_of cfg est_name) = true ->
   (forall index importance,
      selected_features pipeline = Some index ->
      importance_of cfg est_name pipeline = Some importance ->
      Forall (fun i => (i < num_features)%nat) index /\
      is_ok (broadcast importance (length index)) = true) ->
   match selected_features pipeline, importance_of cfg est_name pipeline with
   | Some _, Some _ => exists v, extracted = Ok (Some v)
   | _, _ => extracted = Ok None
   end).
Proof.
  intros extracted. subst extracted.
  unfold _get_feature_importance, selected_features, importance_of.
  destruct (steps pipeline !! 1%nat) as [dim_red|] eqn:Hdim; simpl.
  2: { split; [done|]. split; [done|]. intros Hlen.
       apply lookup_ge_None in Hdim. lia. }
  destruct (last (steps pipeline)) as [est|] eqn:Hest.
  2: { apply last_None in Hest. rewrite Hest in Hdim. discriminate Hdim. }
  destruct (step_get_support dim_red) as [index|] eqn:Hsup.
  2: { split; [done|]. split; [by left|]. done. }
  destruct (importance_attr_of cfg est_name) as [name|e] eqn:Hname.
  2: { split; [done|]. split; [done|]. done. }
  destruct (step_attr est name) as [importance|] eqn:Himp.
  2: { split; [done|]. split; [by right|]. done. }
  destruct (broadcast importance (length index)) as [values|e] eqn:Hb.
  2: { split; [done|]. split; [done|]. intros _ _ Hwf.
       destruct (Hwf index importance eq_refl eq_refl) as [_ Hok].
       by rewrite Hb in Hok. }
  destruct (assign_at (replicate num_features fill_value) index values)
    as [v|e] eqn:Ha.
  2: { split; [done|]. split; [done|]. intros _ _ Hwf.
       destruct (Hwf index importance eq_refl eq_refl) as [Hidx _].
       pose proof (assign_at_ok (replicate num_features fill_value) index values)
         as Hok. rewrite length_replicate, Ha in Hok. by specialize (Hok Hidx). }
  apply assign_at_spec in Ha as [Hlen Hother]. rewrite length_replicate in Hlen.
  split; [|split; [done|by eauto]].
  intros v' [= <-]. exists index, importance. repeat split; try done.
  intros i Hi Hnot. rewrite Hother by done. by apply lookup_replicate_2.
Qed.

(** The elements of the steps of a pipeline of sklearn are pairs, which
    expose nothing of their estimators: the importance is absent, whatever
    the selector and the estimator of the pipeline expose. *)
Lemma sklearn_pipeline_importance (est_name : pyval) (pipeline : Pipeline)
    (num_features : nat) (fill_value : float64) :
  sklearn_pipeline pipeline ->
  (2 <= length (steps pipeline))%nat ->
  selected_features pipeline = None /\
  _get_feature_importance cfg est_name pipeline num_features fill_value = Ok None.
Proof.
  intros Hnamed Hlen.
  unfold _get_feature_importance, selected_features.
  destruct (steps pipeline !! 1%nat) as [dim_red|] eqn:Hdim.
  2: { apply lookup_ge_None in Hdim. lia. }
  destruct (last (steps pipeline)) as [est|] eqn:Hest.
  2: { apply last_None in Hest. rewrite Hest in Hdim. discriminate Hdim. }
  assert (is_named dim_red = true) as Hpair.
  { eapply (proj1 (Forall_forall _ _)) in Hnamed; [exact Hnamed|].
    by eapply list_elem_of_lookup_2. }
  by destruct dim_red.
Qed.


(** ** The claims on the repetition count and the worker count *)

Lemma prepare_too_few_repetitions (w : world) (r : pydata) (n : Z) :
  self w !! "num_rep_cv" = Some (PyData r) ->
  int_ (int_of_str lib) r = Ok n ->
  INT64_MIN <= n -> n <= 1 ->
  _prepare cfg lib w =
    (Raise (ValueError "More than 1 repetition is necessary!"),
     with_self (<["num_rep_cv" := PyData (DInt n)]> (self w)) w).
Proof.
  intros Hattr Hint Hmin Hle.
  assert (np_isfinite_int n = Ok true) as Hfin.
  { unfold np_isfinite_int.
    destruct (Z.leb_spec INT64_MIN n); [|lia].
    destruct (Z.ltb_spec n (2 ^ 64)); [done|lia]. }
  assert ((n <=? 1) = true) as Hle' by by apply Z.leb_le.
  assert (wp (_prepare cfg lib) w (fun r' w' =>
            (r', w') = (Raise (ValueError "More than 1 repetition is necessary!"),
                        with_self (<["num_rep_cv" := PyData (DInt n)]> (self w)) w)))
    as H.
  { unfold _prepare. wp_go. done. }
  unfold wp in H. by destruct (_prepare cfg lib w).
Qed.

(** C10: a repetition count that is a binary64 with a fractional part is
    truncated toward zero by [int(...)]: a truncation of 1 or less makes
    [_prepare], and so [run], raise "More than 1 repetition is necessary!",
    and otherwise [_run_cv] goes through exactly as many repetitions as the
    truncation says, when it returns, and never through more. *)
Theorem repetition_count_truncated (w : world) (f : float64) :
  self w !! "num_rep_cv" = Some (PyData (DFloat f)) ->
  valid_binary prec emax f = true ->
  fractional f = true ->
  let n := truncation f in
  (* a truncation of 1 or less is rejected, not rounded up *)
  (n <= 1 ->
   let w1 := with_self (<["num_rep_cv" := PyData (DInt n)]> (self w)) w in
   let e := ValueError "More than 1 repetition is necessary!" in
   _prepare cfg lib w = (Raise e, w1) /\ run cfg lib sub w = (Raise e, w1)) /\
  (* otherwise the count that the run uses is the truncation *)
  (forall w1, _prepare cfg lib w = (Ok tt, w1) ->
     1 < n /\
     self w1 !! "num_rep_cv" = Some (PyData (DInt n)) /\
     forall r w2, _run_cv cfg lib sub w1 = (r, w2) ->
       exists evs, log w2 = (log w1 ++ evs)%list /\
                   (repetitions evs <= Z.to_nat n)%nat /\
                   (r = Ok tt -> repetitions evs = Z.to_nat n)).
Proof.
  intros Hattr Hvalid Hfrac n.
  pose proof (truncation_range f Hvalid Hfrac) as Hrange.
  pose proof (int_of_finite f (fractional_finite f Hfrac)) as Hint.
  split.
  - intros Hle w1 e.
    assert (_prepare cfg lib w = (Raise e, w1)) as Hp.
    { eapply prepare_too_few_repetitions; eauto. unfold INT64_MIN. lia. }
    split; [done|]. by apply run_prepare_raise.
  - intros w1 Hp.
    apply prepare_ok in Hp
      as (n' & tp & procs & d & sz & path & Hv & _ & _ & _ & _ & _ & Ha).
    destruct Hv as [(r & Hr & Hi) _ Hgt _ _ _ _ _ _].
    rewrite Hattr in Hr. simplify_eq. rewrite Hint in Hi. simplify_eq.
    assert (self w1 !! "num_rep_cv" = Some (PyData (DInt n))) as Hn.
    { eapply prepared_lookup. destruct Ha as [[? _]|(c & ? & _)]; eauto. }
    split; [done|]. split; [done|].
    intros r w2 Hrun.
    pose proof (wp_run _ _ _ _ _ Hrun (run_cv_spec w1) n Hn)
      as (_ & _ & _ & evs & Hl & _ & Hle & Heq).
    by exists evs.
Qed.

(** C8, as amended: with a validated worker count above one, [_run_cv]
    raises [NotImplementedError] at once, in the world it was called in: no
    repetition is run; with a worker count of one or less it is the
    sequential loop over the repetitions. *)
Theorem parallel_runs_not_implemented (w0 w : world) :
  _prepare cfg lib w0 = (Ok tt, w) ->
  exists procs n,
    (exists v, self w0 !! "num_procs" = Some v /\ check_num_procs lib v = Ok procs) /\
    self w !! "num_procs" = Some (PyData (DInt procs)) /\
    self w !! "num_rep_cv" = Some (PyData (DInt n)) /\
    (1 < procs ->
     _run_cv cfg lib sub w =
       (Raise (NotImplementedError
                 "parallel runs not implemented yet!Use num_procs=1 for now"), w)) /\
    (procs <= 1 ->
     _run_cv cfg lib sub w =
       for_ (seq 0 (Z.to_nat n))
         (fun rep => _single_run_cv cfg lib sub (DInt (Z.of_nat rep))) w).
Proof.
  intros Hp.
  apply prepare_ok in Hp
    as (n & tp & procs & d & sz & path & Hv & _ & _ & _ & _ & _ & Ha).
  assert (self w = prepared (self w0) n procs d sz path \/
          exists chance, self w = summarized (prepared (self w0) n procs d sz path) d chance)
    as Ha' by (destruct Ha as [[? _]|(c & ? & _)]; eauto).
  apply prepared_lookup in Ha' as (Hn & Hprocs & _).
  exists procs, n. split; [by destruct Hv|]. split; [done|]. split; [done|].
  split; intros Hcmp.
  - by eapply run_cv_parallel.
  - by eapply run_cv_sequential.
Qed.


(** ** Persistence *)

Lemma out_dict_lookup (me : attributes) (var : string) :
  var ∈ results_to_save cfg ->
  out_dict cfg me !! var = Some (getattr_default me var).
Proof.
  unfold out_dict. induction (results_to_save cfg) as [|x l IH]; [by intros ?%not_elem_of_nil|].
  intros [->|Hin]%elem_of_cons; simpl.
  - by rewrite lookup_insert_eq.
  - destruct (decide (x = var)) as [->|Hne].
    + by rewrite lookup_insert_eq.
    + rewrite lookup_insert_ne by done. by apply IH.
Qed.

Lemma loaded_into_cons loaded x names a :
  loaded_into loaded (x :: names) a =
  loaded_into loaded names (match loaded !! x with
                            | Some v => <[x := v]> a
                            | None => a
                            end).
Proof. done. Qed.

Lemma loaded_into_other loaded names a var :
  var ∉ names -> loaded_into loaded names a !! var = a !! var.
Proof.
  revert a. induction names as [|x l IH]; intros a Hin; [done|].
  apply not_elem_of_cons in Hin as [Hne Hin].
  rewrite loaded_into_cons, IH by done.
  destruct (loaded !! x); [|done]. by rewrite lookup_insert_ne.
Qed.

Lemma loaded_into_lookup loaded names a var v :
  var ∈ names -> loaded !! var = Some v ->
  loaded_into loaded names a !! var = Some v.
Proof.
  revert a. induction names as [|x l IH]; intros a Hin Hv;
    [by apply not_elem_of_nil in Hin|].
  rewrite loaded_into_cons.
  destruct (decide (var ∈ l)) as [Hl|Hl]; [by apply IH|].
  apply elem_of_cons in Hin as [<-|Hin]; [|done].
  rewrite loaded_into_other by done. rewrite Hv. by rewrite lookup_insert_eq.
Qed.

(** The loop of [load], when the loaded dictionary has every name. *)
Lemma load_loop (loaded : gmap string pyval) (names : list string) (w : world) :
  (forall var, var ∈ names -> is_Some (loaded !! var)) ->
  for_ names (fun var => match loaded !! var with
                         | Some v => setattr var v
                         | None => raise (KeyError var)
                         end) w
  = (Ok tt, with_self (loaded_into loaded names (self w)) w).
Proof.
  revert w. induction names as [|x l IH]; intros w Hall.
  - by destruct w.
  - rewrite loaded_into_cons.
    destruct (Hall x) as [v Hv]; [by left|].
    cbn [for_]. unfold mbind, M_bind. rewrite Hv. unfold setattr at 1.
    by rewrite IH by (intros var Hvar; apply Hall; by right).
Qed.

Lemma save_ok (w : world) (p : string) (content : bytes) :
  self w !! "_out_results_path" = Some (PyData (DStr p)) ->
  writable w p = true ->
  pickle_dump lib (out_dict cfg (self w)) = Some content ->
  save cfg lib w =
    (Ok (PyData (DStr p)),
     with_files (<[p := content]> (<[p := []]> (files w)))
       (with_log (log w ++ [PickleDump p]) w)).
Proof.
  intros Hp Hw Hd.
  assert (wp (save cfg lib) w (fun r w' =>
    (r, w') = (Ok (PyData (DStr p)),
               with_files (<[p := content]> (<[p := []]> (files w)))
                 (with_log (log w ++ [PickleDump p]) w)))) as H.
  { unfold save. wp_go. done. }
  unfold wp in H. by destruct (save cfg lib w).
Qed.

Lemma load_ok (w : world) (p : string) (content : bytes)
    (loaded : gmap string pyval) :
  self w !! "_out_results_path" = Some (PyData (DStr p)) ->
  files w !! p = Some content ->
  pickle_load lib content = Some loaded ->
  (forall var, var ∈ results_to_save cfg -> is_Some (loaded !! var)) ->
  load cfg lib w =
    (Ok tt,
     with_self (loaded_into loaded (results_to_save cfg) (self w))
       (with_log (log w ++ [PickleLoad p]) w)).
Proof.
  intros Hp Hf Hl Hall.
  assert (wp (load cfg lib) w (fun r w' =>
    (r, w') = (Ok tt,
               with_self (loaded_into loaded (results_to_save cfg) (self w))
                 (with_log (log w ++ [PickleLoad p]) w)))) as H.
  { unfold load. wp_go. unfold wp. by rewrite load_loop. }
  unfold wp in H. by destruct (load cfg lib w).
Qed.

(** C2: a state that can be persisted (the results path is a string that
    can be opened for writing, and the dictionary of the saved attributes
    pickles, to bytes that unpickle to it) is persisted by [save], and
    [load], from the same path, in the same object or in another, returns
    and sets every attribute of [cfg.results_to_save] to the value it had
    when it was saved ([None] if the object had no such attribute), leaving
    the other attributes alone. *)
Theorem persist_reload_round_trip (w : world) (p : string) (content : bytes) :
  self w !! "_out_results_path" = Some (PyData (DStr p)) ->
  writable w p = true ->
  pickle_dump lib (out_dict cfg (self w)) = Some content ->
  pickle_load lib content = Some (out_dict cfg (self w)) ->
  exists w1,
    save cfg lib w = (Ok (PyData (DStr p)), w1) /\
    self w1 = self w /\ files w1 !! p = Some content /\
    forall w2,
      self w2 !! "_out_results_path" = Some (PyData (DStr p)) ->
      files w2 !! p = Some content ->
      exists w3,
        load cfg lib w2 = (Ok tt, w3) /\
        (forall var, var ∈ results_to_save cfg ->
           self w3 !! var = Some (getattr_default (self w) var)) /\
        (forall var x, var ∈ results_to_save cfg ->
           self w !! var = Some x -> self w3 !! var = Some x) /\
        (forall var, var ∉ results_to_save cfg ->
           self w3 !! var = self w2 !! var).
Proof.
  intros Hp Hw Hdump Hload.
  eexists. split; [by apply save_ok|]. split; [done|].
  split; [simpl; by rewrite lookup_insert_eq|].
  intros w2 Hp2 Hf2.
  eexists. split.
  { eapply load_ok; [done..|]. intros var Hvar. by rewrite out_dict_lookup. }
  assert (forall var, var ∈ results_to_save cfg ->
            self (with_self (loaded_into (out_dict cfg (self w))
                               (results_to_save cfg) (self w2))
                    (with_log (log w2 ++ [PickleLoad p]) w2)) !! var
            = Some (getattr_default (self w) var)) as Hsaved.
  { intros var Hvar. simpl.
    apply loaded_into_lookup; [done|]. by apply out_dict_lookup. }
  split; [done|]. split.
  - intros var x Hvar Hx. rewrite Hsaved by done.
    unfold getattr_default. by rewrite Hx.
  - intros var Hvar. simpl. by apply loaded_into_other.
Qed.

End Properties.

(** * The engine: [run] *)

Section Engine.

Context (cfg : Config) (lib : Library) (sub : Subclass).

Lemma wp_conj {A} (c : M A) w (Q Q' : result A -> world -> Prop) :
  wp c w Q -> wp c w Q' -> wp c w (fun r w' => Q r w' /\ Q' r w').
Proof. by unfold wp. Qed.

(** An update of the attributes of an updated world is one update. *)
Ltac wp_collapse :=
  repeat match goal with
  | |- context [with_self ?a (with_self ?b ?w)] =>
      change (with_self a (with_self b w)) with (with_self a w)
  end.

Ltac replays_prim :=
  let w := fresh "w" in let w' := fresh "w'" in
  let Hs := fresh "Hs" in let Hf := fresh "Hf" in
  intros w w' Hs Hf; simpl; rewrite <- ?Hs;
  repeat case_match; simpl; repeat split; try done;
  first [ exists []; by rewrite !app_nil_r | by eexists ].

(** ** Methods that replay *)

Section Replays.

Context (R : relation (gmap string bytes)).

Lemma replays_bind {A B} (c : M A) (k : A -> M B) :
  replays R c -> (forall a, replays R (k a)) -> replays R (c ≫= k).
Proof.
  intros Hc Hk w w' Hs Hf. unfold mbind, M_bind.
  destruct (Hc w w' Hs Hf) as (Hr & Hs1 & Hf1 & Hf1' & evs & Hl & Hl').
  destruct (c w) as [r1 w1], (c w') as [r1' w1']. simpl in *. subst r1'.
  destruct r1 as [a|e]; simpl.
  - destruct (Hk a w1 w1') as (Hr2 & Hs2 & Hf2 & Hf2' & evs2 & Hl2 & Hl2');
      [done|congruence|].
    repeat split; try congruence.
    exists (evs ++ evs2)%list. by rewrite Hl2, Hl2', Hl, Hl', !app_assoc.
  - repeat split; try done. by exists evs.
Qed.

Lemma replays_ret {A} (a : A) : replays R (mret a : M A).
Proof. replays_prim. Qed.

Lemma replays_raise {A} e : replays R (raise e : M A).
Proof. replays_prim. Qed.

Lemma replays_lift {A} (r : result A) : replays R (lift r).
Proof. replays_prim. Qed.

Lemma replays_emit ev : replays R (emit ev).
Proof. replays_prim. Qed.

Lemma replays_getattr name : replays R (getattr name).
Proof. unfold getattr. replays_prim. Qed.

Lemma replays_setattr name v : replays R (setattr name v).
Proof. unfold setattr. replays_prim. Qed.

Lemma replays_get_self : replays R get_self.
Proof. unfold get_self. replays_prim. Qed.

Lemma replays_call {A} ev (r : result A) : replays R (call ev r).
Proof.
  unfold call. apply replays_bind; [apply replays_emit|].
  intros _. apply replays_lift.
Qed.

Lemma replays_try_except {A} (body handler : M A) :
  replays R body -> replays R handler -> replays R (try_except body handler).
Proof.
  intros Hb Hh w w' Hs Hf. unfold try_except.
  destruct (Hb w w' Hs Hf) as (Hr & Hs1 & Hf1 & Hf1' & evs & Hl & Hl').
  destruct (body w) as [r1 w1], (body w') as [r1' w1']. simpl in *. subst r1'.
  destruct r1 as [a|e]; simpl.
  - repeat split; try done. by exists evs.
  - destruct (Hh w1 w1') as (Hr2 & Hs2 & Hf2 & Hf2' & evs2 & Hl2 & Hl2');
      [done|congruence|].
    repeat split; try congruence.
    exists (evs ++ evs2)%list. by rewrite Hl2, Hl2', Hl, Hl', !app_assoc.
Qed.

Lemma replays_for {A} (l : list A) (body : A -> M unit) :
  (forall x, replays R (body x)) -> replays R (for_ l body).
Proof.
  intros Hbody. induction l as [|x l IH]; simpl; [apply replays_ret|].
  apply replays_bind; [apply Hbody|done].
Qed.

End Replays.

Lemma replays_read_rb path : replays eq (read_rb path).
Proof.
  unfold read_rb. intros w w' Hs Hf. rewrite <- Hf.
  destruct (files w !! path); simpl; repeat split; try done;
    exists []; by rewrite !app_nil_r.
Qed.

Lemma replays_nonempty_file path : replays eq (nonempty_file path).
Proof.
  unfold nonempty_file. intros w w' Hs Hf. rewrite <- Hf.
  repeat case_match; simpl; repeat split; try done;
    exists []; by rewrite !app_nil_r.
Qed.

Ltac replays_go :=
  repeat first
    [ apply replays_bind; [|intros ?]
    | apply replays_ret | apply replays_raise | apply replays_lift
    | apply replays_emit | apply replays_getattr | apply replays_setattr
    | apply replays_get_self | apply replays_read_rb
    | apply replays_nonempty_file | apply replays_call
    | apply replays_try_except | apply replays_for; intros ?
    | lazymatch goal with
      | |- replays _ (if ?b then _ else _) => destruct b
      | |- replays _ (match ?x with _ => _ end) => destruct x
      | |- replays _ (getdata _) => unfold getdata
      | |- replays _ (as_data _) => unfold as_data
      | |- replays _ (as_datasets _ _) => unfold as_datasets
      | |- replays _ (as_str _) => unfold as_str
      | |- replays _ (as_id_list _) => unfold as_id_list
      | |- replays _ (pickling _) => unfold pickling
      | |- replays _ (_summarize_expt _) => unfold _summarize_expt
      end ].

(** [_prepare] reads no file. *)
Lemma replays_prepare : replays any_files (_prepare cfg lib).
Proof. unfold _prepare. replays_go. Qed.

Lemma replays_load : replays eq (load cfg lib).
Proof. unfold load. replays_go. Qed.

Lemma replays_report_results : replays eq (report_results sub).
Proof. unfold report_results. replays_go. Qed.

Lemma replays_reload_and_report : replays eq (reload_and_report cfg lib sub).
Proof.
  unfold reload_and_report. apply replays_bind; [apply replays_load|].
  intros _. apply replays_report_results.
Qed.

(** ** The log of the methods around the cross-validation *)

Lemma no_cv_refl w : no_cv w w.
Proof. exists []. by rewrite app_nil_r. Qed.

Lemma no_cv_trans w1 w2 w3 : no_cv w1 w2 -> no_cv w2 w3 -> no_cv w1 w3.
Proof.
  intros (evs & Hl & He) (evs' & Hl' & He').
  exists (evs ++ evs')%list. split; [by rewrite Hl', Hl, app_assoc|].
  by apply Forall_app.
Qed.

Lemma no_cv_split_ok universe evs :
  Forall (fun ev => is_cv ev = false) evs -> Forall (split_ok universe) evs.
Proof. intros H. eapply Forall_impl; [exact H|]. by intros []. Qed.

Ltac solve_no_cv :=
  unfold no_cv; wp_simpl;
  first [ exists []; by rewrite app_nil_r
        | eexists; split; [rewrite <- ?app_assoc; reflexivity
                          | by repeat constructor] ].

Lemma init_spec (args : Args) w :
  wp (__init__ cfg args) w (fun r w' =>
    same_outside w w' /\
    (r = Ok tt -> self w' !! "datasets" = Some (arg_datasets args))).
Proof.
  unfold __init__.
  do 15 (apply wp_bind; apply wp_setattr; wp_simpl; wp_collapse).
  match goal with
  | |- wp _ (with_self ?a _) _ =>
      assert (a !! "datasets" = Some (arg_datasets args)) as Ha
        by (by wp_lookup);
      generalize dependent a; intros attrs Ha
  end.
  wp_go.
  all: wp_collapse; split; [done|]; try done.
Qed.

Lemma prepare_log w : wp (_prepare cfg lib) w (fun _ w' => no_cv w w').
Proof. unfold _prepare. wp_go. all: solve_no_cv. Qed.

(** [save]: the attributes stay, and when it returns, the file at the
    results path holds the pickle of the saved attributes. *)
Lemma save_spec w :
  wp (save cfg lib) w (fun r w' =>
    self w' = self w /\ no_cv w w' /\
    forall p, self w !! "_out_results_path" = Some (PyData (DStr p)) ->
              is_ok r = true ->
              exists content,
                pickle_dump lib (out_dict cfg (self w)) = Some content /\
                files w' !! p = Some content /\
                log w' = (log w ++ [PickleDump p])%list).
Proof.
  unfold save. wp_go.
  all: split; [done|]; split; [solve_no_cv|].
  all: intros p' Hp' Hok; try discriminate Hok.
  all: simplify_eq.
  eexists. split; [done|]. split; [|done]. simpl. by rewrite lookup_insert_eq.
Qed.

(** [load]: the files stay; when there is a file at the results path, the
    pickle is read, once. *)
Lemma load_spec w :
  wp (load cfg lib) w (fun r w' =>
    files w' = files w /\ no_cv w w' /\
    forall p content,
      self w !! "_out_results_path" = Some (PyData (DStr p)) ->
      files w !! p = Some content ->
      log w' = (log w ++ [PickleLoad p])%list).
Proof.
  unfold load. wp_go.
  all: lazymatch goal with
       | |- wp (for_ _ _) ?w1 _ =>
           eapply wp_mono;
           [|apply (wp_for (fun w' => files w' = files w1 /\ log w' = log w1));
             [intros; wp_case; by wp_go|done]]
       | |- _ => idtac
       end.
  all: try (intros r w' [Hf Hl]; rewrite Hf, Hl; wp_simpl).
  all: split; [done|]; split; [try solve_no_cv|].
  all: try (intros p' content' Hp' Hc'; by simplify_eq).
  all: unfold no_cv; rewrite Hl; wp_simpl.
  all: eexists; split; [reflexivity|by repeat constructor].
Qed.

(** The end of [run]: one report, and one call of [visualize], unless
    [summarize] raises. *)
Lemma report_spec w :
  wp (report_results sub) w (fun r w' =>
    self w' = self w /\ files w' = files w /\
    match summarize sub (self w) with
    | Ok s => log w' = (log w ++ [Summarize s; Visualize])%list
    | Raise e => r = Raise e /\ log w' = log w
    end).
Proof.
  unfold report_results. wp_go.
  all: repeat split; try done.
  all: wp_simpl; by rewrite <- app_assoc.
Qed.

(** ** The two paths of [run] *)

Lemma run_found w w1 p :
  _prepare cfg lib w = (Ok tt, w1) ->
  self w1 !! "_out_results_path" = Some (PyData (DStr p)) ->
  stored (files w1) p = true ->
  run cfg lib sub w = reload_and_report cfg lib sub w1.
Proof.
  intros Hp Hpath Hst.
  unfold run, reload_and_report, report_results, mbind, M_bind.
  rewrite Hp. unfold getattr at 1. rewrite Hpath.
  unfold nonempty_file, stored in *.
  destruct (files w1 !! p); [|done]. by rewrite Hst.
Qed.

Lemma run_not_found w w1 p :
  _prepare cfg lib w = (Ok tt, w1) ->
  self w1 !! "_out_results_path" = Some (PyData (DStr p)) ->
  stored (files w1) p = false ->
  run cfg lib sub w = compute_and_report cfg lib sub w1.
Proof.
  intros Hp Hpath Hst.
  unfold run, compute_and_report, report_results, mbind, M_bind.
  rewrite Hp. unfold getattr at 1. rewrite Hpath.
  unfold nonempty_file, stored in *.
  destruct (files w1 !! p); [by rewrite Hst|done].
Qed.

(** What [_prepare] leaves, when it returns. *)
Lemma prepare_returns w w1 :
  _prepare cfg lib w = (Ok tt, w1) ->
  files w1 = files w /\
  (exists evs, log w1 = (log w ++ evs)%list /\
               Forall (fun ev => is_cv ev = false) evs /\ reports evs = []) /\
  exists n d p,
    self w !! "datasets" = Some (PyDatasets d) /\
    self w1 !! "datasets" = Some (PyDatasets d) /\
    self w1 !! "num_rep_cv" = Some (PyData (DInt n)) /\
    self w1 !! "_id_list" = Some (id_list (samplet_ids d)) /\
    self w1 !! "_out_results_path" = Some (PyData (DStr p)).
Proof.
  intros Hp.
  destruct (prepare_ok _ _ _ _ Hp)
    as (n & tp & procs & d & size & path & Hv & _ & _ & Hf & _ & _ & Ha).
  split; [done|]. split.
  { destruct Ha as [[_ Hl]|(chance & _ & Hl)]; eexists;
      (split; [exact Hl|]); split; try done; by repeat constructor. }
  exists n, d, path.
  destruct (prepared_lookup w w1 n procs d size path)
    as (Hn & _ & Hid & _ & Hpath & Hd & _).
  { destruct Ha as [[Ha _]|(chance & Ha & _)]; [by left|right; by exists chance]. }
  pose proof (v_data _ _ _ _ _ _ _ Hv) as Hd0.
  rewrite Hd0 in Hd. done.
Qed.

(** The reloading path: the pickle is read, once, and nothing is computed
    or written. *)
Lemma reload_spec w p :
  self w !! "_out_results_path" = Some (PyData (DStr p)) ->
  stored (files w) p = true ->
  wp (reload_and_report cfg lib sub) w (fun r w' =>
    files w' = files w /\
    exists tail, log w' = (log w ++ PickleLoad p :: tail)%list /\
                 Forall (fun ev => is_cv ev = false) tail /\
                 (is_ok r = true ->
                  exists s, tail = [Summarize s; Visualize])).
Proof.
  intros Hpath Hst. unfold stored in Hst.
  destruct (files w !! p) as [content|] eqn:Hc; [|done].
  unfold reload_and_report. apply wp_bind.
  wp_apply load_spec. intros r1 w1 (Hf & _ & Hl).
  specialize (Hl p content Hpath Hc).
  assert (wp (report_results sub) w1 (fun r w' =>
    files w' = files w /\
    exists tail, log w' = (log w ++ PickleLoad p :: tail)%list /\
                 Forall (fun ev => is_cv ev = false) tail /\
                 (is_ok r = true ->
                  exists s, tail = [Summarize s; Visualize]))) as Hrep.
  { wp_apply report_spec. intros r w' (_ & Hf' & Hs).
    split; [congruence|].
    destruct (summarize sub (self w1)) as [s|e].
    - exists [Summarize s; Visualize]. rewrite Hs, Hl, <- app_assoc.
      split; [done|]. split; [by repeat constructor|]. by exists s.
    - destruct Hs as [-> Hs]. exists []. rewrite Hs, Hl.
      split; [done|]. split; [constructor|]. done. }
  destruct r1 as [[]|e]; [done|].
  split; [done|]. exists []. by rewrite Hl.
Qed.

(** The computing path: the repetitions, then the pickle, then the
    report. *)
Lemma compute_spec w n p :
  self w !! "num_rep_cv" = Some (PyData (DInt n)) ->
  self w !! "_out_results_path" = Some (PyData (DStr p)) ->
  wp (compute_and_report cfg lib sub) w (fun r w' =>
    exists evs,
      log w' = (log w ++ evs)%list /\
      (forall ids, self w !! "_id_list" = Some (id_list ids) ->
                   Forall (split_ok ids) evs) /\
      (is_ok r = true ->
       exists cv s content,
         evs = (cv ++ [PickleDump p; Summarize s; Visualize])%list /\
         repetitions cv = Z.to_nat n /\
         files w' !! p = Some content /\
         pickle_dump lib (out_dict cfg (self w')) = Some content /\
         summarize sub (self w') = Ok s)).
Proof.
  intros Hn Hpath. unfold compute_and_report.
  apply wp_bind. apply wp_bind.
  wp_apply run_cv_spec. intros r1 w1 Hcv.
  destruct (Hcv n Hn) as (Hattr & _ & _ & evs1 & Hl1 & Hsplit & _ & Hcount).
  assert (self w1 !! "_out_results_path" = Some (PyData (DStr p))) as Hpath1.
  { by rewrite Hattr. }
  destruct r1 as [[]|e1].
  2:{ exists evs1. split; [done|]. split; [done|]. intros Hok; discriminate Hok. }
  apply wp_bind. wp_apply save_spec. intros r2 w2 (Hs2 & Hnocv & Hsave).
  destruct r2 as [v2|e2].
  2:{ destruct Hnocv as (evs2 & Hl2 & He2). exists (evs1 ++ evs2)%list.
      rewrite Hl2, Hl1, app_assoc. split; [done|]. split.
      - intros ids Hids. apply Forall_app. split; [by apply Hsplit|].
        by apply no_cv_split_ok.
      - intros Hok; discriminate Hok. }
  destruct (Hsave p Hpath1 eq_refl) as (content & Hdump & Hfile & Hl2).
  apply wp_ret. wp_apply report_spec. intros r3 w3 (Hs3 & Hf3 & Hrep).
  destruct (summarize sub (self w2)) as [s|e3] eqn:Hsum.
  - exists (evs1 ++ [PickleDump p; Summarize s; Visualize])%list.
    rewrite Hrep, Hl2, Hl1, <- !app_assoc. split; [done|]. split.
    + intros ids Hids. apply Forall_app. split; [by apply Hsplit|].
      by repeat constructor.
    + intros _. exists evs1, s, content. split; [done|].
      split; [by apply Hcount|]. rewrite Hf3, Hs3. split; [done|].
      split; [by rewrite Hs2|done].
  - destruct Hrep as [-> Hl3]. exists (evs1 ++ [PickleDump p])%list.
    rewrite Hl3, Hl2, Hl1, <- !app_assoc. split; [done|]. split.
    + intros ids Hids. apply Forall_app. split; [by apply Hsplit|].
      by repeat constructor.
    + intros Hok; discriminate Hok.
Qed.

(** The splits of a run, of any outcome, partition the sample identifiers
    of the dataset collection. *)
Lemma run_splits w d r w' :
  self w !! "datasets" = Some (PyDatasets d) ->
  run cfg lib sub w = (r, w') ->
  exists evs, log w' = (log w ++ evs)%list /\
              Forall (split_ok (samplet_ids d)) evs.
Proof.
  intros Hd Hrun.
  destruct (_prepare cfg lib w) as [[[]|e] w1] eqn:Hp.
  2:{ rewrite (run_prepare_raise _ _ _ _ _ _ Hp) in Hrun. simplify_eq.
      destruct (wp_run _ _ _ _ _ Hp (prepare_log w)) as (evs & Hl & He).
      exists evs. split; [done|]. by apply no_cv_split_ok. }
  destruct (prepare_returns _ _ Hp)
    as (Hf & (evs0 & Hl0 & He0 & _) & n & d' & p & Hd' & _ & Hn & Hid & Hpath).
  assert (d' = d) as -> by congruence.
  destruct (stored (files w1) p) eqn:Hst.
  - rewrite (run_found _ _ _ Hp Hpath Hst) in Hrun.
    destruct (wp_run _ _ _ _ _ Hrun (reload_spec w1 p Hpath Hst))
      as (_ & tail & Hl & Ht & _).
    exists (evs0 ++ PickleLoad p :: tail)%list.
    rewrite Hl, Hl0, <- app_assoc. split; [done|].
    apply no_cv_split_ok, Forall_app. split; [done|]. by constructor.
  - rewrite (run_not_found _ _ _ Hp Hpath Hst) in Hrun.
    destruct (wp_run _ _ _ _ _ Hrun (compute_spec w1 n p Hn Hpath))
      as (evs & Hl & Hs & _).
    exists (evs0 ++ evs)%list. rewrite Hl, Hl0, <- app_assoc. split; [done|].
    apply Forall_app. split; [by apply no_cv_split_ok|by apply Hs].
Qed.

(** C1: from a workflow object whose [datasets] is the collection [d], a
    run adds to the log, for every split it draws, a pair of a train set
    and a test set that are disjoint and whose union is the sample
    identifiers of [d]: every sample identifier is in exactly one of the
    two. *)
Theorem train_test_partition (w : world) (d : Datasets) (r : result pyval)
    (w' : world) :
  self w !! "datasets" = Some (PyDatasets d) ->
  run cfg lib sub w = (r, w') ->
  exists evs,
    log w' = (log w ++ evs)%list /\
    forall train_set test_set,
      GetSubsets train_set test_set ∈ evs ->
      (forall x, x ∈ train_set -> x ∉ test_set) /\
      (forall x, x ∈ samplet_ids d <-> x ∈ train_set \/ x ∈ test_set).
Proof.
  intros Hd Hrun.
  destruct (run_splits w d r w' Hd Hrun) as (evs & Hl & Hs).
  exists evs. split; [done|]. intros train_set test_set Hin.
  rewrite Forall_forall in Hs. exact (Hs _ Hin).
Qed.

Lemma reports_app l1 l2 : reports (l1 ++ l2) = (reports l1 ++ reports l2)%list.
Proof. apply omap_app. Qed.

Lemma stored_true fs p content :
  fs !! p = Some content -> content <> [] -> stored fs p = true.
Proof.
  intros Hc Hne. unfold stored. rewrite Hc.
  by rewrite bool_decide_eq_false_2.
Qed.

(** A second run, of an equally constructed object on the files that a
    first run left, reloads, and its report is that of the first run. *)
Lemma second_run_reloads w w1 p r w' w2 :
  _prepare cfg lib w = (Ok tt, w1) ->
  self w1 !! "_out_results_path" = Some (PyData (DStr p)) ->
  run cfg lib sub w = (r, w') ->
  is_ok r = true ->
  (forall content,
     pickle_dump lib (out_dict cfg (self w')) = Some content ->
     content <> [] /\ pickle_load lib content = Some (out_dict cfg (self w'))) ->
  (forall a a',
     (forall var, var ∈ results_to_save cfg ->
                  getattr_default a var = getattr_default a' var) ->
     summarize sub a = summarize sub a') ->
  self w2 = self w -> files w2 = files w' ->
  exists s front r2 w2' evs2,
    log w' = (log w ++ front ++ [Summarize s; Visualize])%list /\
    run cfg lib sub w2 = (r2, w2') /\
    log w2' = (log w2 ++ evs2)%list /\
    Forall (fun ev => is_cv ev = false) evs2 /\
    PickleLoad p ∈ evs2 /\
    reports evs2 = [s].
Proof.
  intros Hp Hpath Hrun Hok Hcodec Hsum Hs2 Hf2.
  destruct (prepare_returns _ _ Hp)
    as (Hf & (evs0 & Hl0 & He0 & Hr0) & _).
  (* the second object is prepared as the first *)
  destruct (replays_prepare w w2) as (Hr & Hs1 & _ & Hf1' & evs0' & Hl0' & Hl1');
    [done|done|].
  destruct (_prepare cfg lib w2) as [r1' w1'] eqn:Hp'.
  rewrite Hp in Hr, Hs1, Hl0'. simpl in *. subst r1'.
  assert (evs0' = evs0) as -> by (apply (app_inv_head (log w)); congruence).
  assert (self w1' !! "_out_results_path" = Some (PyData (DStr p))) as Hpath'
    by (by rewrite Hs1).
  destruct (stored (files w1) p) eqn:Hst.
  - (* the first run reloaded *)
    rewrite (run_found _ _ _ Hp Hpath Hst) in Hrun.
    destruct (wp_run _ _ _ _ _ Hrun (reload_spec w1 p Hpath Hst))
      as (Hfw' & tail & Hl & _ & Htail).
    destruct (Htail Hok) as [s ->].
    assert (files w1 = files w1') as Hfiles by congruence.
    destruct (replays_reload_and_report w1 w1')
      as (Hr2 & _ & _ & _ & evsR & HlR & HlR'); [done|done|].
    rewrite Hrun in HlR. simpl in HlR.
    assert (evsR = [PickleLoad p; Summarize s; Visualize]) as ->
      by (apply (app_inv_head (log w1)); congruence).
    exists s, (evs0 ++ [PickleLoad p])%list,
      (reload_and_report cfg lib sub w1').1,
      (reload_and_report cfg lib sub w1').2,
      (evs0 ++ [PickleLoad p; Summarize s; Visualize])%list.
    split; [by rewrite Hl, Hl0, <- !app_assoc|]. split.
    { rewrite (run_found _ _ _ Hp' Hpath'); [apply surjective_pairing|].
      by rewrite <- Hfiles. }
    split; [by rewrite HlR', Hl1', <- app_assoc|].
    split; [apply Forall_app; split; [done|by repeat constructor]|].
    split; [apply elem_of_app; right; by left|].
    by rewrite reports_app, Hr0.
  - (* the first run computed and saved *)
    destruct (prepare_returns _ _ Hp) as (_ & _ & n & _ & p' & _ & _ & Hn & _ & Hpath0).
    assert (p' = p) as -> by congruence.
    rewrite (run_not_found _ _ _ Hp Hpath Hst) in Hrun.
    destruct (wp_run _ _ _ _ _ Hrun (compute_spec w1 n p Hn Hpath))
      as (evs & Hl & _ & Hdone).
    destruct (Hdone Hok) as (cv & s & content & -> & _ & Hfile & Hdump & Hrep).
    destruct (Hcodec content Hdump) as [Hne Hload].
    assert (files w1' !! p = Some content) as Hfile' by congruence.
    pose proof (load_ok cfg lib w1' p content (out_dict cfg (self w')) Hpath' Hfile' Hload)
      as Hloaded.
    match type of Hloaded with _ -> _ = (_, ?w) => set (wL := w) in * end.
    assert (load cfg lib w1' = (Ok tt, wL)) as HL.
    { apply Hloaded. intros var Hvar. by rewrite out_dict_lookup. }
    assert (summarize sub (self wL) = Ok s) as HsL.
    { rewrite <- Hrep. apply Hsum. intros var Hvar.
      unfold wL. simpl. unfold getattr_default at 1.
      by rewrite (loaded_into_lookup _ _ _ _ (getattr_default (self w') var))
        by (try done; by apply out_dict_lookup). }
    destruct (report_results sub wL) as [r3 w3] eqn:Hrep3.
    pose proof (wp_run _ _ _ _ _ Hrep3 (report_spec wL)) as (_ & _ & Hl3).
    rewrite HsL in Hl3.
    exists s, (evs0 ++ cv ++ [PickleDump p])%list, r3, w3,
      (evs0 ++ [PickleLoad p; Summarize s; Visualize])%list.
    split; [by rewrite Hl, Hl0, <- !app_assoc|]. split.
    { rewrite (run_found _ _ _ Hp' Hpath') by (by eapply stored_true).
      unfold reload_and_report, mbind, M_bind. by rewrite HL. }
    split; [rewrite Hl3; unfold wL; simpl; by rewrite Hl1', <- !app_assoc|].
    split; [apply Forall_app; split; [done|by repeat constructor]|].
    split; [apply elem_of_app; right; by left|].
    by rewrite reports_app, Hr0.
Qed.

Lemma repetitions_no_cv evs :
  Forall (fun ev => is_cv ev = false) evs -> repetitions evs = 0%nat.
Proof.
  intros H. apply repetitions_no_split.
  eapply Forall_impl; [exact H|]. by intros [].
Qed.

(** C3: a run of a valid configuration, whose results path is [p]. With a
    non-empty file at [p] when it starts, the run reads the pickle, makes no
    call of the cross-validation, and leaves the files as they are.
    Otherwise, when it returns, it has drawn as many splits as the validated
    repetition count, then pickled the saved attributes into the file at
    [p], then reported. And when the run has returned, the pickle of the
    saved attributes being non-empty bytes that unpickle to them and the
    summary being a function of the saved attributes, a second run, of an
    equally constructed object on the files left by the first, reads the
    pickle, makes no call of the cross-validation, and reports what the
    first run reported. *)
Theorem run_idempotent (w w1 : world) (p : string) (r : result pyval)
    (w' : world) :
  _prepare cfg lib w = (Ok tt, w1) ->
  self w1 !! "_out_results_path" = Some (PyData (DStr p)) ->
  run cfg lib sub w = (r, w') ->
  exists evs,
    log w' = (log w ++ evs)%list /\
    (stored (files w) p = true ->
     Forall (fun ev => is_cv ev = false) evs /\ PickleLoad p ∈ evs /\
     files w' = files w) /\
    (stored (files w) p = false -> is_ok r = true ->
     exists n cv s content,
       self w1 !! "num_rep_cv" = Some (PyData (DInt n)) /\
       evs = (cv ++ [PickleDump p; Summarize s; Visualize])%list /\
       repetitions cv = Z.to_nat n /\
       files w' !! p = Some content /\
       pickle_dump lib (out_dict cfg (self w')) = Some content) /\
    (is_ok r = true ->
     (forall content,
        pickle_dump lib (out_dict cfg (self w')) = Some content ->
        content <> [] /\
        pickle_load lib content = Some (out_dict cfg (self w'))) ->
     (forall a a',
        (forall var, var ∈ results_to_save cfg ->
                     getattr_default a var = getattr_default a' var) ->
        summarize sub a = summarize sub a') ->
     forall w2, self w2 = self w -> files w2 = files w' ->
       exists s front r2 w2' evs2,
         evs = (front ++ [Summarize s; Visualize])%list /\
         run cfg lib sub w2 = (r2, w2') /\
         log w2' = (log w2 ++ evs2)%list /\
         Forall (fun ev => is_cv ev = false) evs2 /\
         PickleLoad p ∈ evs2 /\
         reports evs2 = [s]).
Proof.
  intros Hp Hpath Hrun.
  destruct (prepare_returns _ _ Hp)
    as (Hf & (evs0 & Hl0 & He0 & Hr0) & n & _ & p' & _ & _ & Hn & _ & Hpath0).
  assert (p' = p) as -> by congruence.
  assert (exists evs,
    log w' = (log w ++ evs)%list /\
    (stored (files w) p = true ->
     Forall (fun ev => is_cv ev = false) evs /\ PickleLoad p ∈ evs /\
     files w' = files w) /\
    (stored (files w) p = false -> is_ok r = true ->
     exists n cv s content,
       self w1 !! "num_rep_cv" = Some (PyData (DInt n)) /\
       evs = (cv ++ [PickleDump p; Summarize s; Visualize])%list /\
       repetitions cv = Z.to_nat n /\
       files w' !! p = Some content /\
       pickle_dump lib (out_dict cfg (self w')) = Some content))
    as (evs & Hl & HA & HB).
  { destruct (stored (files w) p) eqn:Hst; rewrite <- Hf in Hst.
    - pose proof Hrun as Hrun'.
      rewrite (run_found _ _ _ Hp Hpath Hst) in Hrun'.
      destruct (wp_run _ _ _ _ _ Hrun' (reload_spec w1 p Hpath Hst))
        as (Hfw' & tail & Hl & Ht & _).
      exists (evs0 ++ PickleLoad p :: tail)%list.
      split; [by rewrite Hl, Hl0, <- app_assoc|]. split; [|done].
      intros _. split; [apply Forall_app; split; [done|by constructor]|].
      split; [apply elem_of_app; right; by left|congruence].
    - pose proof Hrun as Hrun'.
      rewrite (run_not_found _ _ _ Hp Hpath Hst) in Hrun'.
      destruct (wp_run _ _ _ _ _ Hrun' (compute_spec w1 n p Hn Hpath))
        as (evs & Hl & _ & Hdone).
      exists (evs0 ++ evs)%list.
      split; [by rewrite Hl, Hl0, <- app_assoc|]. split; [done|].
      intros _ Hok.
      destruct (Hdone Hok) as (cv & s & content & -> & Hrep & Hfile & Hdump & _).
      exists n, (evs0 ++ cv)%list, s, content.
      split; [done|]. split; [by rewrite <- app_assoc|].
      split; [by rewrite repetitions_app, repetitions_no_cv|done]. }
  exists evs. split; [done|]. split; [done|]. split; [done|].
  intros Hok Hcodec Hsum w2 Hs2 Hf2.
  destruct (second_run_reloads w w1 p r w' w2 Hp Hpath Hrun Hok Hcodec Hsum Hs2 Hf2)
    as (s & front & r2 & w2' & evs2 & Hl' & Hrest).
  exists s, front, r2, w2', evs2. split; [|done].
  apply (app_inv_head (log w)). congruence.
Qed.

End Engine.

(** * More properties of the workflow *)

Section More.

Context (cfg : Config) (lib : Library) (sub : Subclass).

Ltac wp_collapse :=
  repeat match goal with
  | |- context [with_self ?a (with_self ?b ?w)] =>
      change (with_self a (with_self b w)) with (with_self a w)
  end.

(** The constructor, after it has stored its arguments. *)
Ltac init_store args w :=
  unfold __init__;
  do 15 (apply wp_bind; apply wp_setattr; wp_simpl; wp_collapse);
  match goal with
  | |- wp ?c (with_self _ ?w0) ?Q =>
      change (wp c (with_self (configured args (self w)) w0) Q)
  end;
  let Hs := fresh "Hscoring" in
  let Hn := fresh "Hnum_rep_cv" in
  let Hd := fresh "Hdatasets" in
  assert (configured args (self w) !! "_scoring" = Some (arg_scoring args)) as Hs
    by (unfold configured; by wp_lookup);
  assert (configured args (self w) !! "num_rep_cv" = Some (arg_num_rep_cv args)) as Hn
    by (unfold configured; by wp_lookup);
  assert (configured args (self w) !! "datasets" = Some (arg_datasets args)) as Hd
    by (unfold configured; by wp_lookup);
  generalize dependent (configured args (self w)); intros.

(** ** The constructor *)

(** X1: a workflow type that, lowered, is not listed in
    [cfg.workflow_types] makes the constructor raise [ValueError] after it
    has stored its arguments: the object has them, but neither
    [_workflow_type] nor [results] is set, and nothing outside the object
    is touched. *)
Theorem constructor_rejects_workflow (args : Args) (w : world) (s : string) :
  arg_workflow_type args = PyData (DStr s) ->
  lower s ∉ workflow_types cfg ->
  __init__ cfg args w =
    (Raise (ValueError "Invalid workflow. Must be one of {}"),
     with_self (configured args (self w)) w).
Proof.
  intros Hs Hin.
  assert (negb (in_list (lower s) (workflow_types cfg)) = true) as Hb.
  { unfold in_list. by rewrite bool_decide_eq_false_2. }
  assert (wp (__init__ cfg args) w (fun r w' =>
            (r, w') = (Raise (ValueError "Invalid workflow. Must be one of {}"),
                       with_self (configured args (self w)) w))) as H.
  { init_store args w. wp_go. done. }
  unfold wp in H. by destruct (__init__ cfg args w).
Qed.

(** X2: the workflow type is matched whatever its case and stored lowered;
    the result accumulator is the one for classification exactly when the
    lowered type is "classify", and it is built from the scoring, the
    repetition count as it was passed (before [_prepare] converts it) and
    the modality identifiers of the datasets. *)
Theorem constructor_builds (args : Args) (w : world) (s : string)
    (d : Datasets) (scoring num_rep_cv : pydata) :
  arg_workflow_type args = PyData (DStr s) ->
  lower s ∈ workflow_types cfg ->
  arg_datasets args = PyDatasets d ->
  arg_scoring args = PyData scoring ->
  arg_num_rep_cv args = PyData num_rep_cv ->
  let results :=
    (if bool_decide (lower s = "classify") then ClassifyCVResults
     else RegressCVResults) scoring num_rep_cv (modality_ids d) in
  __init__ cfg args w =
    (Ok tt,
     with_self (<["results" := PyResults results]>
                  (<["_workflow_type" := PyData (DStr (lower s))]>
                     (configured args (self w)))) w).
Proof.
  intros Hs Hin Hd Hsc Hn results. subst results.
  assert (negb (in_list (lower s) (workflow_types cfg)) = false) as Hb.
  { unfold in_list. by rewrite bool_decide_eq_true_2. }
  assert (wp (__init__ cfg args) w (fun r w' =>
    (r, w') =
    (Ok tt,
     with_self (<["results" := PyResults
                    ((if bool_decide (lower s = "classify") then ClassifyCVResults
                      else RegressCVResults) scoring num_rep_cv (modality_ids d))]>
                  (<["_workflow_type" := PyData (DStr (lower s))]>
                     (configured args (self w)))) w))) as H.
  { init_store args w. rewrite Hsc in *. rewrite Hn in *. rewrite Hd in *.
    wp_go; wp_collapse.
    all: match goal with H : is_str _ _ = _ |- _ => simpl in H; rewrite H end.
    all: done. }
  unfold wp in H. by destruct (__init__ cfg args w).
Qed.

(** ** [_prepare] *)

(** X3: a repetition count that is an integer of 1 or less, a train
    fraction at or below 0 or at or above 1, or a grid-search level that,
    lowered, is not listed, makes [_prepare], and so [run], raise, with the
    files, the generator and the log as they were: no dataset is read, no
    split is drawn. *)
Theorem prepare_rejects (w : world) :
  (exists k, self w !! "num_rep_cv" = Some (PyData (DInt k)) /\ k <= 1) \/
  (exists x, self w !! "train_perc" = Some (PyData x) /\
             (le_const x 0 = Ok true \/ ge_const x 1 = Ok true)) \/
  (exists s, self w !! "grid_search_level" = Some (PyData (DStr s)) /\
             lower s ∉ GRIDSEARCH_LEVELS cfg) ->
  exists e w', _prepare cfg lib w = (Raise e, w') /\
               run cfg lib sub w = (Raise e, w') /\
               files w' = files w /\ random_state w' = random_state w /\
               log w' = log w.
Proof.
  intros H.
  destruct (invalid_configuration_rejected cfg lib sub w H)
    as (e & w' & Hp & (Hf & _ & Hr & Hl) & Hrun).
  by exists e, w'.
Qed.

(** X4: with the output directory left at [None], the default of the
    constructor, a configuration that passes every check of [_prepare]
    makes it raise [TypeError] at the join of the results path, after the
    sample identifiers have been read; [run] raises the same. *)
Theorem prepare_needs_out_dir (w : world) (n procs size : Z) (tp : pydata)
    (d : Datasets) :
  validated cfg lib (self w) n tp procs d ->
  (match int_mul (Z.of_nat (length (samplet_ids d))) tp with
   | Ok x => np_floor_int64 x | Raise e => Raise e end) = Ok size ->
  self w !! "out_dir" = Some (PyData DNone) ->
  exists w',
    _prepare cfg lib w =
      (Raise (TypeError "expected str, bytes or os.PathLike object"), w') /\
    run cfg lib sub w =
      (Raise (TypeError "expected str, bytes or os.PathLike object"), w') /\
    files w' = files w /\
    log w' = (log w ++ [ReadSampletIds])%list.
Proof.
  intros [(r & Hr & Hi) Hfin Hgt Htp Hlo Hhi (v & Hv & Hprocs) (s & Hs & Hin) Hd]
         Hsize Hod.
  assert (pjoin DNone (results_file_name cfg)
          = Raise (TypeError "expected str, bytes or os.PathLike object")) as Hj
    by done.
  assert ((n <=? 1) = false) as Hgt' by lia.
  assert (negb (in_list (lower s) (GRIDSEARCH_LEVELS cfg)) = false) as Hin'
    by (by rewrite Hin).
  destruct (int_mul (Z.of_nat (length (samplet_ids d))) tp) as [x|] eqn:Hmul;
    [|done].
  assert (wp (_prepare cfg lib) w (fun r' w' =>
    r' = Raise (TypeError "expected str, bytes or os.PathLike object") /\
    files w' = files w /\ log w' = (log w ++ [ReadSampletIds])%list)) as H.
  { unfold _prepare. wp_go. all: try done.
    all: rewrite length_fmap in *; simplify_eq. }
  destruct H as (Hr' & Hf & Hl).
  assert (_prepare cfg lib w =
            (Raise (TypeError "expected str, bytes or os.PathLike object"),
             (_prepare cfg lib w).2)) as Hp
    by (rewrite <- Hr'; apply surjective_pairing).
  eexists. split; [exact Hp|]. split; [by apply run_prepare_raise|done].
Qed.

(** ** One modality *)

(** X5: the calls that the processing of one modality makes, when it goes
    to its end, in their order: the imputation, only if the datasets flag
    the modality as having missing data; the preprocessing; the covariates
    of the train samples, then of the test samples; the fit of the
    deconfounder, on train features and train covariates; the optimisation;
    the evaluation. *)
Theorem modality_calls (run_id : pydata) (train_set test_set : list string)
    (ds_id : string) (train test : subset) (w w' : world) :
  _single_run_cv_modality cfg lib sub run_id train_set test_set
    (ds_id, (train, test)) w = (Ok tt, w') ->
  exists d missing covariates deconf_data deconf_covar opt_data,
    self w !! "datasets" = Some (PyDatasets d) /\
    get_attr d ds_id (missing_data_flag_name cfg) = Ok missing /\
    self w !! "covariates" = Some (PyData covariates) /\
    log w' =
      (log w ++ (if missing then [Impute ds_id] else []) ++
       [Preprocess;
        GetCommonAttr covariates train_set; GetCommonAttr covariates test_set;
        Deconfound deconf_data deconf_covar;
        Optimize opt_data;
        Evaluate run_id ds_id])%list.
Proof.
  intros Hrun.
  cut (wp (_single_run_cv_modality cfg lib sub run_id train_set test_set
             (ds_id, (train, test))) w (fun r w' =>
    r = Ok tt ->
    exists d missing covariates deconf_data deconf_covar opt_data,
      self w !! "datasets" = Some (PyDatasets d) /\
      get_attr d ds_id (missing_data_flag_name cfg) = Ok missing /\
      self w !! "covariates" = Some (PyData covariates) /\
      log w' =
        (log w ++ (if missing then [Impute ds_id] else []) ++
         [Preprocess;
          GetCommonAttr covariates train_set; GetCommonAttr covariates test_set;
          Deconfound deconf_data deconf_covar;
          Optimize opt_data;
          Evaluate run_id ds_id])%list)).
  { intros H. exact (wp_run _ _ _ _ _ Hrun H eq_refl). }
  clear Hrun w'.
  destruct train as [train_data train_targets], test as [test_data test_targets].
  unfold _single_run_cv_modality.
  wp_go.
  all: try done.
  all: intros _; simplify_eq.
  all: eexists _, _, _, _, _, _; split; [done|]; split; [eassumption|].
  all: split; [done|].
  all: wp_simpl; rewrite <- ?app_assoc; reflexivity.
Qed.

(** ** One repetition *)

Lemma single_run_cv_draw run_id w ids k :
  self w !! "_id_list" = Some (id_list ids) ->
  self w !! "_train_set_size" = Some (PyData (DInt k)) ->
  wp (_single_run_cv cfg lib sub run_id) w (fun r w' =>
    exists evs,
      log w' = (log w ++ evs)%list /\
      (evs = [] \/
       exists rest, evs = drawn_split ids (random_state w) k :: rest /\
                    Forall (fun ev => is_split ev = false) rest) /\
      (r = Ok tt -> evs <> [])).
Proof.
  intros Hids Hk.
  unfold _single_run_cv.
  wp_go.
  all: try (exists []; rewrite app_nil_r; split; [done|]; split; [by left|done]).
  all: lazymatch goal with
       | |- wp (for_ _ _) ?w1 _ =>
           eapply wp_mono;
           [|apply (wp_for (modality_step w1));
             [intros; eapply wp_mono; [|apply modality_spec];
              intros; by eapply modality_step_trans
             |apply modality_step_refl]]
       | |- _ => idtac
       end.
  all: try (intros [[]|e] w' (_ & _ & _ & _ & evs & Hl & He)).
  all: wp_go.
  all: wp_simpl.
  all: try rewrite Hl; wp_simpl.
  all: eexists; (split; [rewrite <- ?app_assoc; reflexivity|]).
  all: (split; [right; eexists; split; [reflexivity|]|done]).
  all: try (apply Forall_app; split; [done|]).
  all: by repeat constructor.
Qed.

Lemma slice_to_length {A} (l : list A) (k : Z) :
  0 <= k <= Z.of_nat (length l) -> length (slice_to l k) = Z.to_nat k.
Proof.
  intros Hk. unfold slice_to.
  destruct (Z.ltb_spec k 0); [lia|]. rewrite length_take. lia.
Qed.

Lemma slice_to_NoDup {A} (l : list A) (k : Z) : NoDup l -> NoDup (slice_to l k).
Proof.
  intros Hnd. unfold slice_to.
  destruct (k <? 0); (eapply sublist_NoDup; [exact Hnd|apply sublist_take]).
Qed.

Lemma test_set_length (shuffled : list string) (k : Z) :
  NoDup shuffled -> 0 <= k <= Z.of_nat (length shuffled) ->
  length (elements ((list_to_set shuffled : gset string)
                      ∖ list_to_set (slice_to shuffled k)))
  = (length shuffled - Z.to_nat k)%nat.
Proof.
  intros Hnd Hk.
  assert (NoDup (slice_to shuffled k)) as Hnd' by (by apply slice_to_NoDup).
  assert ((list_to_set (slice_to shuffled k) : gset string)
            ⊆ list_to_set shuffled) as Hsub.
  { intros x. rewrite !elem_of_list_to_set. apply slice_to_subseteq. }
  change (size ((list_to_set shuffled : gset string)
                  ∖ list_to_set (slice_to shuffled k))
          = (length shuffled - Z.to_nat k)%nat).
  rewrite size_difference by done.
  rewrite !size_list_to_set by done.
  by rewrite slice_to_length.
Qed.

(** X6: a repetition that returns has called [get_subsets] exactly once,
    first of all its calls, with the first [_train_set_size] of the
    shuffled sample identifiers as the train set; for a size between 0 and
    the number of identifiers the train set has that many identifiers, and
    when the identifiers are distinct the test set has all the others. *)
Theorem repetition_split (run_id : pydata) (w w' : world) (ids : list string)
    (k : Z) :
  self w !! "_id_list" = Some (id_list ids) ->
  self w !! "_train_set_size" = Some (PyData (DInt k)) ->
  _single_run_cv cfg lib sub run_id w = (Ok tt, w') ->
  exists train_set test_set rest,
    log w' = (log w ++ GetSubsets train_set test_set :: rest)%list /\
    Forall (fun ev => is_split ev = false) rest /\
    train_set = slice_to (shuffle ids (random_state w)).1 k /\
    (0 <= k <= Z.of_nat (length ids) ->
     length train_set = Z.to_nat k /\
     (NoDup ids ->
      length test_set = (length ids - Z.to_nat k)%nat /\
      train_set ++ test_set ≡ₚ ids)).
Proof.
  intros Hids Hk Hrun.
  destruct (wp_run _ _ _ _ _ Hrun (single_run_cv_draw run_id w ids k Hids Hk))
    as (evs & Hl & [->|(rest & -> & Hrest)] & Hne); [by destruct Hne|].
  unfold drawn_split in Hl. eexists _, _, rest.
  split; [exact Hl|]. split; [done|]. split; [done|].
  pose proof (shuffle_perm ids (random_state w)) as Hperm.
  set (shuffled := (shuffle ids (random_state w)).1) in *.
  intros Hrange. rewrite <- (Permutation_length Hperm) in Hrange.
  split; [by apply slice_to_length|].
  intros Hnd. rewrite <- Hperm in Hnd.
  split.
  { rewrite test_set_length by done. by rewrite (Permutation_length Hperm). }
  rewrite <- Hperm.
  apply NoDup_Permutation.
  - apply NoDup_app. split; [|split].
    + by apply slice_to_NoDup.
    + intros x Hx Hx'. apply elem_of_elements, elem_of_difference in Hx' as [_ Hx'].
      apply Hx'. by apply elem_of_list_to_set.
    + apply NoDup_elements.
  - done.
  - intros x. rewrite elem_of_app, elem_of_elements, elem_of_difference,
      !elem_of_list_to_set.
    split.
    + intros [Hx|[Hx _]]; [by eapply slice_to_subseteq|done].
    + intros Hx. destruct (decide (x ∈ slice_to shuffled k)); [by left|by right].
Qed.

(** ** The files *)

Lemma single_run_cv_files run_id w :
  self w !! "_checkpointing" = Some (PyData (DBool false)) ->
  wp (_single_run_cv cfg lib sub run_id) w (fun _ w' => files w' = files w).
Proof.
  intros Hc.
  unfold _single_run_cv.
  wp_go.
  all: try done.
  all: lazymatch goal with
       | |- wp (for_ _ _) ?w1 _ =>
           eapply wp_mono;
           [|apply (wp_for (modality_step w1));
             [intros; eapply wp_mono; [|apply modality_spec];
              intros; by eapply modality_step_trans
             |apply modality_step_refl]]
       end.
  all: intros r w' (Ha & Hf & _).
  all: assert (self w' !! "_checkpointing" = Some (PyData (DBool false))) as Hc'
         by (rewrite Ha by done; wp_simpl; by wp_lookup).
  all: destruct r as [[]|e]; [|done].
  all: wp_go; by rewrite Hf.
Qed.

Lemma run_cv_files w :
  self w !! "_checkpointing" = Some (PyData (DBool false)) ->
  wp (_run_cv cfg lib sub) w (fun _ w' =>
    files w' = files w /\
    forall name, name <> "results" -> name <> "_id_list" ->
                 self w' !! name = self w !! name).
Proof.
  intros Hc. unfold _run_cv. wp_go.
  all: try done.
  all: eapply wp_mono;
       [intros ? w' H; exact H
       |apply (wp_for (fun w' =>
           files w' = files w /\
           forall name, name <> "results" -> name <> "_id_list" ->
                        self w' !! name = self w !! name)); [|done]].
  all: intros rep w1 _ [Hf Ha].
  all: eapply wp_mono;
       [|apply wp_conj; [apply single_run_cv_files; by rewrite Ha
                        |apply single_run_cv_spec]].
  all: intros r w2 [Hf2 (Ha2 & _)]; simpl.
  all: split; [congruence|].
  all: intros name H1 H2; by rewrite Ha2, Ha.
Qed.

Lemma save_files w :
  wp (save cfg lib) w (fun _ w' =>
    self w' = self w /\
    (files w' = files w \/
     exists p content,
       self w !! "_out_results_path" = Some (PyData (DStr p)) /\
       files w' = <[p := content]> (files w))).
Proof.
  unfold save. wp_go.
  all: split; [done|]; try (by left).
  all: right; simplify_eq; eexists _, _; split; [done|]; wp_simpl.
  all: try by rewrite insert_insert_eq.
  all: done.
Qed.

(** The attributes that [_prepare] leaves as they are. *)
Lemma prepare_keeps w w1 name :
  _prepare cfg lib w = (Ok tt, w1) ->
  name ∉ ["num_rep_cv"; "num_procs"; "_id_list"; "_num_samples";
          "_train_set_size"; "_out_results_path"; "_target_sizes";
          "_chance_accuracy"] ->
  self w1 !! name = self w !! name.
Proof.
  intros Hp Hname.
  repeat (apply not_elem_of_cons in Hname as [? Hname]).
  destruct (prepare_ok _ _ _ _ Hp)
    as (n & tp & procs & d & size & path & _ & _ & _ & _ & _ & _ & Ha).
  destruct Ha as [[-> _]|(chance & -> & _)]; unfold summarized, prepared;
    by rewrite !lookup_insert_ne by done.
Qed.

(** X7: [save] leaves the attributes as they were and changes no file but
    the one at the results path; when it returns, that file holds the pickle
    of the attributes that [cfg.results_to_save] lists. *)
Theorem save_writes_results_file (w : world) :
  let r := (save cfg lib w).1 in
  let w' := (save cfg lib w).2 in
  self w' = self w /\
  (files w' = files w \/
   exists p content,
     self w !! "_out_results_path" = Some (PyData (DStr p)) /\
     files w' = <[p := content]> (files w)) /\
  (forall p, self w !! "_out_results_path" = Some (PyData (DStr p)) ->
             is_ok r = true ->
             exists content,
               pickle_dump lib (out_dict cfg (self w)) = Some content /\
               files w' = <[p := content]> (files w)).
Proof.
  intros r w'.
  pose proof (wp_run _ _ _ _ _ (surjective_pairing (save cfg lib w))
                (wp_conj _ _ _ _ (save_files w) (save_spec cfg lib w)))
    as [[Ha Hf] (_ & _ & Hs)].
  fold r w' in Ha, Hf, Hs.
  split; [done|]. split; [done|].
  intros p Hp Hok. destruct (Hs p Hp Hok) as (content & Hdump & Hfile & _).
  exists content. split; [done|].
  destruct Hf as [Hf|(p' & content' & Hp' & Hf)].
  - rewrite Hf in Hfile |- *. symmetry. by apply insert_id.
  - assert (p' = p) as -> by congruence.
    rewrite Hf in Hfile. rewrite lookup_insert_eq in Hfile. by simplify_eq.
Qed.

(** ** [save] and [load], when they fail *)

(** X8: when the results path is not open for writing, [save] raises
    [IOError] and leaves the object, the files and the log as they were. *)
Theorem save_unwritable (w : world) (p : string) :
  self w !! "_out_results_path" = Some (PyData (DStr p)) ->
  writable w p = false ->
  save cfg lib w =
    (Raise (IOError ("Error saving the results to disk!" ++ newline
                       ++ "Out path:{}")), w).
Proof.
  intros Hp Hw.
  assert (wp (save cfg lib) w (fun r w' =>
    (r, w') = (Raise (IOError ("Error saving the results to disk!" ++ newline
                                 ++ "Out path:{}")), w))) as H.
  { unfold save. wp_go. done. }
  unfold wp in H. by destruct (save cfg lib w).
Qed.

(** X9: on an object that has no results path yet, as before [_prepare],
    [save] raises [AttributeError], not [IOError]: the handler of the
    [except] clause formats its message with the missing attribute. *)
Theorem save_before_prepare (w : world) :
  self w !! "_out_results_path" = None ->
  save cfg lib w = (Raise (AttributeError "_out_results_path"), w).
Proof.
  intros Hp.
  assert (wp (save cfg lib) w (fun r w' =>
    (r, w') = (Raise (AttributeError "_out_results_path"), w))) as H.
  { unfold save. wp_go. done. }
  unfold wp in H. by destruct (save cfg lib w).
Qed.

(** X10: when there is no file at the results path, or its bytes do not
    unpickle, [load] raises [IOError] and sets no attribute. *)
Theorem load_unreadable (w : world) (p : string) :
  self w !! "_out_results_path" = Some (PyData (DStr p)) ->
  match files w !! p with
  | None => True
  | Some content => pickle_load lib content = None
  end ->
  exists w',
    load cfg lib w = (Raise (IOError "Error load the results from path: {}"), w') /\
    self w' = self w /\ files w' = files w /\
    log w' = (log w ++ match files w !! p with
                       | None => []
                       | Some _ => [PickleLoad p]
                       end)%list.
Proof.
  intros Hp Hf.
  assert (wp (load cfg lib) w (fun r w' =>
    r = Raise (IOError "Error load the results from path: {}") /\
    self w' = self w /\ files w' = files w /\
    log w' = (log w ++ match files w !! p with
                       | None => []
                       | Some _ => [PickleLoad p]
                       end)%list)) as H.
  { unfold load. destruct (files w !! p) as [content|] eqn:Hc.
    - wp_go. done.
    - wp_go. by rewrite app_nil_r. }
  destruct H as (Hr & H). eexists. split; [|exact H].
  rewrite <- Hr. apply surjective_pairing.
Qed.

(** The loop of [load], when the loaded dictionary lacks a name. *)
Lemma load_loop_missing (loaded : gmap string pyval) (before after : list string)
    (var : string) (w : world) :
  (forall x, x ∈ before -> is_Some (loaded !! x)) ->
  loaded !! var = None ->
  for_ (before ++ var :: after)
    (fun var => match loaded !! var with
                | Some v => setattr var v
                | None => raise (KeyError var)
                end) w
  = (Raise (KeyError var), with_self (loaded_into loaded before (self w)) w).
Proof.
  revert w. induction before as [|x l IH]; intros w Hall Hvar.
  - cbn [app for_]. unfold mbind, M_bind. rewrite Hvar. by destruct w.
  - rewrite loaded_into_cons.
    destruct (Hall x) as [v Hv]; [by left|].
    cbn [app for_]. unfold mbind, M_bind. rewrite Hv. unfold setattr at 1.
    by rewrite IH by (try done; intros y Hy; apply Hall; by right).
Qed.

(** X11: [load] is not all or nothing. When the unpickled dictionary lacks
    one of the names of [cfg.results_to_save], [load] raises [KeyError] for
    the first such name, and the names before it have been set from the
    dictionary. *)
Theorem load_missing_key (w : world) (p : string) (content : bytes)
    (loaded : gmap string pyval) (before after : list string) (var : string) :
  self w !! "_out_results_path" = Some (PyData (DStr p)) ->
  files w !! p = Some content ->
  pickle_load lib content = Some loaded ->
  results_to_save cfg = (before ++ var :: after)%list ->
  (forall x, x ∈ before -> is_Some (loaded !! x)) ->
  loaded !! var = None ->
  load cfg lib w =
    (Raise (KeyError var),
     with_self (loaded_into loaded before (self w))
       (with_log (log w ++ [PickleLoad p]) w)).
Proof.
  intros Hp Hf Hl Hnames Hall Hvar.
  assert (wp (load cfg lib) w (fun r w' =>
    (r, w') = (Raise (KeyError var),
               with_self (loaded_into loaded before (self w))
                 (with_log (log w ++ [PickleLoad p]) w)))) as H.
  { unfold load. wp_go. unfold wp. rewrite Hnames.
    by rewrite load_loop_missing. }
  unfold wp in H. by destruct (load cfg lib w).
Qed.

(** X12: a non-empty file at the results path whose bytes do not unpickle
    makes [run] raise [IOError]: the results are not computed again, and
    the file is left as it is. *)
Theorem run_unreadable_results (w w1 : world) (p : string) (content : bytes) :
  _prepare cfg lib w = (Ok tt, w1) ->
  self w1 !! "_out_results_path" = Some (PyData (DStr p)) ->
  files w !! p = Some content -> content <> [] ->
  pickle_load lib content = None ->
  run cfg lib sub w =
    (Raise (IOError "Error load the results from path: {}"),
     with_log (log w1 ++ [PickleLoad p]) w1).
Proof.
  intros Hprep Hpath Hc Hne Hload.
  destruct (prepare_returns _ _ _ _ Hprep) as (Hf & _).
  rewrite <- Hf in Hc.
  rewrite (run_found _ _ _ _ _ _ Hprep Hpath) by (by eapply stored_true).
  assert (wp (load cfg lib) w1 (fun r w' =>
    (r, w') = (Raise (IOError "Error load the results from path: {}"),
               with_log (log w1 ++ [PickleLoad p]) w1))) as H.
  { unfold load. wp_go. done. }
  unfold reload_and_report, mbind, M_bind.
  unfold wp in H. destruct (load cfg lib w1) as [r w']. simpl in H.
  by injection H as -> ->.
Qed.

(** ** Feature importance *)

Lemma broadcast_length (v : attrval) (k : nat) (values : list float64) :
  broadcast v k = Ok values -> length values = k.
Proof.
  assert (forall l,
            (if Nat.eqb (length l) k then Ok l
             else match l with
                  | [x] => Ok (replicate k x)
                  | _ => Raise (ValueError "shape mismatch: value array could not be broadcast to indexing result")
                  end) = Ok values -> length values = k) as Hvec.
  { intros l. destruct (Nat.eqb_spec (length l) k).
    - by intros [= <-].
    - destruct l as [|x [|]]; try done. intros [= <-]. apply length_replicate. }
  unfold broadcast. destruct v as [x|l|[|l [|]]]; try done.
  - intros [= <-]. apply length_replicate.
  - apply Hvec.
  - apply Hvec.
Qed.

Lemma assign_pairs_lookup (a : list float64) (pairs : list (nat * float64))
    (i : nat) (x : float64) :
  NoDup pairs.*1 -> (i, x) ∈ pairs -> (i < length a)%nat ->
  foldl (fun acc iv => <[iv.1 := iv.2]> acc) a pairs !! i = Some x.
Proof.
  revert a. induction pairs as [|[j y] pairs IH]; intros a Hnd Hin Hi;
    [by apply not_elem_of_nil in Hin|].
  simpl in *. apply NoDup_cons in Hnd as [Hj Hnd].
  apply elem_of_cons in Hin as [[= <- <-]|Hin].
  - rewrite assign_pairs_other by done. by apply list_lookup_insert_eq.
  - apply IH; [done..|]. by rewrite length_insert.
Qed.

(** X13: in a vector that [_get_feature_importance] returns, the selected
    indices, when no index is selected twice, hold the importances of the
    estimator, in the order of the selection: position [index[j]] has the
    [j]-th importance, a single importance being repeated for all. *)
Theorem feature_importance_selected (est_name : pyval) (pipeline : Pipeline)
    (num_features : nat) (fill_value : float64) (v : list float64) :
  _get_feature_importance cfg est_name pipeline num_features fill_value
    = Ok (Some v) ->
  exists index importance values,
    selected_features pipeline = Some index /\
    importance_of cfg est_name pipeline = Some importance /\
    broadcast importance (length index) = Ok values /\
    length values = length index /\
    (NoDup index ->
     forall j i, index !! j = Some i -> v !! i = values !! j).
Proof.
  unfold _get_feature_importance, selected_features, importance_of.
  destruct (steps pipeline !! 1%nat) as [dim_red|] eqn:Hdim; simpl; [|done].
  destruct (last (steps pipeline)) as [est|] eqn:Hest; [|done].
  destruct (step_get_support dim_red) as [index|] eqn:Hsup; [|done].
  destruct (importance_attr_of cfg est_name) as [name|e] eqn:Hname; [|done].
  destruct (step_attr est name) as [importance|] eqn:Himp; [|done].
  destruct (broadcast importance (length index)) as [values|e] eqn:Hb; [|done].
  pose proof (broadcast_length _ _ _ Hb) as Hlen.
  unfold assign_at.
  destruct (forallb _ index) eqn:Hbound; [|done].
  intros [= <-]. exists index, importance, values.
  repeat split; try done.
  intros Hnd j i Hj.
  destruct (values !! j) as [x|] eqn:Hx.
  2:{ apply lookup_ge_None in Hx. apply lookup_lt_Some in Hj. lia. }
  apply assign_pairs_lookup.
  - by rewrite fst_zip by lia.
  - apply list_elem_of_lookup. exists j.
    apply lookup_zip_with_Some. by exists i, x.
  - rewrite forallb_forall in Hbound.
    apply Nat.ltb_lt, Hbound, list_elem_of_In. by eapply list_elem_of_lookup_2.
Qed.

(** X14: the errors and the absent marker of [_get_feature_importance]. A
    pipeline of fewer than two stages raises [IndexError]. When the stage at
    position 1 has no [get_support], the result is the absent marker
    whatever the estimator, also for one that [cfg.importance_attr] does
    not list; when it has one, an estimator that is not listed raises
    [KeyError], a selected index at or beyond [num_features] raises
    [IndexError], and importances that do not broadcast to the selection
    raise [ValueError]. *)
Theorem feature_importance_edges (est_name : pyval) (pipeline : Pipeline)
    (num_features : nat) (fill_value : float64) :
  let extracted :=
    _get_feature_importance cfg est_name pipeline num_features fill_value in
  ((length (steps pipeline) < 2)%nat ->
   extracted = Raise (IndexError "list index out of range")) /\
  ((2 <= length (steps pipeline))%nat ->
   (selected_features pipeline = None -> extracted = Ok None) /\
   (forall index, selected_features pipeline = Some index ->
      (forall e, importance_attr_of cfg est_name = Raise e ->
                 extracted = Raise e) /\
      (forall importance e,
         importance_of cfg est_name pipeline = Some importance ->
         broadcast importance (length index) = Raise e ->
         extracted = Raise e) /\
      (forall importance values i,
         importance_of cfg est_name pipeline = Some importance ->
         broadcast importance (length index) = Ok values ->
         i ∈ index -> (num_features <= i)%nat ->
         extracted = Raise (IndexError "index is out of bounds")))).
Proof.
  intros extracted. subst extracted.
  unfold _get_feature_importance, selected_features, importance_of.
  split.
  { intros Hlen. destruct (steps pipeline !! 1%nat) eqn:Hdim; [|done].
    apply lookup_lt_Some in Hdim. lia. }
  intros Hlen.
  destruct (steps pipeline !! 1%nat) as [dim_red|] eqn:Hdim.
  2:{ apply lookup_ge_None in Hdim. lia. }
  destruct (last (steps pipeline)) as [est|] eqn:Hest.
  2:{ apply last_None in Hest. rewrite Hest in Hdim. discriminate Hdim. }
  simpl. split.
  { by intros ->. }
  intros index ->. split; [by intros e ->|]. split.
  - intros importance e Himp Hb.
    destruct (importance_attr_of cfg est_name); [|done].
    by rewrite Himp, Hb.
  - intros importance values i Himp Hb Hi Hge.
    destruct (importance_attr_of cfg est_name); [|done].
    rewrite Himp, Hb. unfold assign_at.
    destruct (forallb _ index) eqn:Hbound; [|done].
    rewrite forallb_forall in Hbound.
    apply list_elem_of_In, Hbound, Nat.ltb_lt in Hi.
    rewrite length_replicate in Hi. lia.
Qed.

(** ** All repetitions *)

(** X15: the repetitions change no attribute of the object but [results]
    and [_id_list], and leave [_id_list] a permutation of what it was,
    however they end; the set of files open for writing is as it was. *)
Theorem repetitions_frame (w w' : world) (r : result unit) (n : Z)
    (ids : list string) :
  self w !! "num_rep_cv" = Some (PyData (DInt n)) ->
  self w !! "_id_list" = Some (id_list ids) ->
  _run_cv cfg lib sub w = (r, w') ->
  (forall name, name <> "results" -> name <> "_id_list" ->
                self w' !! name = self w !! name) /\
  writable w' = writable w /\
  exists ids', self w' !! "_id_list" = Some (id_list ids') /\ ids' ≡ₚ ids.
Proof.
  intros Hn Hids Hrun.
  destruct (wp_run _ _ _ _ _ Hrun (run_cv_spec cfg lib sub w) n Hn)
    as (Ha & Hw & Hperm & _).
  split; [done|]. split; [done|]. by apply Hperm.
Qed.

(** X20: when [_prepare] returns, it has set no attribute but the eight it
    derives ([num_rep_cv], [num_procs], [_id_list], [_num_samples],
    [_train_set_size], [_out_results_path] and, for a classification,
    [_target_sizes] and [_chance_accuracy]); the files, the paths open for
    writing and the generator are as they were. *)
Theorem prepare_sets_only (w w1 : world) :
  _prepare cfg lib w = (Ok tt, w1) ->
  (forall name,
     name ∉ ["num_rep_cv"; "num_procs"; "_id_list"; "_num_samples";
             "_train_set_size"; "_out_results_path"; "_target_sizes";
             "_chance_accuracy"] ->
     self w1 !! name = self w !! name) /\
  files w1 = files w /\ writable w1 = writable w /\
  random_state w1 = random_state w.
Proof.
  intros Hp. split; [intros name; by apply prepare_keeps|].
  by destruct (prepare_ok _ _ _ _ Hp)
    as (n & tp & procs & d & size & path & _ & _ & _ & Hf & Hw & Hr & _).
Qed.

(** ** The size of the train sets *)

Lemma no_cv_train_sized (k : Z) (evs : list event) :
  Forall (fun ev => is_cv ev = false) evs -> Forall (train_sized k) evs.
Proof. intros H. eapply Forall_impl; [exact H|]. by intros []. Qed.

Lemma no_split_train_sized (k : Z) (evs : list event) :
  Forall (fun ev => is_split ev = false) evs -> Forall (train_sized k) evs.
Proof. intros H. eapply Forall_impl; [exact H|]. by intros []. Qed.

Lemma shuffle_length (ids : list string) (draws : nat -> nat) :
  length (shuffle ids draws).1 = length ids.
Proof. apply Permutation_length, shuffle_perm. Qed.

(** A repetition draws a train set of [_train_set_size] identifiers. *)
Lemma single_run_cv_sized run_id w ids k :
  self w !! "_id_list" = Some (id_list ids) ->
  self w !! "_train_set_size" = Some (PyData (DInt k)) ->
  0 <= k <= Z.of_nat (length ids) ->
  wp (_single_run_cv cfg lib sub run_id) w (fun _ w' =>
    exists evs, log w' = (log w ++ evs)%list /\ Forall (train_sized k) evs).
Proof.
  intros Hids Hk Hrange.
  eapply wp_mono; [|apply (single_run_cv_draw run_id w ids k Hids Hk)].
  intros r w' (evs & Hl & [->|(rest & -> & Hrest)] & _);
    (eexists; split; [exact Hl|]); [constructor|].
  constructor; [|by apply no_split_train_sized].
  unfold drawn_split, train_sized.
  rewrite slice_to_length by (rewrite shuffle_length; lia). lia.
Qed.

(** The repetitions of [_run_cv] draw train sets of [_train_set_size]
    identifiers. *)
Lemma run_cv_sized w ids k :
  self w !! "_id_list" = Some (id_list ids) ->
  self w !! "_train_set_size" = Some (PyData (DInt k)) ->
  0 <= k <= Z.of_nat (length ids) ->
  wp (_run_cv cfg lib sub) w (fun _ w' =>
    exists evs, log w' = (log w ++ evs)%list /\ Forall (train_sized k) evs).
Proof.
  intros Hids Hk Hrange. unfold _run_cv. wp_go.
  all: try (exists []; by rewrite app_nil_r).
  all: eapply wp_mono;
       [|apply (wp_for (fun w' =>
           (exists ids', self w' !! "_id_list" = Some (id_list ids') /\ ids' ≡ₚ ids) /\
           self w' !! "_train_set_size" = Some (PyData (DInt k)) /\
           exists evs, log w' = (log w ++ evs)%list /\ Forall (train_sized k) evs));
        [|split; [by exists ids|split; [done|exists []; by rewrite app_nil_r]]]];
       [intros ? w' (_ & _ & H); exact H|].
  all: intros rep w1 _ ((ids1 & Hids1 & Hp1) & Hk1 & evs1 & Hl1 & Hs1).
  all: eapply wp_mono;
       [|apply wp_conj;
         [apply (single_run_cv_sized _ w1 ids1 k Hids1 Hk1);
          by rewrite (Permutation_length Hp1)
         |apply single_run_cv_spec]].
  all: intros r w2 [(evs2 & Hl2 & Hs2) (Ha2 & _ & Hperm & _)]; simpl.
  all: split; [|split].
  all: try (destruct (Hperm ids1 Hids1) as (ids2 & Hids2 & Hp2);
            exists ids2; split; [done|by etrans]).
  all: try (by rewrite Ha2).
  all: exists (evs1 ++ evs2)%list; rewrite Hl2, Hl1, <- app_assoc;
       split; [done|by apply Forall_app].
Qed.
Lemma compute_sized w ids k :
  self w !! "_id_list" = Some (id_list ids) ->
  self w !! "_train_set_size" = Some (PyData (DInt k)) ->
  0 <= k <= Z.of_nat (length ids) ->
  wp (compute_and_report cfg lib sub) w (fun _ w' =>
    exists evs, log w' = (log w ++ evs)%list /\ Forall (train_sized k) evs).
Proof.
  intros Hids Hk Hrange. unfold compute_and_report.
  apply wp_bind. apply wp_bind.
  wp_apply (run_cv_sized w ids k Hids Hk Hrange). intros r1 w1 (evs1 & Hl1 & Hs1).
  destruct r1 as [[]|e1]; [|by exists evs1].
  apply wp_bind. wp_apply save_spec. intros r2 w2 (_ & (evs2 & Hl2 & He2) & _).
  assert (exists evs, log w2 = (log w ++ evs)%list /\ Forall (train_sized k) evs)
    as Hsaved.
  { exists (evs1 ++ evs2)%list. rewrite Hl2, Hl1, <- app_assoc. split; [done|].
    apply Forall_app. split; [done|by apply no_cv_train_sized]. }
  destruct r2 as [v2|e2]; [|done].
  apply wp_ret. wp_apply report_spec. intros r3 w3 (_ & _ & Hrep).
  destruct Hsaved as (evs & Hl & Hs).
  destruct (summarize sub (self w2)) as [s|e3].
  - exists (evs ++ [Summarize s; Visualize])%list.
    rewrite Hrep, Hl, <- app_assoc. split; [done|].
    apply Forall_app. split; [done|]. by repeat constructor.
  - destruct Hrep as [_ Hl3]. exists evs. by rewrite Hl3.
Qed.

(** The train sets of a run, of any outcome, have the size that [_prepare]
    has set. *)
Lemma run_sized w w1 d k r w' :
  _prepare cfg lib w = (Ok tt, w1) ->
  self w !! "datasets" = Some (PyDatasets d) ->
  self w1 !! "_train_set_size" = Some (PyData (DInt k)) ->
  0 <= k <= Z.of_nat (length (samplet_ids d)) ->
  run cfg lib sub w = (r, w') ->
  exists evs, log w' = (log w ++ evs)%list /\ Forall (train_sized k) evs.
Proof.
  intros Hp Hd Hk Hrange Hrun.
  destruct (prepare_returns _ _ _ _ Hp)
    as (Hf & (evs0 & Hl0 & He0 & _) & n & d' & p & Hd' & _ & Hn & Hid & Hpath).
  assert (d' = d) as -> by congruence.
  destruct (stored (files w1) p) eqn:Hst.
  - rewrite (run_found _ _ _ _ _ _ Hp Hpath Hst) in Hrun.
    destruct (wp_run _ _ _ _ _ Hrun (reload_spec _ _ _ w1 p Hpath Hst))
      as (_ & tail & Hl & Ht & _).
    exists (evs0 ++ PickleLoad p :: tail)%list.
    rewrite Hl, Hl0, <- app_assoc. split; [done|].
    apply no_cv_train_sized, Forall_app. split; [done|]. by constructor.
  - rewrite (run_not_found _ _ _ _ _ _ Hp Hpath Hst) in Hrun.
    destruct (wp_run _ _ _ _ _ Hrun (compute_sized w1 _ k Hid Hk Hrange))
      as (evs & Hl & Hs).
    exists (evs0 ++ evs)%list. rewrite Hl, Hl0, <- app_assoc. split; [done|].
    apply Forall_app. split; [by apply no_cv_train_sized|done].
Qed.

(** C4: when [_prepare] returns, the train-set size is
    [clamp(floor(train_perc * N), 1, N)] for the [N] sample identifiers of
    the datasets: the product is that of binary64, the floor the greatest
    integer that is at most its value. The size is at least 1, and at most
    [N] when there is a sample; and then the train set of every split that
    the run draws, in every repetition, has that many identifiers. *)
Theorem train_set_size_clamped (w w1 : world) (d : Datasets) (tp : float64) :
  self w !! "datasets" = Some (PyDatasets d) ->
  self w !! "train_perc" = Some (PyData (DFloat tp)) ->
  _prepare cfg lib w = (Ok tt, w1) ->
  let N := Z.of_nat (length (samplet_ids d)) in
  let size := clamp (floor_int64 (binary64_product N tp)) 1 N in
  self w1 !! "_train_set_size" = Some (PyData (DInt size)) /\
  1 <= size /\ (1 <= N -> size <= N) /\
  (1 <= N ->
   forall r w', run cfg lib sub w = (r, w') ->
     exists evs,
       log w' = (log w ++ evs)%list /\
       forall train_set test_set,
         GetSubsets train_set test_set ∈ evs ->
         Z.of_nat (length train_set) = size).
Proof.
  intros Hd Htp Hp N size.
  destruct (prepared_train_set_size _ _ w w1 d tp Hd Htp Hp) as (Hattr & H1 & HN).
  fold N in Hattr, H1, HN. rewrite float_product_floor in Hattr, H1, HN.
  fold size in Hattr, H1, HN.
  split; [done|]. split; [done|]. split; [done|].
  intros Hpos r w' Hrun.
  destruct (run_sized w w1 d size r w' Hp Hd Hattr ltac:(fold N; lia) Hrun)
    as (evs & Hl & Hs).
  exists evs. split; [done|]. intros train_set test_set Hin.
  rewrite Forall_forall in Hs. exact (Hs _ Hin).
Qed.

End More.

(** * The properties of [organize_inputs] *)

Section InputProperties.

Context (env : Helpers).

(** X16: a Freesurfer directory that is specified and does not exist makes
    [organize_inputs] raise [IOError], before it looks at any format of
    features. *)
Theorem freesurfer_directory_missing (user_args : attributes) (dir : string) :
  specified env user_args "fs_subject_dir" = Ok (Some (PyData (DStr dir))) ->
  pexists env (abspath env dir) = false ->
  organize_inputs env user_args
  = Raise (IOError "Given Freesurfer directory doesn't exist.").
Proof.
  intros Hfs Hex. unfold organize_inputs, mbind, result_bind.
  rewrite Hfs. simpl. by rewrite Hex.
Qed.

(** The Freesurfer block of [organize_inputs], when it passes. *)
Lemma organize_inputs_after_freesurfer (user_args : attributes)
    (dir : option string) :
  freesurfer_ok env user_args dir ->
  organize_inputs env user_args =
    not_none_count ← count_specified env user_args mutually_excl_formats 0 ;
    if 1 <? not_none_count then
      Raise (ValueError ("Only one of the following formats can be specified:"
                           ++ newline ++ "{}"))
    else
      chosen ← choose_format env user_args (bool_decide (is_Some dir)) ;
      let '(feature_paths, feature_type, meta_data, meta_format,
            atleast_one_feature_specified) := chosen in
      feature_paths ← list_of feature_paths ;
      if negb atleast_one_feature_specified then
        Raise (ValueError "Atleast one method specifying features must be specified. It can be a path(s) to pyradigm dataset, matrix file, user-defined folder or a Freesurfer subject directory.")
      else
        mret {| user_feature_paths := feature_paths;
                user_feature_type := feature_type;
                fs_subject_dir := dir;
                meta_data_supplied := meta_data;
                meta_data_format := meta_format |}.
Proof.
  unfold freesurfer_ok, organize_inputs. destruct dir as [d|].
  - intros (s & Hfs & -> & Hex). rewrite Hfs. simpl. by rewrite Hex.
  - by intros ->.
Qed.

Lemma count_specified_spec (user_args : attributes) (formats : list string)
    (count : Z) :
  (forall fmt, fmt ∈ formats -> is_ok (specified env user_args fmt) = true) ->
  count_specified env user_args formats count
  = Ok (count + Z.of_nat (length (filter (fun fmt => is_specified env user_args fmt = true)
                                         formats))).
Proof.
  revert count. induction formats as [|fmt rest IH]; intros count Hok.
  - simpl. f_equal. lia.
  - cbn [count_specified]. unfold mbind, result_bind.
    rewrite filter_cons.
    pose proof (Hok fmt ltac:(by left)) as Hfmt.
    assert (is_specified env user_args fmt
            = match specified env user_args fmt with
              | Ok (Some _) => true | _ => false end) as Hspec by done.
    destruct (specified env user_args fmt) as [[v|]|e]; [| |done].
    + rewrite decide_True by done. rewrite IH by (intros f Hf; apply Hok; by right).
      f_equal. simpl. lia.
    + rewrite decide_False by (by rewrite Hspec).
      apply IH. intros f Hf. apply Hok. by right.
Qed.

(** X17: two of the four formats of features specified together make
    [organize_inputs] raise [ValueError]: the formats exclude one another,
    and none has precedence. *)
Theorem formats_exclude_one_another (user_args : attributes)
    (dir : option string) (fmt fmt' : string) :
  freesurfer_ok env user_args dir ->
  (forall f, f ∈ mutually_excl_formats ->
             is_ok (specified env user_args f) = true) ->
  fmt ∈ mutually_excl_formats -> fmt' ∈ mutually_excl_formats ->
  fmt <> fmt' ->
  is_specified env user_args fmt = true ->
  is_specified env user_args fmt' = true ->
  organize_inputs env user_args
  = Raise (ValueError ("Only one of the following formats can be specified:"
                         ++ newline ++ "{}")).
Proof.
  intros Hfs Hok Hin Hin' Hne Hs Hs'.
  rewrite (organize_inputs_after_freesurfer _ _ Hfs).
  rewrite count_specified_spec by done. unfold mbind, result_bind.
  set (chosen := filter _ _).
  assert ([fmt; fmt'] ⊆+ chosen) as Hsub.
  { apply NoDup_submseteq.
    - apply NoDup_cons. split; [by intros ?%list_elem_of_singleton|].
      apply NoDup_singleton.
    - intros f [->|[->|[]%not_elem_of_nil]%elem_of_cons]%elem_of_cons;
        by apply list_elem_of_filter. }
  apply submseteq_length in Hsub. simpl in Hsub.
  destruct (Z.ltb_spec 1 (0 + Z.of_nat (length chosen))); [done|lia].
Qed.

(** X18: with none of the four formats specified, [organize_inputs] raises
    [TypeError], from [list(None)], also when a Freesurfer directory is
    specified and exists: the check that at least one source of features
    is specified, which comes after, is not reached. *)
Theorem no_format_specified (user_args : attributes) (dir : option string) :
  freesurfer_ok env user_args dir ->
  (forall f, f ∈ mutually_excl_formats -> specified env user_args f = Ok None) ->
  organize_inputs env user_args
  = Raise (TypeError "'NoneType' object is not iterable").
Proof.
  intros Hfs Hnone.
  rewrite (organize_inputs_after_freesurfer _ _ Hfs).
  unfold mutually_excl_formats in Hnone.
  unfold choose_format, count_specified, mutually_excl_formats, mbind, result_bind.
  by rewrite !Hnone by (rewrite !elem_of_cons; auto 10).
Qed.

#[local] Arguments list_of : simpl never.
#[local] Arguments item0_of : simpl never.

(** X19: what [organize_inputs] returns. When it returns, exactly one of
    the four formats is specified; the paths are those that [check_paths]
    gave for it, as a list; the type of the features is the one of the
    format; for the pyradigm and ARFF formats the metadata is the first of
    the paths and its format is the type, and for the two others there is
    no metadata ([False], and no format); the Freesurfer directory is the
    absolute path of the one specified, which exists, or [None]. *)
Theorem organize_inputs_returns (user_args : attributes) (o : Organized) :
  organize_inputs env user_args = Ok o ->
  exists fmt v p,
    fmt ∈ mutually_excl_formats /\
    specified env user_args fmt = Ok (Some v) /\
    (forall f, f ∈ mutually_excl_formats -> f <> fmt ->
               specified env user_args f = Ok None) /\
    check_paths env v (path_type_of fmt) = Ok p /\
    list_of (Some p) = Ok (user_feature_paths o) /\
    user_feature_type o = Some (feature_type_of fmt) /\
    (if carries_metadata fmt
     then item0_of p = Ok (meta_data_supplied o) /\
          meta_data_format o = Some (feature_type_of fmt)
     else meta_data_supplied o = DBool false /\ meta_data_format o = None) /\
    freesurfer_ok env user_args (fs_subject_dir o).
Proof.
  intros H.
  assert (exists dir, freesurfer_ok env user_args dir) as [dir Hfs].
  { unfold organize_inputs, mbind, result_bind in H. unfold freesurfer_ok.
    destruct (specified env user_args "fs_subject_dir") as [[vfs|]|efs];
      [| by exists None|done].
    destruct vfs as [[]| |]; try done. simpl in H.
    destruct (pexists env (abspath env s)) eqn:Hex; [|done].
    exists (Some (abspath env s)). by exists s. }
  rewrite (organize_inputs_after_freesurfer _ _ Hfs) in H.
  unfold choose_format, count_specified, mutually_excl_formats,
    mbind, result_bind, mret, result_ret in H.
  destruct (specified env user_args "user_feature_paths") as [[v1|]|e1] eqn:H1;
    [| |done];
  (destruct (specified env user_args "data_matrix_paths") as [[v2|]|e2] eqn:H2;
    [| |done]);
  (destruct (specified env user_args "pyradigm_paths") as [[v3|]|e3] eqn:H3;
    [| |done]);
  (destruct (specified env user_args "arff_paths") as [[v4|]|e4] eqn:H4;
    [| |done]);
  simpl in H; try done.
  all: match type of H with
       | context [check_paths ?en ?v ?t] =>
           destruct (check_paths en v t) as [p|] eqn:Hcheck; [|done]
       end.
  all: simpl in H.
  all: try (destruct (item0_of p) as [first|] eqn:Hfirst; [|done]; simpl in H).
  all: destruct (list_of (Some p)) as [l|] eqn:Hlist; [|done].
  all: simpl in H; injection H as <-; simpl.
  all: match type of Hcheck with
       | check_paths _ ?v _ = _ =>
           match goal with
           | Hs : specified _ _ ?fmt = Ok (Some v) |- _ =>
               exists fmt, v, p
           end
       end.
  all: split; [unfold mutually_excl_formats; rewrite !elem_of_cons; auto 10|].
  all: split; [done|].
  all: split;
    [intros f Hf Hne; unfold mutually_excl_formats in Hf;
     rewrite !elem_of_cons in Hf;
     destruct Hf as [->|[->|[->|[->|[]%not_elem_of_nil]]]]; done|].
  all: done.
Qed.

End InputProperties.

(** * The concrete experiment, run *)

Module Runs.

Import Scenario.
Import Cases.

(** C9, on the concrete experiment with an infinite repetition count. *)
Lemma non_finite_repetitions_rejected_witness :
  exists e, conversion_error e /\
            _prepare cfg lib infinite_repetitions = (Raise e, infinite_repetitions) /\
            run cfg lib sub infinite_repetitions = (Raise e, infinite_repetitions).
Proof.
  apply (non_finite_repetitions_rejected cfg lib sub infinite_repetitions inf);
    reflexivity.
Defined.

(** C4, on the concrete experiment: 0.01 of ten samples is 0.1, of floor
    0, and a train set of one sample, in each split of the run. *)
Lemma train_set_size_clamped_witness :
  floor_int64 (binary64_product 10 (decimal 1 100)) = 0 /\
  self default_prepared !! "_train_set_size" = Some (PyData (DInt 1)) /\
  forall train_set test_set,
    GetSubsets train_set test_set ∈ log (run cfg lib sub default).2 ->
    Z.of_nat (length train_set) = 1.
Proof.
  pose proof (train_set_size_clamped cfg lib sub default default_prepared data
                (decimal 1 100)) as H.
  assert (self default !! "datasets" = Some (PyDatasets data)) as H1
    by (vm_compute; reflexivity).
  assert (self default !! "train_perc" = Some (PyData (DFloat (decimal 1 100)))) as H2
    by (vm_compute; reflexivity).
  assert (_prepare cfg lib default = (Ok tt, default_prepared)) as H3
    by (vm_compute; reflexivity).
  destruct (H H1 H2 H3) as (Hattr & _ & _ & Hrun).
  split; [vm_compute; reflexivity|]. split; [exact Hattr|].
  assert (1 <= Z.of_nat (length (samplet_ids data))) as H4 by (vm_compute; discriminate).
  destruct (Hrun H4 _ _ (surjective_pairing _)) as (evs & Hl & Hsize).
  assert (log default = []) as H5 by (vm_compute; reflexivity).
  rewrite H5 in Hl. rewrite Hl. exact Hsize.
Defined.

(** 0.29 of ten samples is 2.9, in binary64 too: a train set of two
    samples, in each of the three splits. *)
Example train_sets_of_two :
  floor_int64 (binary64_product 10 (decimal 29 100)) = 2 /\
  self (_prepare cfg lib twenty_nine_percent).2 !! "_train_set_size"
    = Some (PyData (DInt 2)) /\
  filter (fun ev => is_split ev = true)
         (log (run cfg lib sub twenty_nine_percent).2) =
  [GetSubsets ["s0"; "s2"] ["s7"; "s3"; "s5"; "s9"; "s1"; "s6"; "s4"; "s8"];
   GetSubsets ["s4"; "s3"] ["s7"; "s5"; "s9"; "s1"; "s6"; "s2"; "s8"; "s0"];
   GetSubsets ["s4"; "s7"] ["s3"; "s5"; "s9"; "s1"; "s6"; "s2"; "s8"; "s0"]].
Proof. split; [|split]; vm_compute; reflexivity. Qed.

(** C10, on the concrete experiment: a repetition count of 2.9 is two
    repetitions. *)
Lemma repetition_count_truncated_witness :
  self default_prepared !! "num_rep_cv" = Some (PyData (DInt 2)) /\
  exists evs, log default_computed = (log default_prepared ++ evs)%list /\
              repetitions evs = 2%nat.
Proof.
  assert (self default !! "num_rep_cv" = Some (PyData (DFloat (decimal 29 10))))
    as H1 by (vm_compute; reflexivity).
  assert (valid_binary prec emax (decimal 29 10) = true) as H2
    by (vm_compute; reflexivity).
  assert (fractional (decimal 29 10) = true) as H3 by (vm_compute; reflexivity).
  assert (_prepare cfg lib default = (Ok tt, default_prepared)) as H4
    by (vm_compute; reflexivity).
  assert (_run_cv cfg lib sub default_prepared = (Ok tt, default_computed)) as H5
    by (vm_compute; reflexivity).
  destruct (repetition_count_truncated cfg lib sub default (decimal 29 10) H1 H2 H3)
    as [_ H].
  destruct (H default_prepared H4) as (_ & Hn & Hrun).
  split; [exact Hn|].
  destruct (Hrun (Ok tt) default_computed H5) as (evs & Hl & _ & Heq).
  exists evs. split; [exact Hl|]. exact (Heq eq_refl).
Defined.

(** A repetition count of 1.9 is one repetition, which is too few. *)
Example one_point_nine_rejected :
  let w := constructed (args (DFloat (decimal 1 2)) (DFloat (decimal 19 10)) 1
                          "light" "classify") ∅ in
  (run cfg lib sub w).1 =
    Raise (ValueError "More than 1 repetition is necessary!") /\
  log (run cfg lib sub w).2 = [].
Proof. split; vm_compute; reflexivity. Qed.

(** C8, on the concrete experiment with two processes. *)
Lemma parallel_runs_not_implemented_witness :
  _run_cv cfg lib sub parallel_prepared =
    (Raise (NotImplementedError
              "parallel runs not implemented yet!Use num_procs=1 for now"),
     parallel_prepared).
Proof.
  assert (_prepare cfg lib parallel = (Ok tt, parallel_prepared)) as H
    by (vm_compute; reflexivity).
  destruct (parallel_runs_not_implemented cfg lib sub parallel parallel_prepared H)
    as (procs & n & _ & Hprocs & _ & Hpar & _).
  assert (self parallel_prepared !! "num_procs" = Some (PyData (DInt 2))) as H2
    by (vm_compute; reflexivity).
  rewrite H2 in Hprocs. injection Hprocs as <-.
  apply Hpar. reflexivity.
Defined.

(** C8 as stated fails: the configuration is valid, the validated worker
    count is two, and [run] raises without having run a repetition. *)
Lemma parallel_run_raises :
  _prepare cfg lib parallel = (Ok tt, parallel_prepared) /\
  self parallel_prepared !! "num_procs" = Some (PyData (DInt 2)) /\
  run cfg lib sub parallel =
    (Raise (NotImplementedError
              "parallel runs not implemented yet!Use num_procs=1 for now"),
     parallel_prepared) /\
  repetitions (log parallel_prepared) = 0%nat.
Proof. split; [|split; [|split]]; vm_compute; reflexivity. Qed.

(** C7 fails on the pipeline that the workflow fits, which is one of
    sklearn: its second step is the pair of a name and a selector that has
    [get_support], its last step the pair of a name and an estimator that
    has the importance attribute [feature_importances_] that
    [cfg.importance_attr] lists for it; [_get_feature_importance] looks for
    [get_support] on the pair, which has none, and returns the absent
    marker [None], and so the run records no importance. *)
Theorem importance_of_fitted_pipeline_absent :
  sklearn_pipeline fitted /\
  selector_support fitted = Some [0%nat] /\
  estimator_importance cfg (PyData (DStr "randomforestclassifier")) fitted
    = Some (AVector [fone]) /\
  _get_feature_importance cfg (PyData (DStr "randomforestclassifier")) fitted 2 nan
    = Ok None /\
  (_optimize_pipeline_on_train_set cfg lib
     {| nrows := 1; ncols := 2; entries := [fone; fone] |} [] default_prepared).1
    = Ok (fitted, DNone, None).
Proof.
  split; [by repeat constructor|].
  split; [reflexivity|]. split; [reflexivity|].
  split; [|vm_compute; reflexivity].
  apply (sklearn_pipeline_importance cfg); [by repeat constructor|].
  vm_compute. lia.
Qed.

(** On an object that keeps in [steps] the stages themselves, which select
    feature 0 of two: the importance of the estimator at the selected
    feature, the fill value at the other. *)
Lemma feature_importance_extraction_witness :
  exists v,
    _get_feature_importance cfg (PyData (DStr "randomforestclassifier")) stages 2 nan
    = Ok (Some v).
Proof.
  destruct (feature_importance_extraction cfg
              (PyData (DStr "randomforestclassifier")) stages 2 nan) as (_ & _ & H).
  apply H.
  - vm_compute. lia.
  - reflexivity.
  - intros index importance H1 H2. vm_compute in H1, H2.
    injection H1 as <-. injection H2 as <-.
    split; [|reflexivity]. repeat constructor.
Defined.

Example feature_importance_vector :
  _get_feature_importance cfg (PyData (DStr "randomforestclassifier")) stages 2 nan
  = Ok (Some [fone; nan]).
Proof. reflexivity. Qed.

(** C5 fails for a train fraction that is NaN, which is not between 0 and
    1: both comparisons of [_prepare] are false, the configuration passes,
    the train-set size becomes 1 and the run goes through its repetitions. *)
Theorem nan_train_fraction_accepted :
  (_prepare cfg lib nan_fraction).1 = Ok tt /\
  self (_prepare cfg lib nan_fraction).2 !! "_train_set_size"
    = Some (PyData (DInt 1)) /\
  (run cfg lib sub nan_fraction).1 = Ok (PyData (DStr "/out/results_neuropredict.pkl")) /\
  repetitions (log (run cfg lib sub nan_fraction).2) = 2%nat.
Proof. split; [|split; [|split]]; vm_compute; reflexivity. Qed.

(** C6 fails when no covariates are configured ([covariates=None], the
    default of the constructor): the repetition still asks the datasets
    for the covariates [None] of the train and of the test samples, fits
    the deconfounder, and optimises the pipeline on what the deconfounder
    returns, here two columns where the preprocessed features have one. *)
Theorem deconfounding_without_covariates :
  self default_prepared !! "covariates" = Some (PyData DNone) /\
  exists train_set test_set,
    log (_single_run_cv cfg lib sub (DInt 0) default_prepared).2 =
      (log default_prepared ++
       [GetSubsets train_set test_set; Preprocess;
        GetCommonAttr DNone train_set; GetCommonAttr DNone test_set;
        Deconfound (ones 1) (ones 1);
        Optimize {| nrows := 1; ncols := 2; entries := [fone; fone] |};
        Evaluate (DInt 0) "m0"])%list.
Proof. split; [by vm_compute|]. eexists _, _. vm_compute. reflexivity. Qed.

(** C1, on the concrete experiment: the run draws two splits, each of one
    train sample and nine test samples, of the ten samples. *)
Lemma train_test_partition_witness :
  repetitions (log (run cfg lib sub default).2) = 2%nat /\
  forall train_set test_set,
    GetSubsets train_set test_set ∈ log (run cfg lib sub default).2 ->
    (forall x, x ∈ train_set -> x ∉ test_set) /\
    (forall x, x ∈ samplet_ids data <-> x ∈ train_set \/ x ∈ test_set).
Proof.
  split; [vm_compute; reflexivity|].
  assert (self default !! "datasets" = Some (PyDatasets data)) as H1
    by (vm_compute; reflexivity).
  destruct (train_test_partition cfg lib sub default data
              (run cfg lib sub default).1 (run cfg lib sub default).2 H1
              (surjective_pairing _)) as (evs & Hl & H).
  assert (log default = []) as H2 by (vm_compute; reflexivity).
  rewrite H2 in Hl. rewrite Hl. exact H.
Defined.

Example default_splits :
  filter (fun ev => is_split ev = true) (log (run cfg lib sub default).2) =
  [GetSubsets ["s0"] ["s7"; "s3"; "s5"; "s9"; "s1"; "s6"; "s2"; "s4"; "s8"];
   GetSubsets ["s4"] ["s7"; "s3"; "s5"; "s9"; "s1"; "s6"; "s2"; "s8"; "s0"]].
Proof. vm_compute. reflexivity. Qed.

(** C2, on the concrete experiment after its repetitions: saved, then
    loaded from the file that [save] wrote. *)
Lemma persist_reload_round_trip_witness :
  exists w1 w3,
    save cfg reloading default_computed = (Ok (PyData (DStr results_path)), w1) /\
    load cfg reloading w1 = (Ok tt, w3) /\
    forall var, var ∈ results_to_save cfg ->
                self w3 !! var = Some (getattr_default (self default_computed) var).
Proof.
  assert (self default_computed !! "_out_results_path"
          = Some (PyData (DStr results_path))) as H1 by (vm_compute; reflexivity).
  assert (writable default_computed results_path = true) as H2 by reflexivity.
  assert (pickle_dump reloading (out_dict cfg (self default_computed))
          = Some [Byte.x01]) as H3 by reflexivity.
  assert (pickle_load reloading [Byte.x01]
          = Some (out_dict cfg (self default_computed))) as H4 by reflexivity.
  destruct (persist_reload_round_trip cfg reloading default_computed results_path
              [Byte.x01] H1 H2 H3 H4) as (w1 & Hsave & Hself & Hfile & Hload).
  assert (self w1 !! "_out_results_path" = Some (PyData (DStr results_path))) as H5
    by (rewrite Hself; exact H1).
  destruct (Hload w1 H5 Hfile) as (w3 & Hl & Hsaved & _).
  exists w1, w3. split; [exact Hsave|]. split; [exact Hl|exact Hsaved].
Defined.

Example reloaded_results :
  let w1 := (save cfg reloading default_computed).2 in
  let w3 := (load cfg reloading w1).2 in
  files w1 !! results_path = Some [Byte.x01] /\
  self w3 !! "results" = self default_computed !! "results" /\
  self w3 !! "num_rep_cv" = Some (PyData (DInt 2)) /\
  self w3 !! "_positive_class" = Some (PyData DNone).
Proof. split; [|split; [|split]]; vm_compute; reflexivity. Qed.

(** The summary of the concrete experiment is computed from [results],
    which is saved. *)
Lemma summary_of_saved (a a' : attributes) :
  (forall var, var ∈ results_to_save cfg ->
               getattr_default a var = getattr_default a' var) ->
  summarize sub a = summarize sub a'.
Proof.
  intros H. specialize (H "results"). unfold getattr_default in H.
  assert ("results" ∈ results_to_save cfg) as Hin by (by repeat constructor).
  specialize (H Hin). unfold sub, summarize.
  destruct (a !! "results") as [[]|], (a' !! "results") as [[]|];
    cbn [default from_option id] in H; try congruence.
  by injection H as ->.
Qed.

(** C3, on the concrete experiment: the first run, on an empty disk, draws
    its two splits, saves and reports; the second run, on the files of the
    first, reloads and reports the same. *)
Lemma run_idempotent_witness :
  exists s cv r2 w2' evs2,
    log first_run.2 =
      (log default ++ cv ++ [PickleDump results_path; Summarize s; Visualize])%list /\
    repetitions cv = 2%nat /\
    run cfg reloading sub second = (r2, w2') /\
    log w2' = (log second ++ evs2)%list /\
    Forall (fun ev => is_cv ev = false) evs2 /\
    reports evs2 = [s].
Proof.
  assert (_prepare cfg reloading default = (Ok tt, default_prepared)) as H1
    by (vm_compute; reflexivity).
  assert (self default_prepared !! "_out_results_path"
          = Some (PyData (DStr results_path))) as H2 by (vm_compute; reflexivity).
  destruct (run_idempotent cfg reloading sub default default_prepared results_path
              first_run.1 first_run.2 H1 H2 (surjective_pairing _))
    as (evs & Hl & _ & Hcomputed & Hsecond).
  assert (is_ok first_run.1 = true) as H3 by (vm_compute; reflexivity).
  assert (stored (files default) results_path = false) as H4 by reflexivity.
  destruct (Hcomputed H4 H3) as (n & cv & s & content & Hn & Hevs & Hrep & _).
  assert (self default_prepared !! "num_rep_cv" = Some (PyData (DInt 2))) as H5
    by (vm_compute; reflexivity).
  rewrite H5 in Hn. injection Hn as <-.
  assert (forall content,
            pickle_dump reloading (out_dict cfg (self first_run.2)) = Some content ->
            content <> [] /\
            pickle_load reloading content
            = Some (out_dict cfg (self first_run.2))) as H6.
  { intros c Hc. injection Hc as <-. split; [discriminate|].
    vm_compute. reflexivity. }
  destruct (Hsecond H3 H6 summary_of_saved second eq_refl eq_refl)
    as (s' & front & r2 & w2' & evs2 & Hevs' & Hrun2 & Hl2 & Hno & _ & Hreports).
  assert (s' = s) as ->.
  { rewrite Hevs in Hevs'.
    change [PickleDump results_path; Summarize s; Visualize]
      with ([PickleDump results_path] ++ [Summarize s; Visualize])%list in Hevs'.
    rewrite app_assoc in Hevs'.
    apply app_inj_2 in Hevs' as [_ Heq]; [|reflexivity].
    injection Heq as ->. reflexivity. }
  exists s, cv, r2, w2', evs2.
  split; [rewrite Hl, Hevs; reflexivity|].
  split; [exact Hrep|]. split; [exact Hrun2|]. split; [exact Hl2|].
  split; [exact Hno|exact Hreports].
Defined.

Example second_run_report :
  reports (log first_run.2) = ["two repetitions"] /\
  log (run cfg reloading sub second).2 =
    [ReadSampletIds; ReadTargetSizes; PickleLoad results_path;
     Summarize "two repetitions"; Visualize].
Proof. split; vm_compute; reflexivity. Qed.

End Runs.

(** * More concrete cases, run *)

Module Checks.

Import Scenario Cases.

(** X1, on a workflow of type "Cluster". *)
Lemma constructor_rejects_workflow_witness :
  __init__ cfg clustering_args (fresh ∅) =
    (Raise (ValueError "Invalid workflow. Must be one of {}"),
     with_self (configured clustering_args ∅) (fresh ∅)).
Proof.
  apply (constructor_rejects_workflow cfg clustering_args (fresh ∅) "Cluster").
  - reflexivity.
  - simpl. rewrite !not_elem_of_cons.
    repeat split; try discriminate. apply not_elem_of_nil.
Defined.

(** X2, on the default arguments, whose workflow type is "Classify". *)
Lemma constructor_builds_witness :
  exists w',
    __init__ cfg default_args (fresh ∅) = (Ok tt, w') /\
    self w' !! "_workflow_type" = Some (PyData (DStr "classify")) /\
    self w' !! "results" =
      Some (PyResults (ClassifyCVResults (DStr "accuracy")
                         (DFloat (decimal 29 10)) ["m0"])).
Proof.
  eexists. split.
  - apply (constructor_builds cfg default_args (fresh ∅) "Classify" data
             (DStr "accuracy") (DFloat (decimal 29 10))); try reflexivity.
    simpl. rewrite !elem_of_cons. by left.
  - split; reflexivity.
Defined.

(** X3, on a repetition count of 1. *)
Lemma prepare_rejects_witness :
  exists e w', _prepare cfg lib one_repetition = (Raise e, w') /\
               run cfg lib sub one_repetition = (Raise e, w') /\
               files w' = files one_repetition /\
               random_state w' = random_state one_repetition /\
               log w' = log one_repetition.
Proof.
  apply (prepare_rejects cfg lib sub one_repetition).
  left. exists 1. split; [vm_compute; reflexivity|lia].
Defined.

(** X4, on an output directory that is [None]. *)
Lemma prepare_needs_out_dir_witness :
  exists w',
    _prepare cfg lib no_out_dir =
      (Raise (TypeError "expected str, bytes or os.PathLike object"), w') /\
    run cfg lib sub no_out_dir =
      (Raise (TypeError "expected str, bytes or os.PathLike object"), w') /\
    files w' = files no_out_dir /\
    log w' = (log no_out_dir ++ [ReadSampletIds])%list.
Proof.
  apply (prepare_needs_out_dir cfg lib sub no_out_dir 2 1 5
           (DFloat (decimal 1 2)) data).
  - split.
    + exists (DInt 2). split; [vm_compute; reflexivity|reflexivity].
    + reflexivity.
    + lia.
    + vm_compute; reflexivity.
    + reflexivity.
    + reflexivity.
    + exists (PyData (DInt 1)). split; [vm_compute; reflexivity|reflexivity].
    + exists "light". split; [vm_compute; reflexivity|vm_compute; reflexivity].
    + vm_compute; reflexivity.
  - vm_compute; reflexivity.
  - vm_compute; reflexivity.
Defined.

(** X5, on the modality of the concrete experiment: it has no missing
    data, so it is not imputed. *)
Lemma modality_calls_witness :
  exists covariates deconf_data deconf_covar opt_data,
    log (_single_run_cv_modality cfg lib sub (DInt 0) ["s5"] ["s7"; "s3"]
           modality default_prepared).2 =
      (log default_prepared ++
       [Preprocess;
        GetCommonAttr covariates ["s5"]; GetCommonAttr covariates ["s7"; "s3"];
        Deconfound deconf_data deconf_covar;
        Optimize opt_data;
        Evaluate (DInt 0) "m0"])%list.
Proof.
  assert (_single_run_cv_modality cfg lib sub (DInt 0) ["s5"] ["s7"; "s3"]
            modality default_prepared
          = (Ok tt,
             (_single_run_cv_modality cfg lib sub (DInt 0) ["s5"] ["s7"; "s3"]
                modality default_prepared).2)) as H
    by (vm_compute; reflexivity).
  destruct (modality_calls cfg lib sub (DInt 0) ["s5"] ["s7"; "s3"] "m0"
              (ones 1, []) (ones 9, []) default_prepared _ H)
    as (d & missing & covariates & dd & dc & od & Hd & Hm & _ & Hl).
  assert (self default_prepared !! "datasets" = Some (PyDatasets data)) as Hd'
    by (vm_compute; reflexivity).
  rewrite Hd' in Hd. injection Hd as <-.
  injection Hm as <-.
  exists covariates, dd, dc, od. exact Hl.
Defined.

(** X6, on the first repetition of the concrete experiment: one train
    sample, nine test samples. *)
Lemma repetition_split_witness :
  exists train_set test_set rest,
    log (_single_run_cv cfg lib sub (DInt 0) default_prepared).2 =
      (log default_prepared ++ GetSubsets train_set test_set :: rest)%list /\
    length train_set = 1%nat /\ length test_set = 9%nat /\
    train_set ++ test_set ≡ₚ samplet_ids data.
Proof.
  assert (self default_prepared !! "_id_list" = Some (id_list (samplet_ids data)))
    as H1 by (vm_compute; reflexivity).
  assert (self default_prepared !! "_train_set_size" = Some (PyData (DInt 1)))
    as H2 by (vm_compute; reflexivity).
  assert (_single_run_cv cfg lib sub (DInt 0) default_prepared
          = (Ok tt, (_single_run_cv cfg lib sub (DInt 0) default_prepared).2))
    as H3 by (vm_compute; reflexivity).
  destruct (repetition_split cfg lib sub (DInt 0) default_prepared _
              (samplet_ids data) 1 H1 H2 H3)
    as (train_set & test_set & rest & Hl & _ & _ & Hsize).
  assert (0 <= 1 <= Z.of_nat (length (samplet_ids data))) as H4
    by (simpl; lia).
  destruct (Hsize H4) as [Htrain Htest].
  assert (NoDup (samplet_ids data)) as H5 by (refine (bool_decide_unpack _ _); vm_compute; exact I).
  destruct (Htest H5) as [Hlen Hperm].
  exists train_set, test_set, rest.
  split; [exact Hl|]. split; [exact Htrain|]. split; [exact Hlen|exact Hperm].
Defined.

(** The shuffle of two identifiers leaves them as they are when the draw
    is the last position, and swaps them when it is the first. *)
Example shuffle_of_two :
  (shuffle ["a"; "b"] (fun _ => 1%nat)).1 = ["a"; "b"] /\
  (shuffle ["a"; "b"] (fun _ => 0%nat)).1 = ["b"; "a"].
Proof. split; reflexivity. Qed.

(** X7, on the object of the concrete experiment after its repetitions,
    and an empty disk: the results file is the only file. *)
Example save_of_computed :
  files (save cfg lib default_computed).2 = {[ results_path := [Byte.x01] ]}.
Proof. vm_compute. reflexivity. Qed.

(** X8, on the prepared object where nothing can be written. *)
Lemma save_unwritable_witness :
  save cfg lib locked =
    (Raise (IOError ("Error saving the results to disk!" ++ newline
                       ++ "Out path:{}")), locked).
Proof.
  apply (save_unwritable cfg lib locked results_path).
  - vm_compute; reflexivity.
  - reflexivity.
Defined.

(** X9, on an object that has no attribute. *)
Lemma save_before_prepare_witness :
  save cfg lib (fresh ∅) = (Raise (AttributeError "_out_results_path"), fresh ∅).
Proof. apply (save_before_prepare cfg lib (fresh ∅)). reflexivity. Defined.

(** X10, on the prepared object and an empty disk. *)
Lemma load_unreadable_witness :
  exists w',
    load cfg lib default_prepared
      = (Raise (IOError "Error load the results from path: {}"), w') /\
    self w' = self default_prepared /\ files w' = files default_prepared /\
    log w' = (log default_prepared ++ [])%list.
Proof.
  assert (self default_prepared !! "_out_results_path"
          = Some (PyData (DStr results_path))) as H1 by (vm_compute; reflexivity).
  assert (files default_prepared !! results_path = None) as H2
    by (vm_compute; reflexivity).
  pose proof (load_unreadable cfg lib default_prepared results_path H1) as H.
  rewrite H2 in H. exact (H I).
Defined.

(** X11, on a pickle that loads the workflow type only: it is set, and the
    next name, [_id_list], is the key of the error. *)
Lemma load_missing_key_witness :
  exists w',
    load cfg partial prepared_with_results_file = (Raise (KeyError "_id_list"), w') /\
    self w' !! "_workflow_type" = Some (PyData (DStr "classify")).
Proof.
  eexists. split.
  - apply (load_missing_key cfg partial prepared_with_results_file results_path
             [Byte.x01] {[ "_workflow_type" := PyData (DStr "classify") ]}
             ["_workflow_type"]
             ["_train_set_size"; "num_rep_cv"; "results"; "_positive_class"]
             "_id_list").
    + vm_compute; reflexivity.
    + vm_compute; reflexivity.
    + reflexivity.
    + reflexivity.
    + intros x Hx. apply list_elem_of_singleton in Hx. subst x.
      exists (PyData (DStr "classify")). reflexivity.
    + reflexivity.
  - vm_compute; reflexivity.
Defined.

(** X12, on a results file that the pickle does not load. *)
Lemma run_unreadable_results_witness :
  run cfg lib sub with_results_file =
    (Raise (IOError "Error load the results from path: {}"),
     with_log (log prepared_with_results_file ++ [PickleLoad results_path])
       prepared_with_results_file).
Proof.
  apply (run_unreadable_results cfg lib sub with_results_file
           prepared_with_results_file results_path [Byte.x01]).
  - vm_compute; reflexivity.
  - vm_compute; reflexivity.
  - vm_compute; reflexivity.
  - discriminate.
  - reflexivity.
Defined.

(** X13, on the stages of the concrete experiment, kept themselves in
    [steps]: feature 0 is selected and has the importance 1.0. *)
Lemma feature_importance_selected_witness :
  exists values,
    length values = 1%nat /\ [fone; nan] !! 0%nat = values !! 0%nat.
Proof.
  destruct (feature_importance_selected cfg
              (PyData (DStr "randomforestclassifier")) stages 2 nan [fone; nan]
              eq_refl)
    as (index & importance & values & Hindex & _ & _ & Hlen & Hsel).
  injection Hindex as <-.
  exists values. split; [exact Hlen|].
  apply (Hsel (NoDup_singleton _) 0%nat 0%nat). reflexivity.
Defined.

(** X15, on the repetitions of the concrete experiment. *)
Lemma repetitions_frame_witness :
  self default_computed !! "_train_set_size" = Some (PyData (DInt 1)) /\
  exists ids', self default_computed !! "_id_list" = Some (id_list ids') /\
               ids' ≡ₚ samplet_ids data.
Proof.
  assert (self default_prepared !! "num_rep_cv" = Some (PyData (DInt 2))) as H1
    by (vm_compute; reflexivity).
  assert (self default_prepared !! "_id_list" = Some (id_list (samplet_ids data)))
    as H2 by (vm_compute; reflexivity).
  destruct (repetitions_frame cfg lib sub default_prepared default_computed
              (_run_cv cfg lib sub default_prepared).1 2 (samplet_ids data)
              H1 H2 (surjective_pairing _))
    as (Ha & _ & Hperm).
  split; [|exact Hperm].
  rewrite Ha by discriminate. vm_compute; reflexivity.
Defined.

(** X16, on a Freesurfer directory that does not exist; the pyradigm
    dataset that is specified as well is not looked at. *)
Lemma freesurfer_directory_missing_witness :
  organize_inputs helpers freesurfer_elsewhere
  = Raise (IOError "Given Freesurfer directory doesn't exist.").
Proof.
  apply (freesurfer_directory_missing helpers freesurfer_elsewhere "/nowhere");
    reflexivity.
Defined.

(** X17, on a pyradigm dataset and a data matrix together. *)
Lemma formats_exclude_one_another_witness :
  organize_inputs helpers two_formats
  = Raise (ValueError ("Only one of the following formats can be specified:"
                         ++ newline ++ "{}")).
Proof.
  apply (formats_exclude_one_another helpers two_formats None
           "pyradigm_paths" "data_matrix_paths").
  - reflexivity.
  - intros f Hf. unfold mutually_excl_formats in Hf.
    rewrite !elem_of_cons in Hf.
    destruct Hf as [->|[->|[->|[->|Hf]]]];
      [reflexivity..|by apply not_elem_of_nil in Hf].
  - unfold mutually_excl_formats. rewrite !elem_of_cons. auto.
  - unfold mutually_excl_formats. rewrite !elem_of_cons. auto.
  - discriminate.
  - reflexivity.
  - reflexivity.
Defined.

(** X18, on a Freesurfer directory, which exists, and no format. *)
Lemma no_format_specified_witness :
  organize_inputs helpers freesurfer_only
  = Raise (TypeError "'NoneType' object is not iterable").
Proof.
  apply (no_format_specified helpers freesurfer_only (Some "/subjects")).
  - exists "/subjects". split; [reflexivity|]. split; reflexivity.
  - intros f Hf. unfold mutually_excl_formats in Hf.
    rewrite !elem_of_cons in Hf.
    destruct Hf as [->|[->|[->|[->|Hf]]]];
      [reflexivity..|by apply not_elem_of_nil in Hf].
Defined.

(** X19, on a pyradigm dataset of two paths and a Freesurfer directory. *)
Lemma organize_inputs_returns_witness :
  exists o,
    organize_inputs helpers pyradigm_only = Ok o /\
    user_feature_paths o = [DStr "/data/a.pkl"; DStr "/data/b.pkl"] /\
    user_feature_type o = Some "pyradigm" /\
    meta_data_supplied o = DStr "/data/a.pkl" /\
    meta_data_format o = Some "pyradigm" /\
    fs_subject_dir o = Some "/subjects".
Proof.
  destruct (organize_inputs helpers pyradigm_only) as [o|e] eqn:H;
    [|discriminate H].
  exists o. split; [reflexivity|].
  destruct (organize_inputs_returns helpers pyradigm_only o H)
    as (fmt & v & p & Hin & Hspec & _ & Hcheck & Hlist & Htype & Hmeta & Hfs).
  assert (fmt = "pyradigm_paths") as ->.
  { unfold mutually_excl_formats in Hin. rewrite !elem_of_cons in Hin.
    destruct Hin as [->|[->|[->|[->|Hin]]]];
      [discriminate Hspec|discriminate Hspec|reflexivity|discriminate Hspec
      |by apply not_elem_of_nil in Hin]. }
  injection Hspec as <-. injection Hcheck as <-.
  injection Hlist as <-. simpl in Hmeta. destruct Hmeta as [Hfirst Hformat].
  injection Hfirst as <-.
  split; [reflexivity|]. split; [exact Htype|]. split; [reflexivity|].
  split; [exact Hformat|].
  destruct (fs_subject_dir o) as [d|]; [|discriminate Hfs].
  destruct Hfs as (s & Hs & -> & _). injection Hs as <-. reflexivity.
Defined.

(** X20, on the concrete experiment: the covariates and the predictive
    model are as the constructor stored them. *)
Lemma prepare_sets_only_witness :
  self default_prepared !! "covariates" = self default !! "covariates" /\
  self default_prepared !! "pred_model" = self default !! "pred_model" /\
  files default_prepared = files default.
Proof.
  assert (_prepare cfg lib default = (Ok tt, default_prepared)) as H
    by (vm_compute; reflexivity).
  destruct (prepare_sets_only cfg lib default default_prepared H)
    as (Ha & Hf & _).
  clear H.
  split; [|split; [|exact Hf]]; apply Ha;
    rewrite !not_elem_of_cons; repeat split;
    try (intros Hne; discriminate Hne); apply not_elem_of_nil.
Defined.

End Checks.
